(** * NCBENCHMARK anomaly detector: the detection loop, the pivot and the
    summary of [Program/logic.py], and the input check of [app/gui.py].

    Conventions of the embedding.
    - A pandas cell is a [cell]: the missing marker [NaN], a number, or a
      piece of text.  A column that [read_csv] could parse holds [Num] and
      [NaN] cells; a column of dtype object holds [Str] and [NaN] cells; the
      functions below accept any mixture.
    - A number in a cell, a year or a threshold is written as a rational
      ([Q]): the exact value of the float the program holds.  Years and
      values are compared by these exact values.
    - The statistics of lines 107-111 are computed as numpy computes them,
      in binary64 with rounding to nearest even ([B64], on the Standard
      Library's [SpecFloat]): the value and the baseline are rounded to
      binary64 first, which changes nothing for a number that is a float
      and gives a decimal numeral of the examples the float [read_csv] and
      [float] give it; sums are numpy's pairwise sums; overflow gives an
      infinity and an undefined operation a NaN, as in the program.  The
      threshold is compared by its exact value.
    - Python's [float(s)] and [int(s)] on text are parameters of the
      development ([float_of_str], [int_of_str]); [Lit] gives an instance
      for plain decimal literals, used by the worked examples.
    - The workbook of lines 154-165 is the list of its sheets, each a title
      and the rows written to it; the title openpyxl gives a new sheet when
      one exists that equals it up to case is a parameter
      ([avoid_duplicate_name]).
    - An exception that leaves [run_anomaly_detection] is a [Raise] result. *)

From Stdlib Require Import List String Ascii ZArith QArith Bool Lia.
From Stdlib Require Import Permutation Sorted DecimalString.
From Stdlib Require SpecFloat.
From stdpp Require Import gmap strings.
Import ListNotations.

(* ================================================================== *)
(** * Python values and exceptions *)
(* ================================================================== *)

Inductive exn := ValueError | TypeError.

Inductive res (A : Type) :=
| Ok (a : A)
| Raise (e : exn).
Arguments Ok {A} a.
Arguments Raise {A} e.

Definition res_bind {A B} (m : res A) (k : A -> res B) : res B :=
  match m with
  | Ok a => k a
  | Raise e => Raise e
  end.

Notation "'do' x <- m ; k" := (res_bind m (fun x => k))
  (at level 10, x name, m at level 100, k at level 200, only parsing).

(** [for x in xs: acc = body(acc, x)], stopping at the first exception. *)
Fixpoint for_each {A S} (body : S -> A -> res S) (xs : list A) (acc : S) : res S :=
  match xs with
  | [] => Ok acc
  | x :: xs' => do acc' <- body acc x; for_each body xs' acc'
  end.

(** [[f(x) for x in xs]], stopping at the first exception. *)
Fixpoint map_res {A B} (f : A -> res B) (xs : list A) : res (list B) :=
  match xs with
  | [] => Ok []
  | x :: xs' => do y <- f x; do ys <- map_res f xs'; Ok (y :: ys)
  end.

Inductive cell :=
| NaN
| Num (x : Q)
| Str (s : string).

(** [x < y] on two numbers. *)
Definition Qltb (x y : Q) : bool := negb (Qle_bool y x).

(** [pd.isna(c)] / [pd.notna(c)]. *)
Definition isna (c : cell) : bool :=
  match c with NaN => true | _ => false end.

Definition notna (c : cell) : bool := negb (isna c).

(** Elementwise [column == scalar]: a missing value equals nothing, a
    number never equals a text. *)
Definition cell_eq (a b : cell) : bool :=
  match a, b with
  | Num x, Num y => Qeq_bool x y
  | Str s, Str t => String.eqb s t
  | _, _ => false
  end.

(** Elementwise [column < current_year] with a float on the right: a
    missing value gives False; a text cell cannot be ordered against a
    float, and the comparison raises TypeError. *)
Definition cell_lt_float (a : cell) (y : Q) : res bool :=
  match a with
  | NaN => Ok false
  | Num x => Ok (Qltb x y)
  | Str _ => Raise TypeError
  end.

(* ================================================================== *)
(** * Binary64 arithmetic *)
(* ================================================================== *)

(** IEEE 754 binary64 with rounding to nearest, ties to even: the
    arithmetic of Python's [float] and of numpy's [float64]. *)
Module B64.

Import SpecFloat.

Definition prec : Z := 53.
Definition emax : Z := 1024.

Definition float : Type := spec_float.

Definition zero : float := S754_zero false.

Definition add : float -> float -> float := SFadd prec emax.
Definition sub : float -> float -> float := SFsub prec emax.
Definition mul : float -> float -> float := SFmul prec emax.
Definition div : float -> float -> float := SFdiv prec emax.
Definition sqrt : float -> float := SFsqrt prec emax.
Definition abs : float -> float := SFabs.

(** An integer as a float, as numpy converts a count. *)
Definition of_Z (n : Z) : float := binary_normalize prec emax n 0 false.

(** The float nearest to a rational: the quotient of numerator and
    denominator rounded once.  On a rational that is a float it returns
    this float; on a decimal numeral it returns what [float] returns on
    its text; beyond the largest float it returns an infinity. *)
Definition of_Q (q : Q) : float :=
  let round (s : bool) (n : positive) : float :=
    let '(m, e, l) :=
      SFdiv_core_binary prec emax (Zpos n) 0 (Zpos (Qden q)) 0 in
    binary_round_aux prec emax s m e l in
  match Qnum q with
  | Z0 => zero
  | Zpos n => round false n
  | Zneg n => round true n
  end.

(** [x != 0] is false on the two zeros only. *)
Definition is_zero (x : float) : bool :=
  match x with
  | S754_zero _ => true
  | _ => false
  end.

(** The exact value of [m * 2^e]. *)
Definition magnitude (m : positive) (e : Z) : Q :=
  match e with
  | Z0 => Zpos m # 1
  | Zpos p => (Zpos m * 2 ^ Zpos p) # 1
  | Zneg p => Zpos m # (2 ^ p)
  end.

(** [x > t] for a float [x] and a number [t]: never for a NaN. *)
Definition gt_Q (x : float) (t : Q) : bool :=
  match x with
  | S754_nan => false
  | S754_infinity s => negb s
  | S754_zero _ => Qltb t 0
  | S754_finite false m e => Qltb t (magnitude m e)
  | S754_finite true m e => Qltb t (- magnitude m e)
  end.

End B64.

(* ================================================================== *)
(** * Statistics of the baseline *)
(* ================================================================== *)

(** numpy's [mean] and [std] on a one-dimensional [float64] array
    ([_methods._mean], [_methods._var], [_methods._std]) and its sum
    ([pairwise_sum] of the [add] loop). *)
Module Stats.

Definition zip_add (r l : list B64.float) : list B64.float :=
  map (fun xy : B64.float * B64.float => B64.add (fst xy) (snd xy))
      (combine r l).

(** [for (i = 8; i < n - (n % 8); i += 8) r[j] += a[i + j]]: the eight
    partial sums after the full blocks of eight, and the elements left. *)
Fixpoint lanes (fuel : nat) (r l : list B64.float)
    : list B64.float * list B64.float :=
  match fuel with
  | O => (r, l)
  | S fuel' =>
      if (8 <=? length l)%nat
      then lanes fuel' (zip_add r (firstn 8 l)) (skipn 8 l)
      else (r, l)
  end.

(** The sum of at least 8 and at most 128 elements. *)
Definition block_sum (a : list B64.float) : B64.float :=
  let '(r, rest) := lanes (length a) (firstn 8 a) (skipn 8 a) in
  match r with
  | [r0; r1; r2; r3; r4; r5; r6; r7] =>
      fold_left B64.add rest
        (B64.add (B64.add (B64.add r0 r1) (B64.add r2 r3))
                 (B64.add (B64.add r4 r5) (B64.add r6 r7)))
  | _ => B64.zero
  end.

(** [pairwise_sum(a, n)]: fewer than 8 elements are added one after the
    other, up to 128 in eight lanes, more by halves.  [fuel] bounds the
    depth of the halving; the length of the list is enough
    ([pairwise_sum_fuel]). *)
Fixpoint pairwise_sum (fuel : nat) (a : list B64.float) : B64.float :=
  let n := length a in
  if (n <? 8)%nat then fold_left B64.add a B64.zero
  else if (n <=? 128)%nat then block_sum a
  else
    match fuel with
    | O => B64.zero
    | S fuel' =>
        let n2 := (n / 2)%nat in
        let n2 := (n2 - n2 mod 8)%nat in
        B64.add (pairwise_sum fuel' (firstn n2 a))
                (pairwise_sum fuel' (skipn n2 a))
    end.

(** [np.add.reduce(a)] *)
Definition sum (a : list B64.float) : B64.float :=
  pairwise_sum (length a) a.

Definition count (a : list B64.float) : B64.float :=
  B64.of_Z (Z.of_nat (length a)).

Definition array (l : list Q) : list B64.float := map B64.of_Q l.

(** [historical_data.mean()] *)
Definition mean (l : list Q) : B64.float :=
  B64.div (sum (array l)) (count (array l)).

(** [historical_data.std()]: the square root of the mean of the squared
    deviations from the mean (ddof=0). *)
Definition std_dev (l : list Q) : B64.float :=
  let arrmean := mean l in
  let x := map (fun a => B64.sub a arrmean) (array l) in
  let x := map (fun d => B64.mul d d) x in
  B64.sqrt (B64.div (sum x) (count x)).

(** [(current_val - mean) / std_dev if std_dev != 0 else 0] *)
Definition z_score (v : Q) (l : list Q) : B64.float :=
  let mean := mean l in
  let std_dev := std_dev l in
  if negb (B64.is_zero std_dev)
  then B64.div (B64.sub (B64.of_Q v) mean) std_dev
  else B64.zero.

(** [abs(z_score) > threshold] *)
Definition abs_z_exceeds (v : Q) (l : list Q) (t : Q) : bool :=
  B64.gt_Q (B64.abs (z_score v l)) t.

End Stats.

(* ================================================================== *)
(** * Text helpers *)
(* ================================================================== *)

(** The ASCII characters [str.isspace] accepts: tab to carriage return,
    the four separators 0x1c-0x1f, and the space. *)
Definition is_space (c : ascii) : bool :=
  let n := nat_of_ascii c in
  ((9 <=? n) && (n <=? 13)) || ((28 <=? n) && (n <=? 31)) || (n =? 32).

Fixpoint lstrip (s : list ascii) : list ascii :=
  match s with
  | c :: s' => if is_space c then lstrip s' else s
  | [] => []
  end.

(** [s.strip()] on ASCII text.  Python strips the blanks of Unicode as
    well (the no-break space, the line separator, ...); a text with one of
    those at an end is outside this definition. *)
Definition strip (s : string) : string :=
  string_of_list_ascii
    (rev (lstrip (rev (lstrip (list_ascii_of_string s))))).

(** Python's [<] on two cells used as sort keys: text against text by
    code point (the bytes of UTF-8 text order the same way), number against
    number by value, a missing value (the float nan) against a number
    False, text against a float TypeError. *)
Definition py_lt (a b : cell) : res bool :=
  match a, b with
  | Str s, Str t => Ok (String.ltb s t)
  | Num x, Num y => Ok (Qltb x y)
  | Str _, _ | _, Str _ => Raise TypeError
  | _, _ => Ok false
  end.

(* ================================================================== *)
(** * The table and the detection loop of [run_anomaly_detection] *)
(* ================================================================== *)

(** One data row of the frame after the header was flattened: its index
    label, the three index columns and the metric columns by code.  A
    frame whose header has one code over two columns is not a [row]: there
    [row[metric]] is a Series, not a value. *)
Record row := {
  idx : Z;
  a_fiscal_year : cell;
  a_jurisdiction : cell;
  a_service : cell;
  metrics : string -> cell
}.

(** The tuples appended to [anomalies], [missing_data] and [non_numeric].
    [hist_comment] keeps the pairs the text is joined from. *)
Definition hist_comment := list (Z * cell).

Record anomaly := {
  an_row : Z; an_col : Z;
  an_val : Q; an_mean : B64.float; an_std_dev : B64.float;
  an_z_score : B64.float;
  an_year : cell; an_muni : cell; an_category : cell;
  an_metric : string; an_comment : hist_comment
}.

Record missing := {
  mi_row : Z; mi_col : Z;
  mi_year : cell; mi_muni : cell; mi_category : cell;
  mi_metric : string; mi_comment : hist_comment
}.

Record nonnum := {
  nn_row : Z; nn_col : Z; nn_val : cell;
  nn_year : cell; nn_muni : cell; nn_category : cell;
  nn_metric : string
}.

(** What one pass of the loop body appends. *)
Inductive event :=
| Anomaly (a : anomaly)
| Missing (m : missing)
| NonNumeric (n : nonnum).

Record lists := {
  anomalies : list anomaly;
  missing_data : list missing;
  non_numeric : list nonnum
}.

Definition no_events : lists :=
  {| anomalies := []; missing_data := []; non_numeric := [] |}.

Definition emit (acc : lists) (o : option event) : lists :=
  match o with
  | None => acc
  | Some (Anomaly a) =>
      {| anomalies := anomalies acc ++ [a];
         missing_data := missing_data acc;
         non_numeric := non_numeric acc |}
  | Some (Missing m) =>
      {| anomalies := anomalies acc;
         missing_data := missing_data acc ++ [m];
         non_numeric := non_numeric acc |}
  | Some (NonNumeric n) =>
      {| anomalies := anomalies acc;
         missing_data := missing_data acc;
         non_numeric := non_numeric acc ++ [n] |}
  end.

(** [int(x)]: truncation towards zero. *)
Definition int_of_Q (x : Q) : Z := Z.quot (Qnum x) (Zpos (Qden x)).

Fixpoint index_of (m : string) (cols : list string) : Z :=
  match cols with
  | [] => 0
  | c :: cols' => if String.eqb c m then 0 else 1 + index_of m cols'
  end.

(** [df.columns.get_loc(metric)] when the codes of the header are
    distinct: the metrics follow the three index columns.  For a code that
    stands twice pandas returns a slice or a mask instead of a position,
    and line 70 or 73 raises; the statements about a whole run that need
    it assume [NoDup metric_cols]. *)
Definition get_loc (metric_cols : list string) (metric : string) : Z :=
  3 + index_of metric metric_cols.

Section Detection.

(** [float(s)] on a text: [None] when it raises ValueError. *)
Variable float_of_str : string -> option Q.

(** [float(c)] on a cell; [Ok None] is the float nan. *)
Definition float (c : cell) : res (option Q) :=
  match c with
  | NaN => Ok None
  | Num x => Ok (Some x)
  | Str s =>
      match float_of_str s with
      | Some x => Ok (Some x)
      | None => Raise ValueError
      end
  end.

(** [df[df[category_col].notna()]] *)
Definition df_detection (df : list row) : list row :=
  List.filter (fun r => notna (a_service r)) df.

(** Lines 83-88: the rows of earlier years of the same municipality and
    category, then [dropna] over the three selected columns. *)
Definition hist_rows (D : list row) (current_year : Q)
    (raw_muni raw_category : cell) (metric : string) : res (list row) :=
  do earlier <- map_res (fun h => cell_lt_float (a_fiscal_year h) current_year) D;
  let selected :=
    map snd
      (List.filter
         (fun bh => fst bh
                    && cell_eq (a_jurisdiction (snd bh)) raw_muni
                    && cell_eq (a_service (snd bh)) raw_category)
         (combine earlier D)) in
  Ok (List.filter
        (fun h => notna (a_fiscal_year h) && notna (a_service h)
                  && notna (metrics h metric))
        selected).

(** [column.astype(float)]: one text that is not a number makes the whole
    conversion raise ValueError.  The cells come out of [dropna], so none
    is missing (lemma [hist_rows_notna]); the first case is never taken. *)
Fixpoint astype_float (cs : list cell) : res (list Q) :=
  match cs with
  | [] => Ok []
  | NaN :: cs' => astype_float cs'
  | Num x :: cs' => do xs <- astype_float cs'; Ok (x :: xs)
  | Str s :: cs' =>
      match float_of_str s with
      | Some x => do xs <- astype_float cs'; Ok (x :: xs)
      | None => Raise ValueError
      end
  end.

(** Lines 89-92: [try: ... astype(float) ... except ValueError: np.array([])]. *)
Definition historical_data (hist : list row) (metric : string) : list Q :=
  match astype_float (map (fun h => metrics h metric) hist) with
  | Ok xs => xs
  | Raise _ => []
  end.

(** [int(r[year_col])] on a row of the history, whose year is a number. *)
Definition year_label (c : cell) : Z :=
  match c with Num x => int_of_Q x | _ => 0 end.

(** Lines 94-97. *)
Definition make_comment (hist : list row) (metric : string) : hist_comment :=
  map (fun h => (year_label (a_fiscal_year h), metrics h metric)) hist.

(** The body of the two loops (lines 57-113) for one metric and one row:
    the tuple it appends, if any. *)
Definition classify_cell (D : list row) (metric_cols : list string)
    (threshold target_year : Q) (metric : string) (r : row)
    : res (option event) :=
  let raw_year := a_fiscal_year r in
  let raw_muni := a_jurisdiction r in
  let raw_category := a_service r in
  match float raw_year with
  | Raise ValueError => Ok None
  | Raise e => Raise e
  | Ok None => Ok None
  | Ok (Some current_year) =>
    if negb (Qeq_bool current_year target_year) then Ok None else
    let val := metrics r metric in
    let excel_row := (idx r + 2)%Z in
    let excel_col := (get_loc metric_cols metric + 1)%Z in
    match (if notna val then float val else Ok None) with
    | Raise ValueError =>
        Ok (Some (NonNumeric
          {| nn_row := excel_row; nn_col := excel_col; nn_val := val;
             nn_year := raw_year; nn_muni := raw_muni;
             nn_category := raw_category; nn_metric := metric |}))
    | Raise e => Raise e
    | Ok current_val =>
      do hist <- hist_rows D current_year raw_muni raw_category metric;
      let hd := historical_data hist metric in
      let comment := make_comment hist metric in
      if isna val && (0 <? length hd)%nat then
        Ok (Some (Missing
          {| mi_row := excel_row; mi_col := excel_col;
             mi_year := raw_year; mi_muni := raw_muni;
             mi_category := raw_category; mi_metric := metric;
             mi_comment := comment |}))
      else
        match current_val with
        | None => Ok None
        | Some v =>
          if (length hd <? 2)%nat then Ok None
          else if Stats.abs_z_exceeds v hd threshold then
            Ok (Some (Anomaly
              {| an_row := excel_row; an_col := excel_col;
                 an_val := v; an_mean := Stats.mean hd;
                 an_std_dev := Stats.std_dev hd;
                 an_z_score := Stats.z_score v hd;
                 an_year := raw_year; an_muni := raw_muni;
                 an_category := raw_category; an_metric := metric;
                 an_comment := comment |}))
          else Ok None
        end
    end
  end.

(** Lines 51-113: [for metric in metric_cols: for idx, row in
    df_detection.iterrows(): ...]. *)
Definition detection_loop (D : list row) (metric_cols : list string)
    (threshold target_year : Q) : res lists :=
  for_each
    (fun acc metric =>
       for_each
         (fun acc r =>
            do o <- classify_cell D metric_cols threshold target_year metric r;
            Ok (emit acc o))
         D acc)
    metric_cols no_events.

End Detection.

(* ================================================================== *)
(** * The lookup dictionaries and the events summary *)
(* ================================================================== *)

(** [(str(muni).strip(), str(category).strip(), metric)] *)
Definition entity_key : Type := string * string * string.

Record summary_row := {
  su_muni : cell;
  su_category : cell;
  su_metric_note : string;
  su_type : string;
  su_value : cell;
  su_note : event
}.

Section Report.

(** [str(x)] on a number. *)
Variable str_of_float : Q -> string.

Definition str (c : cell) : string :=
  match c with
  | NaN => "nan"
  | Num x => str_of_float x
  | Str s => s
  end.

Definition make_key (muni category : cell) (metric : string) : entity_key :=
  (strip (str muni), strip (str category), metric).

Definition anomaly_key (a : anomaly) : entity_key :=
  make_key (an_muni a) (an_category a) (an_metric a).
Definition missing_key (m : missing) : entity_key :=
  make_key (mi_muni m) (mi_category m) (mi_metric m).
Definition nonnum_key (n : nonnum) : entity_key :=
  make_key (nn_muni n) (nn_category n) (nn_metric n).

(** Lines 117-148: [d = {}; for x in xs: d[key(x)] = note(x)].  The note is
    a text rendered from the tuple; the dictionary keeps the tuple. *)
Definition build_dict {A} (key : A -> entity_key) (xs : list A)
    : gmap entity_key A :=
  fold_left (fun d x => <[key x := x]> d) xs ∅.

Definition anomaly_dict (ev : lists) := build_dict anomaly_key (anomalies ev).
Definition missing_dict (ev : lists) := build_dict missing_key (missing_data ev).
Definition non_numeric_dict (ev : lists) := build_dict nonnum_key (non_numeric ev).

(** [f"{metric} - {metric_names.get(metric, '')}"] *)
Definition metric_note (metric_names : gmap string string) (metric : string)
    : string :=
  (metric ++ " - " ++ default "" (metric_names !! metric))%string.

(** Lines 284-315: anomalies first, then missing values, then non-numeric
    values, each in the order of its list. *)
Definition summary_data (metric_names : gmap string string) (ev : lists)
    : list summary_row :=
  map (fun a =>
         {| su_muni := an_muni a; su_category := an_category a;
            su_metric_note := metric_note metric_names (an_metric a);
            su_type := "Anomaly"; su_value := Num (an_val a);
            su_note := Anomaly a |}) (anomalies ev)
  ++ map (fun m =>
         {| su_muni := mi_muni m; su_category := mi_category m;
            su_metric_note := metric_note metric_names (mi_metric m);
            su_type := "Missing"; su_value := Str "N/A";
            su_note := Missing m |}) (missing_data ev)
  ++ map (fun n =>
         {| su_muni := nn_muni n; su_category := nn_category n;
            su_metric_note := metric_note metric_names (nn_metric n);
            su_type := "Non-Numeric"; su_value := nn_val n;
            su_note := NonNumeric n |}) (non_numeric ev).

End Report.

(** [xs.sort(key=key)] as a stable insertion sort on Python's [<]: each
    element goes in front of the first element already placed that it is
    less than.  On keys that [<] orders totally every stable sort returns
    this list; with a missing key the list CPython returns depends on the
    steps of its own algorithm and may differ from this one. *)
Fixpoint insert_by {A} (key : A -> cell) (x : A) (sorted : list A)
    : res (list A) :=
  match sorted with
  | [] => Ok [x]
  | y :: ys =>
      do lt <- py_lt (key x) (key y);
      if lt then Ok (x :: y :: ys)
      else do rest <- insert_by key x ys; Ok (y :: rest)
  end.

Definition sort_by {A} (key : A -> cell) (xs : list A) : res (list A) :=
  for_each (fun sorted x => insert_by key x sorted) xs [].

(** Line 318: [summary_data.sort(key=lambda x: x[0])]. *)
Definition sort_summary (xs : list summary_row) : res (list summary_row) :=
  sort_by su_muni xs.

(* ================================================================== *)
(** * [transform_data]: the pivot *)
(* ================================================================== *)

(** One line of [transformed]: [[municipality, category, metric, year, value]]. *)
Record long_row := {
  Municipality : cell;
  Category : cell;
  Metric : string;
  Year : cell;
  Value : cell
}.

(** Lines 344-351. *)
Definition transformed (df : list row) (metric_cols : list string)
    : list long_row :=
  flat_map
    (fun r =>
       map (fun metric =>
              {| Municipality := a_jurisdiction r;
                 Category := a_service r;
                 Metric := metric;
                 Year := a_fiscal_year r;
                 Value := metrics r metric |})
           metric_cols)
    df.

(** Equality of group keys. *)
Definition same_entity (a b : long_row) : bool :=
  cell_eq (Municipality a) (Municipality b)
  && cell_eq (Category a) (Category b)
  && String.eqb (Metric a) (Metric b).

Definition same_group (a b : long_row) : bool :=
  same_entity a b && cell_eq (Year a) (Year b).

(** The distinct values of a list, each at its first appearance. *)
Fixpoint distinct {A} (eqb : A -> A -> bool) (l : list A) : list A :=
  match l with
  | [] => []
  | x :: l' => x :: List.filter (fun y => negb (eqb x y)) (distinct eqb l')
  end.

(** [GroupBy.first]: the first value of the group that is not missing. *)
Definition first_valid (g : list long_row) : cell :=
  match List.filter (fun x => notna (Value x)) g with
  | [] => NaN
  | x :: _ => Value x
  end.

(** The frame [transform_data] returns: the year columns, and per row the
    three key columns followed by one cell per year column.  pandas orders
    rows and year columns by sorting the keys; here they come in order of
    first appearance, and [str(col)] of the labels is not applied. *)
Record pivot_df := {
  year_columns : list cell;
  pivot_rows : list (cell * cell * string * list cell)
}.

(** [pivot_table(index=[Municipality, Category, Metric], columns=Year,
    values=Value, aggfunc='first')] with pandas' defaults:
    - [groupby(keys, dropna=True)] leaves out the lines with a missing key;
    - ['first'] takes, per (entity, year) group, the first value that is
      not missing, or NaN when all are;
    - [agged.dropna(how="all")] drops the groups left with NaN;
    - [unstack] makes one row per entity and one column per year that
      remain, and fills the absent combinations with NaN. *)
Definition pivot_table (t : list long_row) : pivot_df :=
  let keyed :=
    List.filter (fun x => notna (Municipality x) && notna (Category x)
                          && notna (Year x)) t in
  let agged :=
    map (fun g => (g, first_valid (List.filter (same_group g) keyed)))
        (distinct same_group keyed) in
  let kept := List.filter (fun gv => notna (snd gv)) agged in
  let index := distinct same_entity (map fst kept) in
  let columns := distinct cell_eq (map (fun gv => Year (fst gv)) kept) in
  {| year_columns := columns;
     pivot_rows :=
       map (fun e =>
              (Municipality e, Category e, Metric e,
               map (fun y =>
                      match List.filter
                              (fun gv => same_entity (fst gv) e
                                         && cell_eq (Year (fst gv)) y) kept with
                      | [] => NaN
                      | gv :: _ => snd gv
                      end)
                   columns))
           index |}.

(** Lines 339-367. *)
Definition transform_data (df : list row) (metric_cols : list string)
    : pivot_df :=
  pivot_table (transformed df metric_cols).

(** The cell of the pivot at an entity's row and a year's column. *)
Definition row_is (muni category : cell) (metric : string)
    (pr : cell * cell * string * list cell) : bool :=
  let '(m, c, k, _) := pr in
  cell_eq m muni && cell_eq c category && String.eqb k metric.

Fixpoint at_year (y : cell) (columns : list cell) (cells : list cell)
    : option cell :=
  match columns, cells with
  | c :: columns', v :: cells' =>
      if cell_eq c y then Some v else at_year y columns' cells'
  | _, _ => None
  end.

Definition pivot_at (p : pivot_df) (muni category : cell) (metric : string)
    (y : cell) : option cell :=
  match List.filter (row_is muni category metric) (pivot_rows p) with
  | (_, _, _, cells) :: _ => at_year y (year_columns p) cells
  | [] => None
  end.

(* ================================================================== *)
(** * The run, and the input check of the window *)
(* ================================================================== *)

Record report := {
  rep_events : lists;
  rep_anomaly_dict : gmap entity_key anomaly;
  rep_missing_dict : gmap entity_key missing;
  rep_non_numeric_dict : gmap entity_key nonnum;
  rep_pivot : pivot_df;
  rep_summary : list summary_row
}.

Section Run.

Variable float_of_str : string -> option Q.
Variable int_of_str : string -> option Z.
Variable str_of_float : Q -> string.

(** [run_anomaly_detection] after [read_csv]; writing the workbook is left
    out.  [threshold] and [target_year] are used as they come. *)
Definition run_anomaly_detection (df : list row) (metric_cols : list string)
    (metric_names : gmap string string) (threshold target_year : Q)
    : res report :=
  let D := df_detection df in
  do ev <- detection_loop float_of_str D metric_cols threshold target_year;
  let pivot := transform_data D metric_cols in
  do summary <- sort_summary (summary_data metric_names ev);
  Ok {| rep_events := ev;
        rep_anomaly_dict := anomaly_dict str_of_float ev;
        rep_missing_dict := missing_dict str_of_float ev;
        rep_non_numeric_dict := non_numeric_dict str_of_float ev;
        rep_pivot := pivot;
        rep_summary := summary |}.

(** [controller.handle_anomaly_detection]: any exception becomes the text
    of a failure. *)
Inductive handled :=
| Complete (r : report)
| ErrorDuring (e : exn).

Definition handle_anomaly_detection df metric_cols metric_names
    (threshold target_year : Q) : handled :=
  match run_anomaly_detection df metric_cols metric_names
          threshold target_year with
  | Ok r => Complete r
  | Raise e => ErrorDuring e
  end.

(** [AnomalyDetectorApp.run_detection]: what the button does with the text
    of the entry fields. *)
Inductive gui_outcome :=
| ShowError (message : string)
| StartThread (threshold : Q) (target_year : Z).

Definition run_detection (csv_path : string) (output_path : option string)
    (threshold target_year : string) : gui_outcome :=
  if String.eqb csv_path "" then ShowError "Please select a CSV file."
  else
    match output_path with
    | None | Some EmptyString =>
        ShowError "Please select an output location using 'Save As'."
    | Some _ =>
        match float_of_str threshold with
        | None =>
            ShowError "Please enter valid numbers for threshold and target year."
        | Some t =>
            match int_of_str target_year with
            | None =>
                ShowError "Please enter valid numbers for threshold and target year."
            | Some y => StartThread t y
            end
        end
    end.

(** The button followed by the thread it starts. *)
Definition press_run (csv_path : string) (output_path : option string)
    (threshold target_year : string)
    df metric_cols metric_names : gui_outcome + handled :=
  match run_detection csv_path output_path threshold target_year with
  | StartThread t y =>
      inr (handle_anomaly_detection df metric_cols metric_names t (inject_Z y))
  | o => inl o
  end.

End Run.

(* ================================================================== *)
(** * The header, the sheets and the fills of the workbook *)
(* ================================================================== *)

(** Lines 34-45.  [cols] is the list of header tuples (code, name), the
    name [None] when pandas holds no name; the first three columns are the
    index columns. *)
Definition metric_names_of (cols : list (string * option string))
    : gmap string string :=
  fold_left (fun d col => <[fst col := default EmptyString (snd col)]> d)
            (skipn 3 cols) ∅.

Definition metric_cols_of (cols : list (string * option string))
    : list string :=
  map fst (skipn 3 cols).

(** Lines 175-180: [for col in range(1, ws_data.max_column + 1)], the first
    row of the sheet holding the codes; the texts written to the second
    row. *)
Fixpoint header_names (metric_names : gmap string string) (col : nat)
    (header : list string) : list string :=
  match header with
  | [] => []
  | header_val :: header' =>
      (if (3 <? col)%nat
          && bool_decide (is_Some (metric_names !! header_val))
       then default EmptyString (metric_names !! header_val)
       else EmptyString)
      :: header_names metric_names (S col) header'
  end.

(** Lines 174-180: the second header row put back into the "Data" sheet. *)
Definition second_header_row (cols : list (string * option string))
    : list string :=
  header_names (metric_names_of cols) 1 (map fst cols).

(** The fills defined at the top of the module. *)
Inductive fill := green | red | blue | yellow.

(** Lines 325-334: the fill of the value cell of a line of the "Events
    Summary" sheet. *)
Definition summary_fill (s : summary_row) : option fill :=
  let event_type := su_type s in
  if String.eqb event_type "Anomaly" then Some red
  else if String.eqb event_type "Missing" then Some blue
  else if String.eqb event_type "Non-Numeric" then Some yellow
  else None.

(** The fill that stands for a kind of event. *)
Definition colour_of (e : event) : fill :=
  match e with
  | Anomaly _ => red
  | Missing _ => blue
  | NonNumeric _ => yellow
  end.

(** A cell of a sheet: (row, column). *)
Definition coordinate : Type := Z * Z.

Definition anomaly_at (a : anomaly) : coordinate := ((an_row a + 1)%Z, an_col a).
Definition missing_at (m : missing) : coordinate := ((mi_row m + 1)%Z, mi_col m).
Definition nonnum_at (n : nonnum) : coordinate := ((nn_row n + 1)%Z, nn_col n).

(** [for x in xs: ws.cell(row, column).fill = colour] *)
Definition paint {A} (at_ : A -> coordinate) (colour : fill) (xs : list A)
    (ws : gmap coordinate fill) : gmap coordinate fill :=
  fold_left (fun ws x => <[at_ x := colour]> ws) xs ws.

(** Lines 183-213: the fills of the flagged cells of the "Data" sheet. *)
Definition paint_flags (ev : lists) (ws : gmap coordinate fill)
    : gmap coordinate fill :=
  paint nonnum_at yellow (non_numeric ev)
    (paint missing_at blue (missing_data ev)
       (paint anomaly_at red (anomalies ev) ws)).

(** Lines 216-219. *)
Definition flagged (ev : lists) : gset coordinate :=
  list_to_set (map anomaly_at (anomalies ev)
               ++ map missing_at (missing_data ev)
               ++ map nonnum_at (non_numeric ev)).

Section Sheets.

Variable float_of_str : string -> option Q.
Variable str_of_float : Q -> string.

(** Lines 222-244: the valid cells of the target year are marked green. *)
Definition mark_valid (df : list row) (metric_cols : list string)
    (target_year : Q) (flags : gset coordinate)
    (ws : gmap coordinate fill) : gmap coordinate fill :=
  fold_left
    (fun ws r =>
       match float float_of_str (a_fiscal_year r) with
       | Ok (Some current_year) =>
           if negb (Qeq_bool current_year target_year) then ws
           else if isna (a_service r) then ws
           else
             fold_left
               (fun ws metric =>
                  let excel_row := (idx r + 3)%Z in
                  let excel_col := (get_loc metric_cols metric + 1)%Z in
                  if bool_decide ((excel_row, excel_col) ∈ flags) then ws
                  else
                    let val := metrics r metric in
                    if isna val then ws
                    else
                      match float float_of_str val with
                      | Ok _ => <[(excel_row, excel_col) := green]> ws
                      | Raise _ => ws
                      end)
               metric_cols ws
       | _ => ws
       end)
    df ws.

(** Lines 183-244: the fills of the "Data" sheet. *)
Definition highlight_data (df : list row) (metric_cols : list string)
    (target_year : Q) (ev : lists) : gmap coordinate fill :=
  mark_valid df metric_cols target_year (flagged ev) (paint_flags ev ∅).

(** [str(v).strip() if v is not None else ""] on a cell read back from a
    sheet, where an empty cell is [None]. *)
Definition cell_text (c : cell) : string :=
  match c with
  | NaN => EmptyString
  | _ => strip (str str_of_float c)
  end.

(** Lines 257-260: the key of a row of a transformed sheet. *)
Definition sheet_key (pr : cell * cell * string * list cell) : entity_key :=
  let '(m, c, k, _) := pr in (cell_text m, cell_text c, strip k).

(** Lines 262-277: the fill of the cell of the target year in a row of a
    transformed sheet, [value] being what the cell holds. *)
Definition transformed_fill (ev : lists)
    (pr : cell * cell * string * list cell) (value : cell) : option fill :=
  let key := sheet_key pr in
  if bool_decide (is_Some (anomaly_dict str_of_float ev !! key)) then Some red
  else if bool_decide (is_Some (missing_dict str_of_float ev !! key))
  then Some blue
  else if bool_decide (is_Some (non_numeric_dict str_of_float ev !! key))
  then Some yellow
  else
    match value with
    | NaN => None
    | _ => match float float_of_str value with
           | Ok _ => Some green
           | Raise _ => None
           end
    end.

(** Lines 249-254: the position of the first header cell whose text,
    stripped, is [str(target_year)]. *)
Fixpoint col_target (header : list string) (target_label : string)
    : option nat :=
  match header with
  | [] => None
  | h :: header' =>
      if String.eqb (strip h) target_label then Some 0%nat
      else option_map S (col_target header' target_label)
  end.

(** Line 366: the header of the frame [transform_data] returns. *)
Definition pivot_header (p : pivot_df) : list string :=
  ["Municipality"; "Category"; "Metric"]%string
  ++ map (str str_of_float) (year_columns p).

(** Lines 247-277 for one row of a transformed sheet. *)
Definition highlight_row (ev : lists) (p : pivot_df) (target_label : string)
    (pr : cell * cell * string * list cell) : option fill :=
  match col_target (pivot_header p) target_label with
  | None => None
  | Some j =>
      let '(m, c, k, cells) := pr in
      transformed_fill ev pr (nth j (m :: c :: Str k :: cells) NaN)
  end.

End Sheets.

(** [s.lower()] on ASCII letters. *)
Definition lower_char (c : ascii) : ascii :=
  let n := nat_of_ascii c in
  if ((65 <=? n) && (n <=? 90))%nat then ascii_of_nat (n + 32) else c.

Fixpoint lower (s : string) : string :=
  match s with
  | EmptyString => EmptyString
  | String c s' => String (lower_char c) (lower s')
  end.

Section Split.

Variable str_of_float : Q -> string.

(** Lines 157-165: the calls of [to_excel] that write the pivot, in order,
    each with the sheet name it passes and the frame it writes.  [groupby]
    makes one group per value of the column, in sorted order; the groups
    come here in order of first appearance.  Two calls can pass the same
    name; what the workbook then holds is [write_transformed] below.
    [[:31]] and [lower] count and map characters; a text is a list of
    bytes here, which is the same thing for ASCII names. *)
Definition split_sheets (split_by : option string) (p : pivot_df)
    : list (string * list (cell * cell * string * list cell)) :=
  let single := [("Transformed Data"%string, pivot_rows p)] in
  match split_by with
  | None => single
  | Some by_ =>
      let choice := lower by_ in
      if negb (String.eqb choice "municipality")
         && negb (String.eqb choice "category")
      then single
      else
        let group_col (pr : cell * cell * string * list cell) : cell :=
          let '(m, c, _, _) := pr in
          if String.eqb choice "municipality" then m else c in
        map (fun group_name =>
               (substring 0 31 (str str_of_float group_name),
                List.filter (fun pr => cell_eq (group_col pr) group_name)
                            (pivot_rows p)))
            (distinct cell_eq
               (List.filter notna (map group_col (pivot_rows p))))
  end.

End Split.

(** The characters openpyxl refuses in the title of a sheet
    ([INVALID_TITLE_REGEX]): setting such a title raises ValueError. *)
Definition invalid_title (name : string) : bool :=
  existsb (fun c => existsb (Ascii.eqb c) (list_ascii_of_string "\*?:/[]"))
          (list_ascii_of_string name).

(** A frame written over a sheet that holds one: its lines take the place
    of the first lines, the lines below them stay. *)
Definition overlay {A} (old new : list A) : list A :=
  new ++ skipn (length new) old.

Section Workbook.

Variable str_of_float : Q -> string.

(** openpyxl's [avoid_duplicate_name]: the title a new sheet gets when it
    is asked under [value] in a workbook whose sheets have the titles
    [names]; [value] with a number appended when a title equals it up to
    case. *)
Variable avoid_duplicate_name : list string -> string -> string.

(** [frame.to_excel(writer, index=False, sheet_name=name)] on a writer in
    mode "w", the workbook as the list of its sheets: a sheet of this very
    title is written over; otherwise a sheet is made and given the title,
    which openpyxl may refuse or change. *)
Definition to_excel (name : string)
    (frame : list (cell * cell * string * list cell))
    (wb : list (string * list (cell * cell * string * list cell)))
    : res (list (string * list (cell * cell * string * list cell))) :=
  if existsb (fun sheet => String.eqb (fst sheet) name) wb then
    Ok (map (fun sheet =>
               if String.eqb (fst sheet) name
               then (fst sheet, overlay (snd sheet) frame)
               else sheet) wb)
  else if invalid_title name then Raise ValueError
  else Ok (wb ++ [(avoid_duplicate_name (map fst wb) name, frame)]).

(** Lines 154-165 on the new workbook: the transformed sheets, and
    [transformed_sheet_names]. *)
Definition write_transformed (split_by : option string) (p : pivot_df)
    : res (list (string * list (cell * cell * string * list cell))
           * list string) :=
  let calls := split_sheets str_of_float split_by p in
  do wb <- for_each (fun wb call => to_excel (fst call) (snd call) wb)
                    calls [];
  Ok (wb, map fst calls).

(** openpyxl takes each of [names], in turn, as the title of a new sheet
    of a workbook that starts with the titles [titles]. *)
Fixpoint accepted (titles names : list string) : Prop :=
  match names with
  | [] => True
  | name :: names' =>
      ~ In name titles
      /\ invalid_title name = false
      /\ avoid_duplicate_name titles name = name
      /\ accepted (titles ++ [name]) names'
  end.

End Workbook.

(** [AnomalyDetectorApp.toggle_theme] on [current_theme]. *)
Definition toggle_theme (current_theme : string) : string :=
  if String.eqb current_theme "darkly" then "flatly"%string
  else "darkly"%string.

(** [AnomalyDetectorApp.center_window]: the position of the window's
    corner; [//] rounds down. *)
Definition center_window (screen_width screen_height width height : Z)
    : Z * Z :=
  (((screen_width - width) / 2)%Z, ((screen_height - height) / 2)%Z).

(* ================================================================== *)
(** * Plain decimal literals *)
(* ================================================================== *)

(** An instance of the text conversions for the worked examples.  It reads
    an optional sign, digits and, for a float, an optional fraction; on
    such texts it returns what Python returns, and it refuses texts without
    a digit, as Python does.  Python accepts more (surrounding blanks,
    exponents, underscores, [inf], [nan]): the examples use none of them. *)
Module Lit.

Definition digit (c : ascii) : option Z :=
  let n := Z.of_nat (nat_of_ascii c) in
  if (48 <=? n)%Z && (n <=? 57)%Z then Some (n - 48)%Z else None.

(** Reads digits into [acc], counting them; stops at the first other
    character and returns the rest. *)
Fixpoint digits (s : list ascii) (acc : Z) (n : nat) : Z * nat * list ascii :=
  match s with
  | c :: s' =>
      match digit c with
      | Some d => digits s' (10 * acc + d)%Z (S n)
      | None => (acc, n, s)
      end
  | [] => (acc, n, [])
  end.

Definition sign (s : list ascii) : Z * list ascii :=
  match s with
  | "-"%char :: s' => ((-1)%Z, s')
  | "+"%char :: s' => (1%Z, s')
  | _ => (1%Z, s)
  end.

Definition int_of_str (s : string) : option Z :=
  let '(sg, body) := sign (list_ascii_of_string s) in
  match digits body 0 0 with
  | (v, S _, []) => Some (sg * v)%Z
  | _ => None
  end.

Definition float_of_str (s : string) : option Q :=
  let '(sg, body) := sign (list_ascii_of_string s) in
  match digits body 0 0 with
  | (v, S _, []) => Some (inject_Z (sg * v))
  | (v, S _, "."%char :: frac) =>
      match digits frac 0 0 with
      | (f, k, []) =>
          Some (inject_Z sg
                * (inject_Z v + inject_Z f / inject_Z (10 ^ Z.of_nat k)))%Q
      | _ => None
      end
  | _ => None
  end.

(** [str] of a float with an integral value, as in [str(2020.0)]; other
    values are written as a quotient, which Python does not do. *)
Definition str_of_float (x : Q) : string :=
  let z := NilZero.string_of_int in
  if (Z.rem (Qnum x) (Zpos (Qden x)) =? 0)%Z
  then (z (Z.to_int (int_of_Q x)) ++ ".0")%string
  else (z (Z.to_int (Qnum x)) ++ "/" ++ z (Z.to_int (Zpos (Qden x))))%string.

End Lit.

(* ================================================================== *)
(** * Vocabulary of the properties *)
(* ================================================================== *)

Definition is_text (c : cell) : bool :=
  match c with Str _ => true | _ => false end.

(** The year column holds numbers and missing values only, which is what
    [read_csv] delivers when every year it read is a number. *)
Definition numeric_years (D : list row) : Prop :=
  forall h, In h D -> is_text (a_fiscal_year h) = false.

Section Vocabulary.

Variable float_of_str : string -> option Q.

(** The number a cell holds or spells, if any. *)
Definition numeric_value (c : cell) : option Q :=
  match c with
  | NaN => None
  | Num x => Some x
  | Str s => float_of_str s
  end.

(** A present value that is not a number. *)
Definition unparseable (c : cell) : bool :=
  match c, numeric_value c with
  | Str _, None => true
  | _, _ => false
  end.

(** [h] is an observation of a year before [target_year] for the given
    jurisdiction and category, with a value recorded for [metric]. *)
Definition in_history (target_year : Q) (muni category : cell)
    (metric : string) (h : row) : bool :=
  match a_fiscal_year h with Num y => Qltb y target_year | _ => false end
  && cell_eq (a_jurisdiction h) muni
  && cell_eq (a_service h) category
  && notna (metrics h metric).

(** The numbers among a list of cells, in order. *)
Definition numbers_of (cs : list cell) : list Q :=
  flat_map (fun c => match numeric_value c with Some x => [x] | None => [] end)
           cs.

(** The historical series as the specification words it: the values of
    [metric] that parse as numbers, over the earlier observations of the
    same jurisdiction and category. *)
Definition parseable_series (D : list row) (target_year : Q)
    (muni category : cell) (metric : string) : list Q :=
  numbers_of
    (map (fun h => metrics h metric)
         (List.filter (in_history target_year muni category metric) D)).

(** The series the loop works with: the same values, or nothing when one
    of the recorded values is not a number. *)
Definition baseline (D : list row) (target_year : Q)
    (muni category : cell) (metric : string) : list Q :=
  historical_data float_of_str
    (List.filter (in_history target_year muni category metric) D) metric.

(** The outcomes of the loop body over all metrics and rows, in the order
    of the two loops. *)
Definition outcomes (D : list row) (metric_cols : list string)
    (threshold target_year : Q) : res (list (option event)) :=
  map_res
    (fun mr => classify_cell float_of_str D metric_cols threshold target_year
                 (fst mr) (snd mr))
    (list_prod metric_cols D).

End Vocabulary.

(** [r] is a row of the target year: its year reads as a number equal to
    [target_year]. *)
Definition target_row (float_of_str : string -> option Q) (target_year : Q)
    (r : row) : Prop :=
  exists cy, float float_of_str (a_fiscal_year r) = Ok (Some cy)
             /\ (cy == target_year)%Q.

(** The rows of the jurisdiction and category of [r]. *)
Definition entity_rows (r : row) (D : list row) : list row :=
  List.filter (fun h => cell_eq (a_jurisdiction h) (a_jurisdiction r)
                        && cell_eq (a_service h) (a_service r)) D.

(** An outcome under a higher threshold: the same, or nothing in place of
    an anomaly. *)
Definition weaker (o' o : option event) : Prop :=
  o' = o \/ (o' = None /\ exists a, o = Some (Anomaly a)).

(** The cell of the "Data" sheet that shows the value of [metric] in row
    [r]: two header rows come first, the columns are counted from one. *)
Definition sheet_cell (metric_cols : list string) (r : row)
    (metric : string) : coordinate :=
  ((idx r + 3)%Z, (get_loc metric_cols metric + 1)%Z).

(** The cell a tuple of the three lists points to, once the second header
    row is back in the sheet. *)
Definition event_at (e : event) : coordinate :=
  match e with
  | Anomaly a => anomaly_at a
  | Missing m => missing_at m
  | NonNumeric n => nonnum_at n
  end.

(** The year of [r] reads as a number equal to [target_year]. *)
Definition in_target_year (float_of_str : string -> option Q)
    (target_year : Q) (r : row) : bool :=
  match float float_of_str (a_fiscal_year r) with
  | Ok (Some current_year) => Qeq_bool current_year target_year
  | _ => false
  end.

(** A cell the loop of lines 222-244 fills green: a number in a row of the
    target year that has a category, at a place that is not flagged. *)
Definition valid_cell (float_of_str : string -> option Q)
    (metric_cols : list string) (target_year : Q) (flags : gset coordinate)
    (rm : row * string) : bool :=
  in_target_year float_of_str target_year (fst rm)
  && notna (a_service (fst rm))
  && negb (bool_decide (sheet_cell metric_cols (fst rm) (snd rm) ∈ flags))
  && match numeric_value float_of_str (metrics (fst rm) (snd rm)) with
     | Some _ => true
     | None => false
     end.

(** The fill the loop's verdict on a cell calls for: the colour of the
    tuple the cell produced, green for a number of the target year that
    produced none, and no fill otherwise. *)
Definition expected_fill (float_of_str : string -> option Q)
    (D : list row) (metric_cols : list string) (threshold target_year : Q)
    (metric : string) (r : row) : option fill :=
  match classify_cell float_of_str D metric_cols threshold target_year
          metric r with
  | Ok (Some (Anomaly _)) => Some red
  | Ok (Some (Missing _)) => Some blue
  | Ok (Some (NonNumeric _)) => Some yellow
  | _ =>
      if in_target_year float_of_str target_year r then
        match numeric_value float_of_str (metrics r metric) with
        | Some _ => Some green
        | None => None
        end
      else None
  end.

(** The value [transform_data] is to show for an entity and a year: the
    first value recorded for the metric, in the order of the rows, among
    the rows of that jurisdiction, category and year. *)
Definition first_recorded (D : list row) (muni category : cell)
    (metric : string) (year : cell) : cell :=
  match List.filter
          (fun r => cell_eq (a_jurisdiction r) muni
                    && cell_eq (a_service r) category
                    && cell_eq (a_fiscal_year r) year
                    && notna (metrics r metric)) D with
  | [] => NaN
  | r :: _ => metrics r metric
  end.

(** The text a cell holds. *)
Definition text_of (c : cell) : string :=
  match c with Str s => s | _ => EmptyString end.

(** All keys are texts, as the names of jurisdictions are. *)
Definition text_keys {A} (key : A -> cell) (xs : list A) : Prop :=
  forall x, In x xs -> is_text (key x) = true.

(** [a] comes no later than [b] in the ordinal, case-sensitive order of
    their keys. *)
Definition key_le {A} (key : A -> cell) (a b : A) : Prop :=
  String.leb (text_of (key a)) (text_of (key b)) = true.

(** The elements of a list under one name, in their order. *)
Definition named {A} (key : A -> cell) (s : string) (xs : list A) : list A :=
  List.filter (fun x => cell_eq (key x) (Str s)) xs.

(** [insert_by] and [sort_by] on text keys, where [<] cannot raise. *)
Fixpoint insert_text {A} (key : A -> cell) (x : A) (sorted : list A)
    : list A :=
  match sorted with
  | [] => [x]
  | y :: ys =>
      if String.ltb (text_of (key x)) (text_of (key y)) then x :: y :: ys
      else y :: insert_text key x ys
  end.

Definition sort_text {A} (key : A -> cell) (xs : list A) : list A :=
  fold_left (fun sorted x => insert_text key x sorted) xs [].

Definition the_anomalies (os : list (option event)) : list anomaly :=
  flat_map (fun o => match o with Some (Anomaly a) => [a] | _ => [] end) os.
Definition the_missing (os : list (option event)) : list missing :=
  flat_map (fun o => match o with Some (Missing m) => [m] | _ => [] end) os.
Definition the_non_numeric (os : list (option event)) : list nonnum :=
  flat_map (fun o => match o with Some (NonNumeric n) => [n] | _ => [] end) os.

(* ================================================================== *)
(** * Sample tables *)
(* ================================================================== *)

Module Samples.

Local Open Scope string_scope.

(** A row of a table with the single metric column [m1]. *)
Definition obs (i : Z) (year muni category m1 : cell) : row :=
  {| idx := i;
     a_fiscal_year := year;
     a_jurisdiction := muni;
     a_service := category;
     metrics := fun metric => if String.eqb metric "m1" then m1 else NaN |}.

(** Three earlier years 10, 20, 30 and the year 2024 under test. *)
Definition target (current : cell) : row :=
  obs 3 (Num 2024) (Str "A") (Str "X") current.

Definition trend (current : cell) : list row :=
  [ obs 0 (Num 2021) (Str "A") (Str "X") (Num 10);
    obs 1 (Num 2022) (Str "A") (Str "X") (Num 20);
    obs 2 (Num 2023) (Str "A") (Str "X") (Num 30);
    target current ].

(** A constant history. *)
Definition level (current : cell) : list row :=
  [ obs 0 (Num 2021) (Str "A") (Str "X") (Num 10);
    obs 1 (Num 2022) (Str "A") (Str "X") (Num 10);
    obs 2 (Num 2023) (Str "A") (Str "X") (Num 10);
    target current ].

(** A constant history of 0.1, a number that is not a float: the cells
    hold the float nearest to it. *)
Definition tenths (current : cell) : list row :=
  [ obs 0 (Num 2021) (Str "A") (Str "X") (Num 0.1);
    obs 1 (Num 2022) (Str "A") (Str "X") (Num 0.1);
    obs 2 (Num 2023) (Str "A") (Str "X") (Num 0.1);
    target current ].

(** Mean 0.2 and deviation 0.1 on the reals: 0.4 is two deviations away. *)
Definition edge (current : cell) : list row :=
  [ obs 1 (Num 2022) (Str "A") (Str "X") (Num 0.1);
    obs 2 (Num 2023) (Str "A") (Str "X") (Num 0.3);
    target current ].

(** The same trend in a column that [read_csv] left as text because one
    early year holds a remark. *)
Definition remark (current : cell) : list row :=
  [ obs 0 (Num 2021) (Str "A") (Str "X") (Str "10");
    obs 1 (Num 2022) (Str "A") (Str "X") (Str "20");
    obs 2 (Num 2023) (Str "A") (Str "X") (Str "30");
    target current;
    obs 4 (Num 2020) (Str "A") (Str "X") (Str "pending") ].

(** Other jurisdictions, categories and later years around the target. *)
Definition mixed : list row :=
  [ obs 0 (Num 2025) (Str "A") (Str "X") (Num 1);
    obs 1 (Num 2022) (Str "B") (Str "X") (Num 2);
    obs 2 (Num 2022) (Str "A") (Str "Y") (Num 3);
    obs 3 (Num 2022) (Str "A") (Str "X") (Num 4);
    target (Num 5);
    obs 5 (Num 2019) (Str "A") (Str "X") (Num 6) ].

(** Two rows of the target year for the same entity once the blanks around
    the jurisdiction are stripped, each with a text in place of a number. *)
Definition twice : list row :=
  [ obs 0 (Num 2024) (Str "A") (Str "X") (Str "abc");
    obs 1 (Num 2024) (Str " A ") (Str "X") (Str "pending") ].

Definition first_text : nonnum :=
  {| nn_row := 2; nn_col := 4; nn_val := Str "abc"; nn_year := Num 2024;
     nn_muni := Str "A"; nn_category := Str "X"; nn_metric := "m1" |}.

Definition second_text : nonnum :=
  {| nn_row := 3; nn_col := 4; nn_val := Str "pending"; nn_year := Num 2024;
     nn_muni := Str " A "; nn_category := Str "X"; nn_metric := "m1" |}.

Definition twice_events : lists :=
  {| anomalies := []; missing_data := [];
     non_numeric := [first_text; second_text] |}.

(** An entity that never reports the metric, next to one that does. *)
Definition silent : list row :=
  [ obs 0 (Num 2020) (Str "A") (Str "X") NaN;
    obs 1 (Num 2021) (Str "A") (Str "X") NaN;
    obs 2 (Num 2021) (Str "B") (Str "X") (Num 3) ].

(** Two rows for one entity and year, the first without a value. *)
Definition repeated : list row :=
  [ obs 0 (Num 2020) (Str "A") (Str "X") NaN;
    obs 1 (Num 2020) (Str "A") (Str "X") (Num 5);
    obs 2 (Num 2020) (Str "A") (Str "X") (Num 6) ].

(** A year column left as text by one entry that is not a year, and a row
    without a category. *)
Definition undated : list row :=
  [ obs 0 (Str "2023") (Str "A") (Str "X") (Num 5);
    obs 1 (Str "n.d.") (Str "A") (Str "X") (Num 7);
    obs 2 (Str "2023") (Str "B") NaN (Num 9) ].

(** A frame whose years are texts, with a text where the target year
    expects a number. *)
Definition texts : list row :=
  [ obs 0 (Str "2023") (Str "A") (Str "X") (Str "10");
    obs 1 (Str "n.d.") (Str "A") (Str "X") (Str "20");
    obs 2 (Str "2024") (Str "A") (Str "X") (Str "abc") ].

(** [mixed] without the rows of the other jurisdiction and category. *)
Definition only_a_x : list row :=
  [ obs 0 (Num 2025) (Str "A") (Str "X") (Num 1);
    obs 3 (Num 2022) (Str "A") (Str "X") (Num 4);
    target (Num 5);
    obs 5 (Num 2019) (Str "A") (Str "X") (Num 6) ].

(** One jurisdiction with an anomaly, an empty cell and a text under the
    target year, and a second jurisdiction with a text. *)
Definition several : list row :=
  [ obs 0 (Num 2021) (Str "B") (Str "X") (Num 10);
    obs 1 (Num 2022) (Str "B") (Str "X") (Num 20);
    obs 2 (Num 2023) (Str "B") (Str "X") (Num 30);
    obs 3 (Num 2024) (Str "A") (Str "Z") (Str "abc");
    obs 4 (Num 2024) (Str "B") (Str "Z") (Str "abc");
    obs 5 (Num 2022) (Str "B") (Str "Y") (Num 5);
    obs 6 (Num 2024) (Str "B") (Str "Y") NaN;
    obs 7 (Num 2024) (Str "B") (Str "X") (Num 40) ].

(** [several] with a plain number under the target year and a row without
    a category. *)
Definition coloured : list row :=
  several
  ++ [ obs 8 (Num 2024) (Str "C") (Str "X") (Num 7);
       obs 9 (Num 2024) (Str "C") NaN (Num 9) ].

(** Two texts under the target year, one in a row without jurisdiction. *)
Definition nameless : list row :=
  [ obs 0 (Num 2024) (Str "A") (Str "X") (Str "abc");
    obs 1 (Num 2024) NaN (Str "X") (Str "abc") ].

(** A header of two rows: the codes over the names, one metric without a
    name. *)
Definition two_rows : list (string * option string) :=
  [ ("a_fiscal_year", Some "Fiscal year");
    ("a_jurisdiction", Some "Jurisdiction");
    ("a_service", Some "Service");
    ("m1", Some "Population");
    ("m2", None);
    ("m3", Some "Budget") ].

(** Two jurisdictions whose names differ after the 31st character. *)
Definition twins : list row :=
  [ obs 0 (Num 2024) (Str "Regional Municipal District No. 12") (Str "X")
        (Num 1);
    obs 1 (Num 2024) (Str "Regional Municipal District No. 17") (Str "X")
        (Num 2) ].


(** Five summary lines as the three lists deliver them, out of order. *)
Definition line (muni : string) (kind : string) (value : cell) : summary_row :=
  {| su_muni := Str muni; su_category := Str "X";
     su_metric_note := "m1 - "; su_type := kind; su_value := value;
     su_note := NonNumeric first_text |}.

Definition unsorted : list summary_row :=
  [ line "b" "Anomaly" (Num 1); line "B" "Anomaly" (Num 2);
    line "a" "Missing" (Str "N/A"); line "B" "Missing" (Str "N/A");
    line "a" "Non-Numeric" (Str "x") ].

Definition sorted_lines : list summary_row :=
  [ line "B" "Anomaly" (Num 2); line "B" "Missing" (Str "N/A");
    line "a" "Missing" (Str "N/A"); line "a" "Non-Numeric" (Str "x");
    line "b" "Anomaly" (Num 1) ].

End Samples.

(* ================================================================== *)
(** * Properties of the statistics *)
(* ================================================================== *)

Lemma Qltb_lt (x y : Q) : Qltb x y = true <-> (x < y)%Q.
Proof.
  unfold Qltb. rewrite negb_true_iff, <- not_true_iff_false, Qle_bool_iff.
  split; [apply Qnot_le_lt | apply Qlt_not_le].
Qed.

Lemma Qltb_ge (x y : Q) : Qltb x y = false <-> (y <= x)%Q.
Proof.
  unfold Qltb. rewrite negb_false_iff. apply Qle_bool_iff.
Qed.

Module StatsFacts.
Import Stats.

(** The halving of [pairwise_sum] never runs out of fuel when it starts
    with the length of the list. *)
Lemma pairwise_sum_fuel (fuel fuel' : nat) (a : list B64.float) :
  (length a <= fuel)%nat -> (length a <= fuel')%nat ->
  pairwise_sum fuel a = pairwise_sum fuel' a.
Proof.
  revert fuel' a. induction fuel as [|f IH]; intros fuel' a H H'.
  - destruct a; [|simpl in H; lia]. destruct fuel'; reflexivity.
  - destruct fuel' as [|f'].
    { destruct a; [|simpl in H'; lia]. reflexivity. }
    cbn [pairwise_sum].
    destruct (length a <? 8)%nat; [reflexivity|].
    destruct (length a <=? 128)%nat eqn:Hn; [reflexivity|].
    apply Nat.leb_gt in Hn.
    set (n := length a) in *. set (q := (n / 2)%nat).
    assert (Hq : (n = 2 * q + n mod 2)%nat) by apply Nat.div_mod_eq.
    assert (Hr : (n mod 2 < 2)%nat) by (apply Nat.mod_upper_bound; lia).
    assert (Hm : (q mod 8 < 8)%nat) by (apply Nat.mod_upper_bound; lia).
    assert (Hf : (length (firstn (q - q mod 8) a) = q - q mod 8)%nat)
      by (rewrite length_firstn; fold n; lia).
    assert (Hs : (length (skipn (q - q mod 8) a) = n - (q - q mod 8))%nat)
      by (rewrite length_skipn; reflexivity).
    f_equal; apply IH; lia.
Qed.

(** Fewer than eight numbers are added one after the other, from the
    left. *)
Lemma sum_short (a : list B64.float) :
  (length a < 8)%nat -> sum a = fold_left B64.add a B64.zero.
Proof.
  intro H. unfold sum. apply Nat.ltb_lt in H.
  destruct (length a) eqn:E; cbn [pairwise_sum]; rewrite E, H; reflexivity.
Qed.

(** A threshold that is exceeded stays exceeded when it is lowered. *)
Lemma gt_Q_mono (x : B64.float) (t t' : Q) :
  (t <= t')%Q -> B64.gt_Q x t' = true -> B64.gt_Q x t = true.
Proof.
  intro Hle. unfold B64.gt_Q.
  destruct x as [s|s| |[|] m e]; try (intro H; exact H);
    rewrite !Qltb_lt; intro H; eapply Qle_lt_trans; eassumption.
Qed.

(** With a deviation of 0 the z-score is 0. *)
Lemma z_score_zero (v : Q) (l : list Q) :
  B64.is_zero (std_dev l) = true -> z_score v l = B64.zero.
Proof. unfold z_score. intros ->. reflexivity. Qed.

(** A z-score of 0 exceeds the negative thresholds only. *)
Lemma zero_exceeds (t : Q) :
  B64.gt_Q (B64.abs B64.zero) t = Qltb t 0.
Proof. reflexivity. Qed.

End StatsFacts.

(* ================================================================== *)
(** * Properties of the detection loop *)
(* ================================================================== *)

Lemma Qltb_compat (x y y' : Q) : (y == y')%Q -> Qltb x y = Qltb x y'.
Proof.
  intro E. destruct (Qltb x y') eqn:H.
  - apply Qltb_lt. apply Qltb_lt in H. rewrite E. exact H.
  - apply Qltb_ge. apply Qltb_ge in H. rewrite E. exact H.
Qed.

Lemma cell_eq_true_notna (a b : cell) :
  cell_eq a b = true -> notna a = true /\ notna b = true.
Proof. destruct a, b; simpl; intros; try discriminate; auto. Qed.

Section DetectionFacts.

Variable float_of_str : string -> option Q.

Local Abbreviation float := (float float_of_str).
Local Abbreviation classify_cell := (classify_cell float_of_str).
Local Abbreviation historical_data := (historical_data float_of_str).
Local Abbreviation astype_float := (astype_float float_of_str).
Local Abbreviation numeric_value := (numeric_value float_of_str).
Local Abbreviation unparseable := (unparseable float_of_str).
Local Abbreviation numbers_of := (numbers_of float_of_str).
Local Abbreviation baseline := (baseline float_of_str).

(** The year comparison of line 84 goes through exactly when no year of
    the frame is a text. *)
Lemma year_mask_numeric (D : list row) (cy : Q) :
  numeric_years D ->
  map_res (fun h => cell_lt_float (a_fiscal_year h) cy) D
  = Ok (map (fun h => match a_fiscal_year h with
                      | Num y => Qltb y cy | _ => false end) D).
Proof.
  induction D as [|h D IH]; intros HD; simpl; [reflexivity|].
  assert (Hh : is_text (a_fiscal_year h) = false) by (apply HD; left; reflexivity).
  rewrite IH by (intros h' Hin; apply HD; right; exact Hin).
  destruct (a_fiscal_year h); simpl in *; try reflexivity; discriminate.
Qed.

Lemma year_mask_text (D : list row) (cy : Q) :
  ~ numeric_years D ->
  map_res (fun h => cell_lt_float (a_fiscal_year h) cy) D = Raise TypeError.
Proof.
  induction D as [|h D IH]; intros HD; simpl.
  - exfalso. apply HD. intros h [].
  - destruct (a_fiscal_year h) eqn:Hy; simpl; try reflexivity.
    + rewrite IH; [reflexivity|]. intro HD'. apply HD.
      intros h' [<-|Hin]; [rewrite Hy; reflexivity | apply HD', Hin].
    + rewrite IH; [reflexivity|]. intro HD'. apply HD.
      intros h' [<-|Hin]; [rewrite Hy; reflexivity | apply HD', Hin].
Qed.

Lemma filter_mask {A} (f g : A -> bool) (l : list A) :
  map snd (List.filter (fun bh => fst bh && g (snd bh)) (combine (map f l) l))
  = List.filter (fun h => f h && g h) l.
Proof.
  induction l as [|x l IH]; simpl; [reflexivity|].
  destruct (f x && g x); simpl; rewrite IH; reflexivity.
Qed.

Lemma filter_filter {A} (f g : A -> bool) (l : list A) :
  List.filter g (List.filter f l) = List.filter (fun x => f x && g x) l.
Proof.
  induction l as [|x l IH]; simpl; [reflexivity|].
  destruct (f x); simpl; [destruct (g x)|]; rewrite IH; reflexivity.
Qed.

(** Lines 83-88 select the earlier observations of the same jurisdiction
    and category that record a value. *)
Lemma hist_rows_numeric (D : list row) (cy : Q) (muni category : cell)
    (metric : string) :
  numeric_years D ->
  hist_rows D cy muni category metric
  = Ok (List.filter (in_history cy muni category metric) D).
Proof.
  intro HD. unfold hist_rows. rewrite (year_mask_numeric D cy HD). simpl.
  f_equal.
  rewrite (filter_ext _
             (fun bh => fst bh
                        && (cell_eq (a_jurisdiction (snd bh)) muni
                            && cell_eq (a_service (snd bh)) category))).
  2:{ intros [b h]; simpl. rewrite andb_assoc. reflexivity. }
  rewrite (filter_mask
             (fun h => match a_fiscal_year h with
                       | Num y => Qltb y cy | _ => false end)
             (fun h => cell_eq (a_jurisdiction h) muni
                       && cell_eq (a_service h) category)).
  rewrite filter_filter. apply filter_ext. intro h. unfold in_history.
  destruct (a_fiscal_year h) as [|y|s]; simpl; try reflexivity.
  destruct (Qltb y cy); simpl; [|reflexivity].
  destruct (cell_eq (a_jurisdiction h) muni); simpl; [|reflexivity].
  destruct (cell_eq (a_service h) category) eqn:Hc; simpl; [|reflexivity].
  apply cell_eq_true_notna in Hc as [-> _]. reflexivity.
Qed.

Lemma hist_rows_text (D : list row) (cy : Q) (muni category : cell)
    (metric : string) :
  ~ numeric_years D ->
  hist_rows D cy muni category metric = Raise TypeError.
Proof.
  intro HD. unfold hist_rows. rewrite (year_mask_text D cy HD). reflexivity.
Qed.

Lemma numeric_years_dec (D : list row) :
  {numeric_years D} + {~ numeric_years D}.
Proof.
  induction D as [|h D [IH|IH]].
  - left. intros h [].
  - destruct (is_text (a_fiscal_year h)) eqn:Hh.
    + right. intro HD. rewrite (HD h) in Hh by (left; reflexivity). discriminate.
    + left. intros h' [<-|Hin]; [exact Hh | apply IH, Hin].
  - right. intro HD. apply IH. intros h' Hin. apply HD. right. exact Hin.
Qed.

(** Whenever the history is computed it is that selection. *)
Lemma hist_rows_ok (D : list row) (cy : Q) (muni category : cell)
    (metric : string) (hist : list row) :
  hist_rows D cy muni category metric = Ok hist ->
  numeric_years D
  /\ hist = List.filter (in_history cy muni category metric) D.
Proof.
  intro H. destruct (numeric_years_dec D) as [HD|HD].
  - rewrite hist_rows_numeric in H by exact HD. injection H as <-. auto.
  - rewrite hist_rows_text in H by exact HD. discriminate.
Qed.

Lemma hist_rows_notna (D : list row) (cy : Q) (muni category : cell)
    (metric : string) (hist : list row) :
  hist_rows D cy muni category metric = Ok hist ->
  forall h, In h hist -> notna (metrics h metric) = true.
Proof.
  intros H h Hin. apply hist_rows_ok in H as [_ ->].
  apply filter_In in Hin as [_ Hin]. unfold in_history in Hin.
  apply andb_true_iff in Hin as [_ Hin]. exact Hin.
Qed.

Lemma astype_float_spec (cs : list cell) :
  astype_float cs
  = if existsb unparseable cs then Raise ValueError else Ok (numbers_of cs).
Proof.
  induction cs as [|c cs IH]; [reflexivity|].
  change (existsb unparseable (c :: cs))
    with (unparseable c || existsb unparseable cs).
  change (numbers_of (c :: cs))
    with (match numeric_value c with Some x => [x] | None => [] end
          ++ numbers_of cs).
  destruct c as [|x|s]; cbn [astype_float].
  - exact IH.
  - rewrite IH. cbn. destruct (existsb unparseable cs); reflexivity.
  - unfold unparseable at 1, numeric_value at 1 2.
    destruct (float_of_str s); [|reflexivity].
    rewrite IH. cbn. destruct (existsb unparseable cs); reflexivity.
Qed.

Lemma existsb_over_map {A B} (f : A -> B) (p : B -> bool) (l : list A) :
  existsb p (map f l) = existsb (fun x => p (f x)) l.
Proof.
  induction l as [|x l IH]; simpl; [reflexivity|]. rewrite IH. reflexivity.
Qed.

Lemma historical_data_spec (hist : list row) (metric : string) :
  historical_data hist metric
  = if existsb (fun h => unparseable (metrics h metric)) hist then []
    else numbers_of (map (fun h => metrics h metric) hist).
Proof.
  unfold historical_data. rewrite astype_float_spec, existsb_over_map.
  destruct (existsb _ hist); reflexivity.
Qed.

Lemma in_history_compat (cy ty : Q) (muni category : cell) (metric : string)
    (D : list row) :
  (cy == ty)%Q ->
  List.filter (in_history cy muni category metric) D
  = List.filter (in_history ty muni category metric) D.
Proof.
  intro E. apply filter_ext. intro h. unfold in_history.
  destruct (a_fiscal_year h); try reflexivity.
  rewrite (Qltb_compat x cy ty E). reflexivity.
Qed.

(** The loop body on a row of the target year, once the year column is
    numeric: the three cases of the value. *)
Lemma classify_cell_target (D : list row) (metric_cols : list string)
    (threshold target_year : Q) (metric : string) (r : row) (cy : Q) :
  numeric_years D ->
  float (a_fiscal_year r) = Ok (Some cy) -> (cy == target_year)%Q ->
  let hist := List.filter (in_history target_year (a_jurisdiction r)
                             (a_service r) metric) D in
  let hd := historical_data hist metric in
  let excel_row := (idx r + 2)%Z in
  let excel_col := (get_loc metric_cols metric + 1)%Z in
  classify_cell D metric_cols threshold target_year metric r
  = match metrics r metric, numeric_value (metrics r metric) with
    | NaN, _ =>
        if (0 <? length hd)%nat then
          Ok (Some (Missing
            {| mi_row := excel_row; mi_col := excel_col;
               mi_year := a_fiscal_year r; mi_muni := a_jurisdiction r;
               mi_category := a_service r; mi_metric := metric;
               mi_comment := make_comment hist metric |}))
        else Ok None
    | val, None =>
        Ok (Some (NonNumeric
          {| nn_row := excel_row; nn_col := excel_col; nn_val := val;
             nn_year := a_fiscal_year r; nn_muni := a_jurisdiction r;
             nn_category := a_service r; nn_metric := metric |}))
    | _, Some v =>
        if (length hd <? 2)%nat then Ok None
        else if Stats.abs_z_exceeds v hd threshold then
          Ok (Some (Anomaly
            {| an_row := excel_row; an_col := excel_col;
               an_val := v; an_mean := Stats.mean hd;
               an_std_dev := Stats.std_dev hd;
                 an_z_score := Stats.z_score v hd;
               an_year := a_fiscal_year r; an_muni := a_jurisdiction r;
               an_category := a_service r; an_metric := metric;
               an_comment := make_comment hist metric |}))
        else Ok None
    end.
Proof.
  intros HD Hy E hist hd excel_row excel_col.
  unfold classify_cell. rewrite Hy.
  apply Qeq_bool_iff in E as Eb. rewrite Eb. cbn [negb].
  rewrite (hist_rows_numeric D cy _ _ metric HD).
  rewrite (in_history_compat cy target_year _ _ metric D E).
  fold hist. cbn [res_bind]. fold hd. fold excel_row. fold excel_col.
  destruct (metrics r metric) as [|x|s]; simpl.
  - destruct (0 <? length hd)%nat; reflexivity.
  - reflexivity.
  - destruct (float_of_str s); simpl; reflexivity.
Qed.

(** A row of another year, without a year, or with a year that is not a
    number is passed over. *)
Lemma classify_cell_skipped (D : list row) (metric_cols : list string)
    (threshold target_year : Q) (metric : string) (r : row) :
  (forall cy, float (a_fiscal_year r) = Ok (Some cy) ->
              ~ (cy == target_year)%Q) ->
  classify_cell D metric_cols threshold target_year metric r = Ok None.
Proof.
  intro H. unfold classify_cell.
  destruct (float (a_fiscal_year r)) as [[cy|]|e] eqn:Hy.
  - specialize (H cy eq_refl).
    destruct (Qeq_bool cy target_year) eqn:E; [|reflexivity].
    apply Qeq_bool_iff in E. contradiction.
  - reflexivity.
  - destruct (a_fiscal_year r) as [|x|s]; simpl in Hy; try discriminate.
    destruct (float_of_str s); [discriminate|].
    injection Hy as <-. reflexivity.
Qed.

End DetectionFacts.

(* ================================================================== *)
(** * The classifier *)
(* ================================================================== *)

Section Classifier.

Variable float_of_str : string -> option Q.

Local Abbreviation float := (float float_of_str).
Local Abbreviation classify_cell := (classify_cell float_of_str).
Local Abbreviation historical_data := (historical_data float_of_str).
Local Abbreviation numeric_value := (numeric_value float_of_str).
Local Abbreviation unparseable := (unparseable float_of_str).
Local Abbreviation numbers_of := (numbers_of float_of_str).
Local Abbreviation baseline := (baseline float_of_str).

Lemma numeric_value_notna (c : cell) (v : Q) :
  numeric_value c = Some v -> c <> NaN.
Proof. destruct c; simpl; congruence. Qed.

(** A cell of the target year that holds a number. *)
Lemma numeric_cell_outcome
    (D : list row) (metric_cols : list string) (threshold target_year : Q)
    (metric : string) (r : row) (cy v : Q) :
  numeric_years D ->
  float (a_fiscal_year r) = Ok (Some cy) -> (cy == target_year)%Q ->
  numeric_value (metrics r metric) = Some v ->
  let hd := baseline D target_year (a_jurisdiction r) (a_service r) metric in
  classify_cell D metric_cols threshold target_year metric r
  = if (length hd <? 2)%nat then Ok None
    else if Stats.abs_z_exceeds v hd threshold then
      Ok (Some (Anomaly
        {| an_row := (idx r + 2)%Z;
           an_col := (get_loc metric_cols metric + 1)%Z;
           an_val := v; an_mean := Stats.mean hd;
           an_std_dev := Stats.std_dev hd;
                 an_z_score := Stats.z_score v hd;
           an_year := a_fiscal_year r; an_muni := a_jurisdiction r;
           an_category := a_service r; an_metric := metric;
           an_comment := make_comment
             (List.filter (in_history target_year (a_jurisdiction r)
                             (a_service r) metric) D) metric |}))
    else Ok None.
Proof.
  intros HD Hy E Hv hd.
  pose proof (classify_cell_target float_of_str D metric_cols threshold
                target_year metric r cy HD Hy E) as H.
  cbv zeta in H. fold (baseline D target_year (a_jurisdiction r)
                         (a_service r) metric) in H. fold hd in H.
  rewrite Hv in H. rewrite H.
  destruct (metrics r metric) eqn:Hm; try reflexivity.
  simpl in Hv. discriminate.
Qed.

(** C1, amended.  On a frame whose year column is numeric, a cell of the
    target year that holds a number [v] is appended to [anomalies] exactly
    when the baseline has at least two points and the absolute z-score of
    [v] against it is greater than the threshold; otherwise the cell
    produces nothing.  The z-score is computed in binary64: the value
    minus numpy's mean of the baseline, over numpy's population standard
    deviation, and 0 when that computed deviation is 0; the tuple carries
    the three numbers.  The baseline is the series of earlier values of
    the same jurisdiction, category and metric, taken as empty when one of
    those values is not a number. *)
Theorem anomaly_iff_z_score_exceeds
    (D : list row) (metric_cols : list string) (threshold target_year : Q)
    (metric : string) (r : row) (cy v : Q) :
  numeric_years D ->
  float (a_fiscal_year r) = Ok (Some cy) -> (cy == target_year)%Q ->
  numeric_value (metrics r metric) = Some v ->
  let hd := baseline D target_year (a_jurisdiction r) (a_service r) metric in
  let mean := Stats.mean hd in
  let std_dev := Stats.std_dev hd in
  let z_score :=
    if B64.is_zero std_dev then B64.zero
    else B64.div (B64.sub (B64.of_Q v) mean) std_dev in
  let flagged :=
    (2 <= length hd)%nat /\ B64.gt_Q (B64.abs z_score) threshold = true in
  let out := classify_cell D metric_cols threshold target_year metric r in
  (flagged ->
   exists a, out = Ok (Some (Anomaly a))
             /\ an_val a = v /\ an_mean a = mean
             /\ an_std_dev a = std_dev
             /\ an_z_score a = z_score)
  /\ (~ flagged -> out = Ok None).
Proof.
  intros HD Hy E Hv hd mean std_dev z_score flagged out.
  pose proof (numeric_cell_outcome D metric_cols threshold target_year
                metric r cy v HD Hy E Hv) as Hout.
  cbv zeta in Hout. fold hd in Hout. fold out in Hout.
  assert (Ez : Stats.z_score v hd = z_score).
  { unfold Stats.z_score, z_score, std_dev, mean.
    destruct (B64.is_zero (Stats.std_dev hd)); reflexivity. }
  unfold Stats.abs_z_exceeds in Hout. rewrite Ez in Hout.
  subst flagged. split.
  - intros [Hlen Hz].
    apply Nat.ltb_ge in Hlen. rewrite Hlen, Hz in Hout.
    eexists. split; [exact Hout|]. repeat split.
  - intro Hn. rewrite Hout.
    destruct (length hd <? 2)%nat eqn:Hlen; [reflexivity|].
    destruct (B64.gt_Q (B64.abs z_score) threshold) eqn:Hz; [|reflexivity].
    exfalso. apply Hn. split; [|reflexivity].
    apply Nat.ltb_ge. exact Hlen.
Qed.

(** C2, amended.  The conversion of the earlier values never fails, and it
    keeps all of them or none: when every recorded value is a number the
    baseline is the list of these numbers, and one recorded value that is
    not a number leaves the baseline empty.  A cell of the target year
    whose history holds such a value, and whose own value is a number or
    absent, is then classified without an error and without a tuple. *)
Theorem unparseable_history_empties_baseline
    (hist : list row) (metric : string) :
  historical_data hist metric
  = (if existsb (fun h => unparseable (metrics h metric)) hist then []
     else numbers_of (map (fun h => metrics h metric) hist))
  /\ forall (D : list row) (metric_cols : list string)
        (threshold target_year : Q) (r : row) (cy : Q),
      numeric_years D ->
      float (a_fiscal_year r) = Ok (Some cy) -> (cy == target_year)%Q ->
      hist = List.filter (in_history target_year (a_jurisdiction r)
                            (a_service r) metric) D ->
      existsb (fun h => unparseable (metrics h metric)) hist = true ->
      unparseable (metrics r metric) = false ->
      classify_cell D metric_cols threshold target_year metric r = Ok None.
Proof.
  split; [apply historical_data_spec|].
  intros D metric_cols threshold target_year r cy HD Hy E -> Hex Hr.
  rewrite (classify_cell_target float_of_str D metric_cols threshold
             target_year metric r cy HD Hy E).
  cbv zeta. rewrite historical_data_spec, Hex. cbn [length Nat.ltb Nat.leb].
  unfold unparseable in Hr.
  destruct (metrics r metric) as [|x|s]; try reflexivity.
  destruct (numeric_value (Str s)); [reflexivity | discriminate].
Qed.

(** C3, amended.  On a frame whose year column is numeric, a cell of the
    target year without a value is appended to [missing_data] exactly when
    an earlier observation of the same jurisdiction and category records a
    value for the metric and every such recorded value is a number;
    otherwise the cell produces nothing. *)
Theorem missing_iff_usable_history
    (D : list row) (metric_cols : list string) (threshold target_year : Q)
    (metric : string) (r : row) (cy : Q) :
  numeric_years D ->
  float (a_fiscal_year r) = Ok (Some cy) -> (cy == target_year)%Q ->
  metrics r metric = NaN ->
  let hist := List.filter (in_history target_year (a_jurisdiction r)
                             (a_service r) metric) D in
  let usable :=
    hist <> []
    /\ forall h, In h hist -> unparseable (metrics h metric) = false in
  let out := classify_cell D metric_cols threshold target_year metric r in
  (usable ->
   exists m, out = Ok (Some (Missing m))
             /\ mi_muni m = a_jurisdiction r
             /\ mi_category m = a_service r /\ mi_metric m = metric)
  /\ (~ usable -> out = Ok None).
Proof.
  intros HD Hy E Hm hist usable out.
  pose proof (classify_cell_target float_of_str D metric_cols threshold
                target_year metric r cy HD Hy E) as H.
  cbv zeta in H. fold hist in H. fold out in H. rewrite Hm in H.
  rewrite historical_data_spec in H.
  assert (Hlen : forall h, In h hist ->
            numeric_value (metrics h metric) <> None \/
            unparseable (metrics h metric) = true).
  { intros h Hin. apply filter_In in Hin as [_ Hin].
    unfold in_history in Hin. apply andb_true_iff in Hin as [_ Hna].
    unfold unparseable.
    destruct (metrics h metric); simpl in *; try discriminate.
    - left; discriminate.
    - destruct (float_of_str s); [left; discriminate | right; reflexivity]. }
  subst usable. split.
  - intros [Hne Hall].
    assert (Hex : existsb (fun h => unparseable (metrics h metric)) hist
                  = false).
    { apply not_true_iff_false. intro Hex.
      apply existsb_exists in Hex as (h & Hin & Hh).
      rewrite (Hall h Hin) in Hh. discriminate. }
    rewrite Hex in H.
    destruct hist as [|h hist'] eqn:Hh; [contradiction|].
    destruct (Hlen h (or_introl eq_refl)) as [Hnum|Hun].
    2:{ rewrite (Hall h (or_introl eq_refl)) in Hun. discriminate. }
    cbn [map numbers_of flat_map] in H.
    destruct (numeric_value (metrics h metric)) eqn:Hv; [|contradiction].
    cbn in H. eexists. split; [exact H|]. repeat split.
  - intro Hn. rewrite H.
    destruct (existsb (fun h => unparseable (metrics h metric)) hist) eqn:Hex;
      [reflexivity|].
    destruct hist as [|h hist'] eqn:Hh; [reflexivity|].
    exfalso. apply Hn. split; [discriminate|].
    intros h' Hin. destruct (unparseable (metrics h' metric)) eqn:Hu;
      [|reflexivity].
    assert (existsb (fun h => unparseable (metrics h metric)) (h :: hist')
            = true) by (apply existsb_exists; exists h'; auto).
    congruence.
Qed.

(** With a baseline of computed deviation 0 the z-score is 0, and it
    exceeds the negative thresholds only. *)
Lemma zero_deviation_not_exceeded (v threshold : Q) (hd : list Q) :
  B64.is_zero (Stats.std_dev hd) = true ->
  Stats.z_score v hd = B64.zero
  /\ Stats.abs_z_exceeds v hd threshold = Qltb threshold 0.
Proof.
  intro Hsd. split; [apply StatsFacts.z_score_zero, Hsd|].
  unfold Stats.abs_z_exceeds.
  rewrite (StatsFacts.z_score_zero v hd Hsd). apply StatsFacts.zero_exceeds.
Qed.

(** C4, amended.  A cell of the target year that holds a number, whose
    baseline has at least two points and a computed standard deviation of
    exactly 0, has z-score 0: it is not appended to [anomalies] under any
    threshold from 0 on, whatever its value, and it is appended under
    every negative threshold. *)
Theorem zero_variance_never_flagged
    (D : list row) (metric_cols : list string) (threshold target_year : Q)
    (metric : string) (r : row) (cy v : Q) (hist : list row) :
  float (a_fiscal_year r) = Ok (Some cy) -> (cy == target_year)%Q ->
  numeric_value (metrics r metric) = Some v ->
  hist_rows D cy (a_jurisdiction r) (a_service r) metric = Ok hist ->
  (2 <= length (historical_data hist metric))%nat ->
  B64.is_zero (Stats.std_dev (historical_data hist metric)) = true ->
  let out := classify_cell D metric_cols threshold target_year metric r in
  Stats.z_score v (historical_data hist metric) = B64.zero
  /\ ((0 <= threshold)%Q -> out = Ok None)
  /\ ((threshold < 0)%Q ->
      exists a, out = Ok (Some (Anomaly a))
                /\ an_val a = v /\ an_z_score a = B64.zero).
Proof.
  intros Hy E Hv Hh Hlen Hsd out.
  destruct (zero_deviation_not_exceeded v threshold _ Hsd) as [Hz Hx].
  split; [exact Hz|].
  apply hist_rows_ok in Hh as [HD Hhist].
  rewrite (in_history_compat cy target_year _ _ metric D E) in Hhist.
  pose proof (numeric_cell_outcome D metric_cols threshold target_year
                metric r cy v HD Hy E Hv) as Hout.
  cbv zeta in Hout. unfold baseline in Hout.
  rewrite <- Hhist in Hout. fold out in Hout. rewrite Hx in Hout.
  apply Nat.ltb_ge in Hlen. rewrite Hlen in Hout.
  split.
  - intro Ht. apply Qltb_ge in Ht. rewrite Ht in Hout. exact Hout.
  - intro Ht. apply Qltb_lt in Ht. rewrite Ht in Hout.
    eexists. split; [exact Hout|]. split; [reflexivity | exact Hz].
Qed.






End Classifier.

(* ------------------------------------------------------------------ *)
(** ** The classifier on the sample tables *)
(* ------------------------------------------------------------------ *)

Section ClassifierSamples.

Import Samples.
Local Open Scope string_scope.

Ltac rows_are_numeric :=
  let h := fresh "h" in let Hin := fresh "Hin" in
  intros h Hin; simpl in Hin;
  repeat (destruct Hin as [<-|Hin]; [reflexivity|]); destruct Hin.

Lemma trend_numeric c : numeric_years (trend c).
Proof. rows_are_numeric. Qed.

Lemma level_numeric c : numeric_years (level c).
Proof. rows_are_numeric. Qed.

Lemma remark_numeric c : numeric_years (remark c).
Proof. rows_are_numeric. Qed.

Lemma mixed_numeric : numeric_years mixed.
Proof. rows_are_numeric. Qed.

Lemma tenths_numeric c : numeric_years (tenths c).
Proof. rows_are_numeric. Qed.

Lemma edge_numeric c : numeric_years (edge c).
Proof. rows_are_numeric. Qed.

Lemma z_of_40_exceeds_1 : Stats.abs_z_exceeds 40 [10; 20; 30]%Q 1 = true.
Proof. vm_compute. reflexivity. Qed.

Lemma z_of_22_within_1 : Stats.abs_z_exceeds 22 [10; 20; 30]%Q 1 = false.
Proof. vm_compute. reflexivity. Qed.

(** Against 10, 20, 30 the mean is 20, the deviation about 8.165, the
    z-score of 40 about 2.449 and that of 22 about 0.245. *)
Lemma z_scores_of_the_trend :
  Stats.mean [10; 20; 30]%Q = B64.of_Q 20
  /\ (B64.gt_Q (Stats.std_dev [10; 20; 30]%Q) 8.1649 = true
      /\ B64.gt_Q (Stats.std_dev [10; 20; 30]%Q) 8.165 = false)
  /\ (Stats.abs_z_exceeds 40 [10; 20; 30]%Q 2.449 = true
      /\ Stats.abs_z_exceeds 40 [10; 20; 30]%Q 2.45 = false)
  /\ (Stats.abs_z_exceeds 22 [10; 20; 30]%Q 0.244 = true
      /\ Stats.abs_z_exceeds 22 [10; 20; 30]%Q 0.245 = false).
Proof. repeat split; vm_compute; reflexivity. Qed.

(** Rounding decides at the threshold: against 0.1 and 0.3 the z-score of
    0.4 is 2 on the reals and 2 + 2^-51 in binary64, and the cell is
    reported under the threshold 2. *)
Lemma rounding_decides_at_the_threshold :
  Stats.z_score 0.4 [0.1; 0.3]%Q
  = B64.of_Q (4503599627370497 # 2251799813685248)
  /\ exists a,
       classify_cell Lit.float_of_str (edge (Num 0.4)) ["m1"] 2 2024 "m1"
         (target (Num 0.4)) = Ok (Some (Anomaly a))
       /\ an_val a = 0.4%Q.
Proof.
  split; [vm_compute; reflexivity|].
  eexists. split; [vm_compute; reflexivity | reflexivity].
Qed.

(** A sum that overflows gives an infinite deviation and an undefined
    z-score, which exceeds no threshold: 1e308 is one deviation away from
    1e308 and 1.5e308 on the reals and is never reported. *)
Lemma overflow_is_not_flagged :
  Stats.std_dev [1e308; 1.5e308]%Q = SpecFloat.S754_infinity false
  /\ Stats.z_score 1e308 [1e308; 1.5e308]%Q = SpecFloat.S754_nan
  /\ forall t, Stats.abs_z_exceeds 1e308 [1e308; 1.5e308]%Q t = false.
Proof.
  split; [vm_compute; reflexivity|].
  assert (H : Stats.z_score 1e308 [1e308; 1.5e308]%Q = SpecFloat.S754_nan)
    by (vm_compute; reflexivity).
  split; [exact H|]. intro t. unfold Stats.abs_z_exceeds. rewrite H.
  reflexivity.
Qed.

(** With the history 10, 20, 30 and the threshold 1, the value 40 is an
    anomaly and the value 22 is not. *)
Lemma anomaly_iff_z_score_exceeds_witness :
  (exists a,
     classify_cell Lit.float_of_str (trend (Num 40)) ["m1"] 1 2024 "m1"
       (target (Num 40)) = Ok (Some (Anomaly a))
     /\ an_val a = 40%Q /\ an_mean a = Stats.mean [10; 20; 30]%Q
     /\ an_std_dev a = Stats.std_dev [10; 20; 30]%Q
     /\ an_z_score a = Stats.z_score 40 [10; 20; 30]%Q)
  /\ classify_cell Lit.float_of_str (trend (Num 22)) ["m1"] 1 2024 "m1"
       (target (Num 22)) = Ok None.
Proof.
  split.
  - refine (proj1 (anomaly_iff_z_score_exceeds Lit.float_of_str
                     (trend (Num 40)) ["m1"] 1 2024 "m1" (target (Num 40))
                     2024 40 (trend_numeric _) eq_refl _ eq_refl) _).
    + reflexivity.
    + split; [vm_compute; lia | vm_compute; reflexivity].
  - refine (proj2 (anomaly_iff_z_score_exceeds Lit.float_of_str
                     (trend (Num 22)) ["m1"] 1 2024 "m1" (target (Num 22))
                     2024 22 (trend_numeric _) eq_refl _ eq_refl) _).
    + reflexivity.
    + intros [_ H]. vm_compute in H. discriminate H.
Defined.

(** C1 as stated fails: the parseable earlier values are 10, 20 and 30,
    the value 40 is more than one deviation away from them, and yet the
    cell is not reported, because the remark of 2020 empties the baseline. *)
Lemma anomaly_missed_after_remark :
  numeric_value Lit.float_of_str (metrics (target (Str "40")) "m1") = Some 40%Q
  /\ parseable_series Lit.float_of_str (remark (Str "40")) 2024
       (Str "A") (Str "X") "m1" = [10; 20; 30]%Q
  /\ Stats.abs_z_exceeds 40 [10; 20; 30]%Q 1 = true
  /\ classify_cell Lit.float_of_str (remark (Str "40")) ["m1"] 1 2024 "m1"
       (target (Str "40")) = Ok None.
Proof.
  repeat split; vm_compute; reflexivity.
Qed.

(** C2 as stated fails: with the remark among the earlier values, the
    numbers 10, 20 and 30 are not kept as the baseline; it is empty. *)
Lemma remark_empties_baseline :
  exists hist,
    hist_rows (remark (Str "40")) 2024 (Str "A") (Str "X") "m1" = Ok hist
    /\ numbers_of Lit.float_of_str (map (fun h => metrics h "m1") hist)
       = [10; 20; 30]%Q
    /\ historical_data Lit.float_of_str hist "m1" = [].
Proof.
  eexists. split; [vm_compute; reflexivity|].
  split; vm_compute; reflexivity.
Qed.

(** C3 as stated fails: three valid earlier points exist for the cell
    without a value, and no [Missing] is reported. *)
Lemma missing_not_reported_after_remark :
  metrics (target NaN) "m1" = NaN
  /\ parseable_series Lit.float_of_str (remark NaN) 2024
       (Str "A") (Str "X") "m1" = [10; 20; 30]%Q
  /\ classify_cell Lit.float_of_str (remark NaN) ["m1"] 1 2024 "m1"
       (target NaN) = Ok None.
Proof. repeat split; vm_compute; reflexivity. Qed.

(** A cell without a value is reported as missing when its three earlier
    values are numbers. *)
Lemma missing_iff_usable_history_witness :
  exists m,
    classify_cell Lit.float_of_str (trend NaN) ["m1"] 1 2024 "m1" (target NaN)
    = Ok (Some (Missing m))
    /\ mi_muni m = Str "A" /\ mi_category m = Str "X" /\ mi_metric m = "m1".
Proof.
  refine (proj1 (missing_iff_usable_history Lit.float_of_str
                   (trend NaN) ["m1"] 1 2024 "m1" (target NaN) 2024
                   (trend_numeric _) eq_refl _ eq_refl) _).
  - reflexivity.
  - split; [vm_compute; discriminate|].
    intros h Hin. vm_compute in Hin.
    repeat (destruct Hin as [<-|Hin]; [reflexivity|]). destruct Hin.
Defined.

(** The value 10 against the history 10, 10, 10: no tuple with the
    threshold 1/2, a tuple with the threshold -1. *)
Lemma zero_variance_never_flagged_witness :
  Stats.z_score 10 [10; 10; 10]%Q = B64.zero
  /\ classify_cell Lit.float_of_str (level (Num 10)) ["m1"] (1 # 2) 2024 "m1"
       (target (Num 10)) = Ok None
  /\ exists a,
       classify_cell Lit.float_of_str (level (Num 10)) ["m1"] (-1) 2024 "m1"
         (target (Num 10)) = Ok (Some (Anomaly a))
       /\ an_val a = 10%Q /\ an_z_score a = B64.zero.
Proof.
  assert (Hh : hist_rows (level (Num 10)) 2024 (Str "A") (Str "X") "m1"
               = Ok (List.filter (in_history 2024 (Str "A") (Str "X") "m1")
                                 (level (Num 10))))
    by (apply hist_rows_numeric, level_numeric).
  assert (Hlen : (2 <= length (historical_data Lit.float_of_str
                     (List.filter (in_history 2024 (Str "A") (Str "X") "m1")
                                  (level (Num 10))) "m1"))%nat)
    by (vm_compute; lia).
  assert (Hsd : B64.is_zero (Stats.std_dev (historical_data Lit.float_of_str
                     (List.filter (in_history 2024 (Str "A") (Str "X") "m1")
                                  (level (Num 10))) "m1")) = true)
    by (vm_compute; reflexivity).
  destruct (zero_variance_never_flagged Lit.float_of_str
              (level (Num 10)) ["m1"] (1 # 2) 2024 "m1" (target (Num 10))
              2024 10 _ eq_refl (Qeq_refl _) eq_refl Hh Hlen Hsd)
    as (Hz & Hnone & _).
  destruct (zero_variance_never_flagged Lit.float_of_str
              (level (Num 10)) ["m1"] (-1) 2024 "m1" (target (Num 10))
              2024 10 _ eq_refl (Qeq_refl _) eq_refl Hh Hlen Hsd)
    as (_ & _ & Hneg).
  split; [exact Hz|]. split.
  - apply Hnone. discriminate.
  - apply Hneg. reflexivity.
Defined.

(** Against the history 10, 10, 10 no value is flagged, for any threshold
    from 0 on. *)
Lemma level_history_never_flagged (threshold v : Q) :
  (0 <= threshold)%Q ->
  classify_cell Lit.float_of_str (level (Num v)) ["m1"] threshold 2024 "m1"
    (target (Num v)) = Ok None.
Proof.
  intro Ht.
  rewrite (numeric_cell_outcome Lit.float_of_str (level (Num v)) ["m1"]
             threshold 2024 "m1" (target (Num v)) 2024 v
             (level_numeric _) eq_refl (Qeq_refl _) eq_refl).
  change (baseline Lit.float_of_str (level (Num v)) 2024
            (a_jurisdiction (target (Num v))) (a_service (target (Num v)))
            "m1") with [10; 10; 10]%Q.
  assert (Hsd : B64.is_zero (Stats.std_dev [10; 10; 10]%Q) = true)
    by (vm_compute; reflexivity).
  destruct (zero_deviation_not_exceeded v threshold _ Hsd) as [_ ->].
  apply Qltb_ge in Ht. rewrite Ht. reflexivity.
Qed.

(** C4 as stated fails.  The history 0.1, 0.1, 0.1 is constant, and its
    deviation as numpy computes it is not 0 (the mean of the three is the
    next float above 0.1): the guard of line 109 does not fire, the z-score
    of 0.1 is -1, and the cell is reported under the threshold 1/2.  And
    against 10, 10, 10 the value 10 is reported under the threshold -1. *)
Lemma constant_history_flagged :
  baseline Lit.float_of_str (tenths (Num 0.1)) 2024 (Str "A") (Str "X") "m1"
  = [0.1; 0.1; 0.1]%Q
  /\ B64.is_zero (Stats.std_dev [0.1; 0.1; 0.1]%Q) = false
  /\ Stats.z_score 0.1 [0.1; 0.1; 0.1]%Q = B64.of_Q (-1)
  /\ (exists a,
        classify_cell Lit.float_of_str (tenths (Num 0.1)) ["m1"] (1 # 2) 2024
          "m1" (target (Num 0.1)) = Ok (Some (Anomaly a))
        /\ an_val a = 0.1%Q)
  /\ (exists a,
        classify_cell Lit.float_of_str (level (Num 10)) ["m1"] (-1) 2024
          "m1" (target (Num 10)) = Ok (Some (Anomaly a))
        /\ an_val a = 10%Q).
Proof.
  split; [vm_compute; reflexivity|].
  split; [vm_compute; reflexivity|].
  split; [vm_compute; reflexivity|].
  split; eexists; (split; [vm_compute; reflexivity | reflexivity]).
Qed.


(** A year that is a text stops the detection at the first cell of the
    target year that needs a history. *)
Lemma text_year_stops_detection :
  detection_loop Lit.float_of_str (df_detection undated) ["m1"] 1 2023
  = Raise TypeError.
Proof. reflexivity. Qed.

End ClassifierSamples.

(* ================================================================== *)
(** * The event lists and the lookup dictionaries *)
(* ================================================================== *)

Lemma map_res_app {A B} (f : A -> res B) (l1 l2 : list A) :
  map_res f (l1 ++ l2)
  = do a <- map_res f l1; do b <- map_res f l2; Ok (a ++ b).
Proof.
  induction l1 as [|x l1 IH]; simpl.
  - destruct (map_res f l2); reflexivity.
  - destruct (f x); simpl; [|reflexivity]. rewrite IH.
    destruct (map_res f l1); simpl; [|reflexivity].
    destruct (map_res f l2); reflexivity.
Qed.

Lemma map_res_map {A B C} (g : A -> B) (f : B -> res C) (l : list A) :
  map_res f (map g l) = map_res (fun x => f (g x)) l.
Proof.
  induction l as [|x l IH]; simpl; [reflexivity|]. rewrite IH. reflexivity.
Qed.

(** The inner loop appends the outcomes of the rows in order. *)
Lemma for_each_emit {A} (f : A -> res (option event)) (l : list A)
    (acc : lists) :
  for_each (fun acc x => do o <- f x; Ok (emit acc o)) l acc
  = do os <- map_res f l; Ok (fold_left emit os acc).
Proof.
  revert acc. induction l as [|x l IH]; intro acc; simpl; [reflexivity|].
  destruct (f x) as [o|e]; simpl; [|reflexivity].
  rewrite IH. destruct (map_res f l); reflexivity.
Qed.

Lemma nested_loops {A B} (f : A -> B -> res (option event))
    (outer : list A) (inner : list B) (acc : lists) :
  for_each
    (fun acc a => for_each (fun acc b => do o <- f a b; Ok (emit acc o))
                           inner acc)
    outer acc
  = do os <- map_res (fun ab => f (fst ab) (snd ab)) (list_prod outer inner);
    Ok (fold_left emit os acc).
Proof.
  revert acc. induction outer as [|a outer IH]; intro acc; simpl;
    [reflexivity|].
  rewrite for_each_emit, map_res_app, map_res_map. simpl.
  destruct (map_res (fun b => f a b) inner) as [os1|e]; simpl; [|reflexivity].
  rewrite IH.
  destruct (map_res _ (list_prod outer inner)) as [os2|e]; simpl;
    [|reflexivity].
  rewrite fold_left_app. reflexivity.
Qed.

Lemma emitted_lists (os : list (option event)) (acc : lists) :
  anomalies (fold_left emit os acc) = anomalies acc ++ the_anomalies os
  /\ missing_data (fold_left emit os acc) = missing_data acc ++ the_missing os
  /\ non_numeric (fold_left emit os acc)
     = non_numeric acc ++ the_non_numeric os.
Proof.
  revert acc. induction os as [|o os IH]; intro acc; simpl.
  - rewrite !app_nil_r. auto.
  - destruct (IH (emit acc o)) as (-> & -> & ->).
    destruct o as [[a|m|n]|]; simpl; rewrite <- ?app_assoc; auto.
Qed.

(** The three lists are the outcomes of the loop body, cell after cell. *)
Lemma detection_loop_outcomes (float_of_str : string -> option Q)
    (D : list row) (metric_cols : list string) (threshold target_year : Q)
    (ev : lists) :
  detection_loop float_of_str D metric_cols threshold target_year = Ok ev ->
  exists os,
    outcomes float_of_str D metric_cols threshold target_year = Ok os
    /\ anomalies ev = the_anomalies os
    /\ missing_data ev = the_missing os
    /\ non_numeric ev = the_non_numeric os.
Proof.
  unfold detection_loop, outcomes. rewrite nested_loops.
  destruct (map_res _ (list_prod metric_cols D)) as [os|e]; simpl;
    [|discriminate].
  intros [= <-]. exists os. split; [reflexivity|].
  apply (emitted_lists os no_events).
Qed.

(** A dictionary filled by successive assignments answers with the last
    element assigned under the key. *)
Lemma fold_insert_lookup {A} (key : A -> entity_key) (xs : list A)
    (d : gmap entity_key A) (k : entity_key) :
  fold_left (fun d x => <[key x := x]> d) xs d !! k
  = match last (List.filter (fun x => bool_decide (key x = k)) xs) with
    | Some x => Some x
    | None => d !! k
    end.
Proof.
  revert d. induction xs as [|x xs IH]; intro d; simpl; [reflexivity|].
  rewrite IH. destruct (bool_decide (key x = k)) eqn:Hk.
  - apply bool_decide_eq_true in Hk. rewrite last_cons.
    destruct (last (List.filter _ xs)); [reflexivity|].
    rewrite <- Hk. apply lookup_insert_eq.
  - apply bool_decide_eq_false in Hk.
    destruct (last (List.filter _ xs)); [reflexivity|].
    apply lookup_insert_ne. exact Hk.
Qed.

Lemma build_dict_lookup {A} (key : A -> entity_key) (xs : list A)
    (k : entity_key) :
  build_dict key xs !! k
  = last (List.filter (fun x => bool_decide (key x = k)) xs).
Proof.
  unfold build_dict. rewrite fold_insert_lookup.
  destruct (last _); [reflexivity | apply lookup_empty].
Qed.

(** C10.  The three lists hold one tuple per cell that produced one, in the
    order of the loops, and each dictionary answers a key with the last
    tuple of its list that has this key: an earlier tuple with the same key
    is in the list and not in the dictionary. *)
Theorem lookup_keeps_last_event (float_of_str : string -> option Q)
    (str_of_float : Q -> string)
    (D : list row) (metric_cols : list string) (threshold target_year : Q)
    (ev : lists) :
  detection_loop float_of_str D metric_cols threshold target_year = Ok ev ->
  (exists os,
     outcomes float_of_str D metric_cols threshold target_year = Ok os
     /\ anomalies ev = the_anomalies os
     /\ missing_data ev = the_missing os
     /\ non_numeric ev = the_non_numeric os)
  /\ (forall k,
        anomaly_dict str_of_float ev !! k
        = last (List.filter
                  (fun a => bool_decide (anomaly_key str_of_float a = k))
                  (anomalies ev)))
  /\ (forall k,
        missing_dict str_of_float ev !! k
        = last (List.filter
                  (fun m => bool_decide (missing_key str_of_float m = k))
                  (missing_data ev)))
  /\ (forall k,
        non_numeric_dict str_of_float ev !! k
        = last (List.filter
                  (fun n => bool_decide (nonnum_key str_of_float n = k))
                  (non_numeric ev))).
Proof.
  intro H. split; [exact (detection_loop_outcomes _ _ _ _ _ _ H)|].
  repeat split; intro k; apply build_dict_lookup.
Qed.

Section DictionarySamples.

Import Samples.
Local Open Scope string_scope.

Lemma twice_detected :
  detection_loop Lit.float_of_str twice ["m1"] 1 2024 = Ok twice_events.
Proof. vm_compute. reflexivity. Qed.

(** The two rows of [twice] give two tuples of [non_numeric] under one key,
    and the dictionary answers that key with the second. *)
Lemma lookup_keeps_last_event_witness :
  non_numeric twice_events = [first_text; second_text]
  /\ nonnum_key Lit.str_of_float first_text = ("A", "X", "m1")
  /\ nonnum_key Lit.str_of_float second_text = ("A", "X", "m1")
  /\ non_numeric_dict Lit.str_of_float twice_events !! ("A", "X", "m1")
     = Some second_text.
Proof.
  destruct (lookup_keeps_last_event Lit.float_of_str Lit.str_of_float
              twice ["m1"] 1 2024 twice_events twice_detected)
    as (_ & _ & _ & Hnn).
  do 3 (split; [reflexivity|]).
  rewrite Hnn. reflexivity.
Defined.

(** The first tuple is in the list and under no key of the dictionary. *)
Lemma first_text_not_in_dictionary :
  In first_text (non_numeric twice_events)
  /\ forall k, non_numeric_dict Lit.str_of_float twice_events !! k
               <> Some first_text.
Proof.
  split; [left; reflexivity|].
  intros k. unfold non_numeric_dict. rewrite build_dict_lookup.
  simpl. change (nonnum_key Lit.str_of_float first_text) with ("A", "X", "m1").
  change (nonnum_key Lit.str_of_float second_text) with ("A", "X", "m1").
  match goal with
  | |- context [bool_decide ?P] => destruct (bool_decide P)
  end; cbn; intro H.
  - apply (f_equal (fun o => match o with Some n => nn_row n | None => 0%Z end))
      in H.
    discriminate H.
  - discriminate H.
Qed.

End DictionarySamples.

(* ================================================================== *)
(** * The order of the events summary *)
(* ================================================================== *)

Lemma ascii_compare_refl (a : ascii) : Ascii.compare a a = Eq.
Proof. apply N.compare_refl. Qed.

Lemma ascii_compare_lt_trans (a b c : ascii) :
  Ascii.compare a b = Lt -> Ascii.compare b c = Lt -> Ascii.compare a c = Lt.
Proof.
  unfold Ascii.compare. rewrite !N.compare_lt_iff. apply N.lt_trans.
Qed.

Lemma string_compare_refl (s : string) : String.compare s s = Eq.
Proof.
  induction s as [|a s IH]; simpl; [reflexivity|].
  rewrite ascii_compare_refl. exact IH.
Qed.

Lemma string_compare_lt_trans (s t u : string) :
  String.compare s t = Lt -> String.compare t u = Lt ->
  String.compare s u = Lt.
Proof.
  revert t u. induction s as [|a s IH]; intros [|b t] [|c u]; simpl;
    try discriminate; try reflexivity.
  destruct (Ascii.compare a b) eqn:Hab; try discriminate;
    destruct (Ascii.compare b c) eqn:Hbc; try discriminate; intros H1 H2.
  - apply Ascii.compare_eq_iff in Hab, Hbc. subst.
    rewrite ascii_compare_refl. eapply IH; eassumption.
  - apply Ascii.compare_eq_iff in Hab. subst. rewrite Hbc. reflexivity.
  - apply Ascii.compare_eq_iff in Hbc. subst. rewrite Hab. reflexivity.
  - rewrite (ascii_compare_lt_trans a b c Hab Hbc). reflexivity.
Qed.

Lemma string_ltb_lt (s t : string) :
  String.ltb s t = true <-> String.compare s t = Lt.
Proof.
  unfold String.ltb. destruct (String.compare s t); split;
    intro; try reflexivity; discriminate.
Qed.

Lemma string_leb_cases (s t : string) :
  String.leb s t = true <-> String.compare s t = Lt \/ s = t.
Proof.
  unfold String.leb. destruct (String.compare s t) eqn:H; split; intro H'.
  - right. apply String.compare_eq_iff. exact H.
  - reflexivity.
  - left. reflexivity.
  - reflexivity.
  - discriminate.
  - destruct H' as [H'| ->]; [discriminate|].
    rewrite string_compare_refl in H. discriminate.
Qed.

Lemma string_leb_refl (s : string) : String.leb s s = true.
Proof. apply string_leb_cases. right. reflexivity. Qed.

Lemma string_leb_trans (s t u : string) :
  String.leb s t = true -> String.leb t u = true -> String.leb s u = true.
Proof.
  rewrite !string_leb_cases. intros [H1| ->] [H2| ->]; auto.
  left. eapply string_compare_lt_trans; eassumption.
Qed.

Lemma string_ltb_leb (s t : string) :
  String.ltb s t = true -> String.leb s t = true.
Proof.
  rewrite string_ltb_lt, string_leb_cases. auto.
Qed.

Lemma string_not_ltb_leb (s t : string) :
  String.ltb s t = false -> String.leb t s = true.
Proof.
  unfold String.ltb, String.leb. rewrite (String.compare_antisym t s).
  destruct (String.compare s t); simpl; intro; try reflexivity; discriminate.
Qed.

Lemma string_ltb_leb_neq (s t u : string) :
  String.ltb s t = true -> String.leb t u = true -> s <> u.
Proof.
  rewrite string_ltb_lt, string_leb_cases. intros H1 H2 Heq. subst s.
  destruct H2 as [H2|H2].
  - pose proof (string_compare_lt_trans u t u H1 H2) as H.
    rewrite string_compare_refl in H. discriminate.
  - subst t. rewrite string_compare_refl in H1. discriminate.
Qed.

Section SortFacts.

Context {A : Type} (key : A -> cell).

Lemma insert_text_In (x y : A) (l : list A) :
  In y (insert_text key x l) <-> y = x \/ In y l.
Proof.
  induction l as [|z l IH]; simpl.
  - intuition.
  - destruct (String.ltb _ _); simpl; [intuition|].
    rewrite IH. intuition.
Qed.

(** On text keys [<] never raises, and the insertion is [insert_text]. *)
Lemma insert_by_text (x : A) (l : list A) :
  is_text (key x) = true -> text_keys key l ->
  insert_by key x l = Ok (insert_text key x l).
Proof.
  intros Hx Hl. induction l as [|y l IH]; simpl; [reflexivity|].
  assert (Hy : is_text (key y) = true) by (apply Hl; left; reflexivity).
  destruct (key x) as [| |s]; try discriminate.
  destruct (key y) as [| |t]; try discriminate. simpl.
  destruct (String.ltb s t); [reflexivity|].
  rewrite IH by (intros z Hz; apply Hl; right; exact Hz). reflexivity.
Qed.

Lemma fold_insert_text (xs acc : list A) :
  text_keys key acc -> text_keys key xs ->
  for_each (fun sorted x => insert_by key x sorted) xs acc
  = Ok (fold_left (fun sorted x => insert_text key x sorted) xs acc).
Proof.
  revert acc. induction xs as [|x xs IH]; intros acc Hacc Hxs; simpl;
    [reflexivity|].
  rewrite insert_by_text by (auto; apply Hxs; left; reflexivity). simpl.
  apply IH.
  - intros y Hy. apply insert_text_In in Hy as [->|Hy];
      [apply Hxs; left; reflexivity | apply Hacc, Hy].
  - intros y Hy. apply Hxs. right. exact Hy.
Qed.

Lemma sort_by_text (xs : list A) :
  text_keys key xs -> sort_by key xs = Ok (sort_text key xs).
Proof.
  intro H. apply fold_insert_text; [intros x []|exact H].
Qed.

Lemma insert_text_perm (x : A) (l : list A) :
  Permutation (x :: l) (insert_text key x l).
Proof.
  induction l as [|y l IH]; simpl; [reflexivity|].
  destruct (String.ltb _ _); [reflexivity|].
  rewrite perm_swap. apply perm_skip. exact IH.
Qed.

Lemma insert_text_sorted (x : A) (l : list A) :
  StronglySorted (key_le key) l ->
  StronglySorted (key_le key) (insert_text key x l).
Proof.
  induction 1 as [|y l Hl IH Hy]; simpl.
  - constructor; constructor.
  - destruct (String.ltb (text_of (key x)) (text_of (key y))) eqn:Hlt.
    + apply string_ltb_leb in Hlt.
      constructor; [constructor; assumption|].
      constructor; [exact Hlt|].
      apply List.Forall_forall. intros z Hz.
      rewrite List.Forall_forall in Hy. specialize (Hy z Hz).
      unfold key_le in *. eapply string_leb_trans; eassumption.
    + apply string_not_ltb_leb in Hlt.
      constructor; [exact IH|].
      apply List.Forall_forall. intros z Hz.
      apply insert_text_In in Hz as [->|Hz]; [exact Hlt|].
      rewrite List.Forall_forall in Hy. apply Hy, Hz.
Qed.

Lemma named_none_after (x y : A) (l : list A) (s : string) :
  String.ltb (text_of (key x)) (text_of (key y)) = true ->
  Forall (key_le key y) l ->
  cell_eq (key x) (Str s) = true ->
  named key s (y :: l) = [].
Proof.
  intros Hlt Hy Hx.
  assert (Hs : text_of (key x) = s).
  { destruct (key x); simpl in *; try discriminate.
    apply String.eqb_eq. exact Hx. }
  assert (Hall : forall z, In z (y :: l) -> cell_eq (key z) (Str s) = false).
  { intros z Hz. apply not_true_iff_false. intro Hzs.
    assert (Hzt : text_of (key z) = s).
    { destruct (key z); simpl in *; try discriminate.
      apply String.eqb_eq. exact Hzs. }
    assert (Hle : String.leb (text_of (key y)) (text_of (key z)) = true).
    { destruct Hz as [<-|Hz]; [apply string_leb_refl|].
      rewrite List.Forall_forall in Hy. apply Hy, Hz. }
    apply (string_ltb_leb_neq _ _ _ Hlt Hle). congruence. }
  unfold named. induction (y :: l) as [|z l' IH]; simpl; [reflexivity|].
  rewrite (Hall z) by (left; reflexivity).
  apply IH. intros z' Hz'. apply Hall. right. exact Hz'.
Qed.

(** An insertion leaves the elements of each name in their order, the new
    one last. *)
Lemma insert_text_named (x : A) (l : list A) (s : string) :
  StronglySorted (key_le key) l ->
  named key s (insert_text key x l) = named key s l ++ named key s [x].
Proof.
  induction 1 as [|y l Hl IH Hy].
  - simpl. reflexivity.
  - cbn [insert_text].
    destruct (String.ltb (text_of (key x)) (text_of (key y))) eqn:Hlt.
    + change (named key s (x :: y :: l))
        with (if cell_eq (key x) (Str s) then x :: named key s (y :: l)
              else named key s (y :: l)).
      change (named key s [x])
        with (if cell_eq (key x) (Str s) then [x] else []).
      destruct (cell_eq (key x) (Str s)) eqn:Hx.
      * rewrite (named_none_after x y l s Hlt Hy Hx). reflexivity.
      * rewrite app_nil_r. reflexivity.
    + unfold named in *. cbn [List.filter].
      destruct (cell_eq (key y) (Str s)); rewrite IH; reflexivity.
Qed.

Lemma fold_insert_perm (xs acc : list A) :
  Permutation (acc ++ xs)
    (fold_left (fun sorted x => insert_text key x sorted) xs acc).
Proof.
  revert acc. induction xs as [|x xs IH]; intro acc; simpl.
  - rewrite app_nil_r. reflexivity.
  - etransitivity; [|apply IH].
    etransitivity; [symmetry; apply Permutation_middle|].
    change (x :: acc ++ xs) with ((x :: acc) ++ xs).
    apply Permutation_app_tail, insert_text_perm.
Qed.


Lemma fold_insert_named (xs acc : list A) (s : string) :
  StronglySorted (key_le key) acc ->
  named key s (fold_left (fun sorted x => insert_text key x sorted) xs acc)
  = named key s acc ++ named key s xs.
Proof.
  revert acc. induction xs as [|x xs IH]; intros acc H; simpl.
  - unfold named. simpl. rewrite app_nil_r. reflexivity.
  - rewrite IH by (apply insert_text_sorted, H).
    rewrite insert_text_named by exact H.
    rewrite <- app_assoc. f_equal.
    unfold named. simpl. destruct (cell_eq (key x) (Str s)); reflexivity.
Qed.


End SortFacts.



Section SummarySamples.

Import Samples.
Local Open Scope string_scope.

Lemma unsorted_text_keys : text_keys su_muni unsorted.
Proof.
  intros x Hin. simpl in Hin.
  repeat (destruct Hin as [<-|Hin]; [reflexivity|]). destruct Hin.
Qed.

(** Upper case comes before lower case, and the two lines of B and of a
    keep their order. *)
Lemma unsorted_sorted : sort_summary unsorted = Ok sorted_lines.
Proof. vm_compute. reflexivity. Qed.





End SummarySamples.

(* ================================================================== *)
(** * The pivot *)
(* ================================================================== *)

Lemma cell_eq_sym (a b : cell) : cell_eq a b = cell_eq b a.
Proof.
  destruct a as [|x|s], b as [|y|t]; simpl; try reflexivity.
  - destruct (Qeq_bool x y) eqn:H.
    + symmetry. apply Qeq_bool_iff. symmetry. apply Qeq_bool_iff. exact H.
    + symmetry. apply not_true_iff_false. intro H'.
      apply not_true_iff_false in H. apply H.
      apply Qeq_bool_iff. symmetry. apply Qeq_bool_iff. exact H'.
  - apply String.eqb_sym.
Qed.

Lemma cell_eq_trans (a b c : cell) :
  cell_eq a b = true -> cell_eq b c = true -> cell_eq a c = true.
Proof.
  destruct a as [|x|s], b as [|y|t], c as [|z|u]; simpl;
    try discriminate; intros H1 H2.
  - apply Qeq_bool_iff in H1, H2. apply Qeq_bool_iff.
    rewrite H1. exact H2.
  - apply String.eqb_eq in H1, H2. apply String.eqb_eq. congruence.
Qed.

Lemma cell_eq_refl (a : cell) : notna a = true -> cell_eq a a = true.
Proof.
  destruct a as [|x|s]; simpl; intro H; try discriminate.
  - apply Qeq_bool_iff. reflexivity.
  - apply String.eqb_refl.
Qed.

Lemma same_entity_sym (a b : long_row) : same_entity a b = same_entity b a.
Proof.
  unfold same_entity.
  rewrite (cell_eq_sym (Municipality a)), (cell_eq_sym (Category a)),
    (String.eqb_sym (Metric a)). reflexivity.
Qed.

Lemma same_entity_trans (a b c : long_row) :
  same_entity a b = true -> same_entity b c = true -> same_entity a c = true.
Proof.
  unfold same_entity. rewrite !andb_true_iff.
  intros [[M1 C1] K1] [[M2 C2] K2]. repeat split.
  - eapply cell_eq_trans; eassumption.
  - eapply cell_eq_trans; eassumption.
  - apply String.eqb_eq in K1, K2. apply String.eqb_eq. congruence.
Qed.

Lemma same_group_sym (a b : long_row) : same_group a b = same_group b a.
Proof.
  unfold same_group.
  rewrite same_entity_sym, (cell_eq_sym (Year a)). reflexivity.
Qed.

Lemma same_group_trans (a b c : long_row) :
  same_group a b = true -> same_group b c = true -> same_group a c = true.
Proof.
  unfold same_group. rewrite !andb_true_iff. intros [E1 Y1] [E2 Y2]. split.
  - eapply same_entity_trans; eassumption.
  - eapply cell_eq_trans; eassumption.
Qed.

Section DistinctFacts.

Context {A : Type} (eqb : A -> A -> bool).
Hypothesis eqb_sym : forall a b, eqb a b = eqb b a.
Hypothesis eqb_trans :
  forall a b c, eqb a b = true -> eqb b c = true -> eqb a c = true.

Lemma distinct_In (y : A) (l : list A) : In y (distinct eqb l) -> In y l.
Proof.
  induction l as [|x l IH]; simpl; [tauto|].
  intros [->|H]; [left; reflexivity|].
  apply filter_In in H as [H _]. right. apply IH, H.
Qed.

(** Whatever has an equal in the list has exactly one equal among its
    distinct values. *)
Lemma distinct_one (x : A) (l : list A) :
  (exists z, In z l /\ eqb z x = true) ->
  length (List.filter (fun y => eqb y x) (distinct eqb l)) = 1%nat.
Proof.
  induction l as [|a l IH]; intros (z & Hz & Hzx); [destruct Hz|].
  cbn [distinct List.filter]. rewrite filter_filter.
  destruct (eqb a x) eqn:Hax.
  - cbn [length]. f_equal.
    rewrite (filter_ext _ (fun _ => false)).
    + clear. induction (distinct eqb l) as [|? ? IHd]; simpl; [reflexivity|].
      exact IHd.
    + intro y. destruct (eqb a y) eqn:Hay; [reflexivity|]. simpl.
      apply not_true_iff_false. intro Hyx.
      assert (eqb a y = true).
      { apply (eqb_trans a x y Hax). rewrite eqb_sym. exact Hyx. }
      congruence.
  - rewrite (filter_ext _ (fun y => eqb y x)).
    + apply IH. destruct Hz as [->|Hz]; [congruence|]. exists z. auto.
    + intro y. destruct (eqb y x) eqn:Hyx; [|apply andb_false_r].
      rewrite andb_true_r. apply negb_true_iff, not_true_iff_false.
      intro Hay. rewrite (eqb_trans a y x Hay Hyx) in Hax. discriminate.
Qed.

Lemma distinct_rep (x : A) (l : list A) :
  (exists z, In z l /\ eqb z x = true) ->
  exists y, List.filter (fun y => eqb y x) (distinct eqb l) = [y]
            /\ In y l /\ eqb y x = true.
Proof.
  intro H. pose proof (distinct_one x l H) as Hone.
  destruct (List.filter (fun y => eqb y x) (distinct eqb l)) as [|y [|y' r]]
    eqn:Hf; try discriminate.
  exists y. split; [reflexivity|].
  assert (Hin : In y (List.filter (fun y => eqb y x) (distinct eqb l)))
    by (rewrite Hf; left; reflexivity).
  apply filter_In in Hin as [Hin Hy]. split; [apply distinct_In, Hin|exact Hy].
Qed.

End DistinctFacts.

Lemma at_year_map (f : cell -> cell) (y : cell) (columns : list cell) :
  (exists c, In c columns /\ cell_eq c y = true) ->
  exists c, In c columns /\ cell_eq c y = true
            /\ at_year y columns (map f columns) = Some (f c).
Proof.
  induction columns as [|c columns IH]; intros (c' & Hin & Hc); [destruct Hin|].
  simpl. destruct (cell_eq c y) eqn:Hcy.
  - exists c. auto.
  - destruct Hin as [->|Hin]; [congruence|].
    destruct IH as (c0 & Hin0 & Hc0 & Hat); [exists c'; auto|].
    exists c0. auto.
Qed.

Lemma filter_map_swap {A B} (f : A -> B) (p : B -> bool) (l : list A) :
  List.filter p (map f l) = map f (List.filter (fun x => p (f x)) l).
Proof.
  induction l as [|x l IH]; simpl; [reflexivity|].
  destruct (p (f x)); simpl; rewrite IH; reflexivity.
Qed.

Section PivotFacts.

Variable t : list long_row.

Let keyed : list long_row :=
  List.filter (fun x => notna (Municipality x) && notna (Category x)
                        && notna (Year x)) t.

(** The value ['first'] gives the (entity, year) group of a line. *)
Let group_value (g : long_row) : cell :=
  first_valid (List.filter (same_group g) keyed).

Lemma group_value_compat (g x : long_row) :
  same_group g x = true -> group_value g = group_value x.
Proof.
  intro H. unfold group_value. f_equal. apply filter_ext. intro z.
  destruct (same_group x z) eqn:Hxz.
  - eapply same_group_trans; eassumption.
  - apply not_true_iff_false. intro Hgz.
    rewrite same_group_sym in H.
    rewrite (same_group_trans x g z H Hgz) in Hxz. discriminate.
Qed.

Lemma first_valid_notna (l : list long_row) (x : long_row) :
  In x l -> notna (Value x) = true -> notna (first_valid l) = true.
Proof.
  intros Hin Hv. unfold first_valid.
  destruct (List.filter (fun z => notna (Value z)) l) as [|h r] eqn:Hf.
  - assert (H : In x (List.filter (fun z => notna (Value z)) l))
      by (apply filter_In; auto).
    rewrite Hf in H. destruct H.
  - assert (H : In h (List.filter (fun z => notna (Value z)) l))
      by (rewrite Hf; left; reflexivity).
    apply filter_In in H as [_ H]. exact H.
Qed.

(** A line with its keys and its value present has one row and one year
    column in the pivot, and the cell there is the value of its group. *)
Lemma pivot_core (x : long_row) :
  In x t ->
  notna (Municipality x) = true -> notna (Category x) = true ->
  notna (Year x) = true -> notna (Value x) = true ->
  let p := pivot_table t in
  length (List.filter (row_is (Municipality x) (Category x) (Metric x))
                      (pivot_rows p)) = 1%nat
  /\ length (List.filter (fun c => cell_eq c (Year x)) (year_columns p))
     = 1%nat
  /\ pivot_at p (Municipality x) (Category x) (Metric x) (Year x)
     = Some (group_value x)
  /\ notna (group_value x) = true.
Proof.
  intros Hin HM HC HY HV p.
  assert (Hxx : same_group x x = true).
  { unfold same_group, same_entity.
    rewrite !cell_eq_refl, String.eqb_refl by assumption. reflexivity. }
  assert (HxK : In x keyed).
  { apply filter_In. split; [exact Hin|]. rewrite HM, HC, HY. reflexivity. }
  destruct (distinct_rep same_group same_group_sym same_group_trans x keyed)
    as (g & Hg & HgK & Hgx); [exists x; auto|].
  assert (HgG : In g (distinct same_group keyed)).
  { assert (H : In g (List.filter (fun y => same_group y x)
                                  (distinct same_group keyed)))
      by (rewrite Hg; left; reflexivity).
    apply filter_In in H as [H _]. exact H. }
  assert (Hvx : notna (group_value x) = true).
  { unfold group_value. apply (first_valid_notna _ x); [|exact HV].
    apply filter_In. auto. }
  set (agged := map (fun g => (g, first_valid
                                    (List.filter (same_group g) keyed)))
                    (distinct same_group keyed)).
  set (kept := List.filter (fun gv : long_row * cell => notna (snd gv)) agged).
  assert (Hkept : In (g, group_value g) kept).
  { apply filter_In. split.
    - unfold agged. apply in_map_iff. exists g. auto.
    - simpl. rewrite (group_value_compat g x Hgx). exact Hvx. }
  assert (Hkept_inv : forall gv, In gv kept -> snd gv = group_value (fst gv)).
  { intros gv H. apply filter_In in H as [H _]. unfold agged in H.
    apply in_map_iff in H as (g' & <- & _). reflexivity. }
  assert (Hge : same_entity g x = true /\ cell_eq (Year g) (Year x) = true)
    by (apply andb_true_iff; exact Hgx).
  destruct Hge as [Hge Hgy].
  set (index := distinct same_entity (map fst kept)).
  set (columns := distinct cell_eq (map (fun gv => Year (fst gv)) kept)).
  set (cells := fun e : long_row =>
         map (fun y =>
                match List.filter
                        (fun gv : long_row * cell =>
                           same_entity (fst gv) e
                           && cell_eq (Year (fst gv)) y) kept with
                | [] => NaN
                | gv :: _ => snd gv
                end) columns).
  assert (Hrows : pivot_rows p
                  = map (fun e => (Municipality e, Category e, Metric e,
                                   cells e)) index) by reflexivity.
  assert (Hcols : year_columns p = columns) by reflexivity.
  assert (Hfilter :
    List.filter (row_is (Municipality x) (Category x) (Metric x))
                (pivot_rows p)
    = map (fun e => (Municipality e, Category e, Metric e, cells e))
          (List.filter (fun e => same_entity e x) index)).
  { rewrite Hrows, filter_map_swap. f_equal. }
  destruct (distinct_rep same_entity same_entity_sym same_entity_trans x
                         (map fst kept))
    as (e & He & _ & Hex).
  { exists g. split; [|exact Hge].
    apply in_map_iff. exists (g, group_value g). auto. }
  fold index in He.
  split; [rewrite Hfilter, He; reflexivity|].
  split.
  { rewrite Hcols. unfold columns.
    apply (distinct_one cell_eq cell_eq_sym cell_eq_trans).
    exists (Year g). split; [|exact Hgy].
    apply in_map_iff. exists (g, group_value g). auto. }
  split; [|exact Hvx].
  unfold pivot_at. rewrite Hfilter, He. cbn [map]. rewrite Hcols.
  destruct (at_year_map
              (fun y =>
                 match List.filter
                         (fun gv : long_row * cell =>
                            same_entity (fst gv) e
                            && cell_eq (Year (fst gv)) y) kept with
                 | [] => NaN
                 | gv :: _ => snd gv
                 end) (Year x) columns)
    as (c & _ & Hc & Hat).
  { destruct (distinct_rep cell_eq cell_eq_sym cell_eq_trans (Year x)
                           (map (fun gv => Year (fst gv)) kept))
      as (c & Hcf & _ & Hcx).
    { exists (Year g). split; [|exact Hgy].
      apply in_map_iff. exists (g, group_value g). auto. }
    exists c. split; [|exact Hcx].
    assert (H : In c (List.filter (fun y => cell_eq y (Year x)) columns))
      by (unfold columns; rewrite Hcf; left; reflexivity).
    apply filter_In in H as [H _]. exact H. }
  unfold cells. rewrite Hat. f_equal.
  destruct (List.filter _ kept) as [|gv r] eqn:Hf.
  - exfalso.
    assert (H : In (g, group_value g)
                  (List.filter
                     (fun gv : long_row * cell =>
                        same_entity (fst gv) e && cell_eq (Year (fst gv)) c)
                     kept)).
    { apply filter_In. split; [exact Hkept|]. simpl.
      apply andb_true_iff. split.
      - apply (same_entity_trans g x e Hge).
        rewrite same_entity_sym. exact Hex.
      - apply (cell_eq_trans _ (Year x) _ Hgy).
        rewrite cell_eq_sym. exact Hc. }
    rewrite Hf in H. destruct H.
  - assert (H : In gv (List.filter
                     (fun gv : long_row * cell =>
                        same_entity (fst gv) e && cell_eq (Year (fst gv)) c)
                     kept)) by (rewrite Hf; left; reflexivity).
    apply filter_In in H as [Hin' Hp].
    apply andb_true_iff in Hp as [Hp1 Hp2].
    rewrite (Hkept_inv gv Hin'). apply group_value_compat.
    unfold same_group. apply andb_true_iff. split.
    + eapply same_entity_trans; eassumption.
    + eapply cell_eq_trans; eassumption.
Qed.

End PivotFacts.

(** The value of a group of [transformed], read off the rows. *)
Lemma group_value_first_recorded (D : list row) (metric_cols : list string)
    (x : long_row) :
  In (Metric x) metric_cols ->
  first_valid
    (List.filter (same_group x)
       (List.filter (fun z => notna (Municipality z) && notna (Category z)
                              && notna (Year z))
                    (transformed D metric_cols)))
  = first_recorded D (Municipality x) (Category x) (Metric x) (Year x).
Proof.
  intro Hm. unfold first_valid, first_recorded.
  rewrite !filter_filter.
  set (Q := fun z : long_row =>
              notna (Municipality z) && notna (Category z) && notna (Year z)
              && (same_group x z && notna (Value z))).
  set (P := fun r : row =>
              cell_eq (a_jurisdiction r) (Municipality x)
              && cell_eq (a_service r) (Category x)
              && cell_eq (a_fiscal_year r) (Year x)
              && notna (metrics r (Metric x))).
  set (line := fun (r : row) (metric : string) =>
                 {| Municipality := a_jurisdiction r; Category := a_service r;
                    Metric := metric; Year := a_fiscal_year r;
                    Value := metrics r metric |}).
  assert (HQ : forall r metric,
             Q (line r metric) = true
             <-> P r = true /\ metric = Metric x).
  { intros r metric. unfold Q, P, same_group, same_entity, line. simpl.
    rewrite (cell_eq_sym (Municipality x)), (cell_eq_sym (Category x)),
      (cell_eq_sym (Year x)).
    rewrite !andb_true_iff, String.eqb_eq. split.
    - intros [[[_ _] _] [[[[H1 H2] H3] H4] H5]]. subst metric. tauto.
    - intros [[[[H1 H2] H3] H4] ->].
      pose proof (cell_eq_true_notna _ _ H1) as [-> _].
      pose proof (cell_eq_true_notna _ _ H2) as [-> _].
      pose proof (cell_eq_true_notna _ _ H3) as [-> _]. tauto. }
  induction D as [|r D IH]; [reflexivity|].
  change (transformed (r :: D) metric_cols)
    with (map (line r) metric_cols ++ transformed D metric_cols).
  rewrite List.filter_app.
  change (List.filter P (r :: D))
    with (if P r then r :: List.filter P D else List.filter P D).
  destruct (P r) eqn:HP.
  - assert (Hne : exists z rest,
               List.filter Q (map (line r) metric_cols) = z :: rest
               /\ Value z = metrics r (Metric x)).
    { destruct (List.filter Q (map (line r) metric_cols)) as [|z rest] eqn:Hf.
      - exfalso.
        assert (H : In (line r (Metric x))
                       (List.filter Q (map (line r) metric_cols))).
        { apply filter_In. split; [apply in_map, Hm|]. apply HQ. auto. }
        rewrite Hf in H. destruct H.
      - exists z, rest. split; [reflexivity|].
        assert (H : In z (List.filter Q (map (line r) metric_cols)))
          by (rewrite Hf; left; reflexivity).
        apply filter_In in H as [H Hz].
        apply in_map_iff in H as (metric & <- & _).
        apply HQ in Hz as [_ ->]. reflexivity. }
    destruct Hne as (z & rest & -> & Hz). simpl. exact Hz.
  - assert (Hnil : List.filter Q (map (line r) metric_cols) = []).
    { destruct (List.filter Q (map (line r) metric_cols)) as [|z rest] eqn:Hf;
        [reflexivity|]. exfalso.
      assert (H : In z (List.filter Q (map (line r) metric_cols)))
        by (rewrite Hf; left; reflexivity).
      apply filter_In in H as [H Hz].
      apply in_map_iff in H as (metric & <- & _).
      apply HQ in Hz as [Hz _]. congruence. }
    rewrite Hnil. simpl. exact IH.
Qed.

(** What the pivot shows for an observation with its jurisdiction,
    category, year and value present. *)
Lemma pivot_of_observation (D : list row) (metric_cols : list string)
    (r : row) (metric : string) :
  In r D -> In metric metric_cols ->
  notna (a_jurisdiction r) = true -> notna (a_service r) = true ->
  notna (a_fiscal_year r) = true -> notna (metrics r metric) = true ->
  let p := transform_data D metric_cols in
  let shown := first_recorded D (a_jurisdiction r) (a_service r) metric
                 (a_fiscal_year r) in
  length (List.filter (row_is (a_jurisdiction r) (a_service r) metric)
                      (pivot_rows p)) = 1%nat
  /\ length (List.filter (fun c => cell_eq c (a_fiscal_year r))
                         (year_columns p)) = 1%nat
  /\ pivot_at p (a_jurisdiction r) (a_service r) metric (a_fiscal_year r)
     = Some shown
  /\ notna shown = true.
Proof.
  intros Hr Hm HM HC HY HV p shown.
  set (x := {| Municipality := a_jurisdiction r; Category := a_service r;
               Metric := metric; Year := a_fiscal_year r;
               Value := metrics r metric |}).
  assert (Hx : In x (transformed D metric_cols)).
  { unfold transformed. apply in_flat_map. exists r. split; [exact Hr|].
    apply in_map_iff. exists metric. auto. }
  pose proof (pivot_core (transformed D metric_cols) x Hx HM HC HY HV) as H.
  cbv beta zeta in H.
  rewrite (group_value_first_recorded D metric_cols x Hm) in H.
  exact H.
Qed.

(** C5, amended.  For every observation of the detection set and every
    metric whose value it records, the jurisdiction and the year being
    present, the pivot has exactly one row for the (jurisdiction, category,
    metric) triple and exactly one column for the year, and the cell there
    is the first value that is not missing, in input order, among the
    observations of that jurisdiction, category and year; it is the
    observation's own value when no earlier one records a value. *)
Theorem pivot_first_recorded_wins (D : list row) (metric_cols : list string)
    (r : row) (metric : string) :
  In r D -> In metric metric_cols ->
  notna (a_jurisdiction r) = true -> notna (a_service r) = true ->
  notna (a_fiscal_year r) = true -> notna (metrics r metric) = true ->
  let p := transform_data D metric_cols in
  let shown := first_recorded D (a_jurisdiction r) (a_service r) metric
                 (a_fiscal_year r) in
  length (List.filter (row_is (a_jurisdiction r) (a_service r) metric)
                      (pivot_rows p)) = 1%nat
  /\ length (List.filter (fun c => cell_eq c (a_fiscal_year r))
                         (year_columns p)) = 1%nat
  /\ pivot_at p (a_jurisdiction r) (a_service r) metric (a_fiscal_year r)
     = Some shown
  /\ notna shown = true
  /\ (forall D1 D2,
        D = D1 ++ r :: D2 ->
        (forall r', In r' D1 ->
           cell_eq (a_jurisdiction r') (a_jurisdiction r)
           && cell_eq (a_service r') (a_service r)
           && cell_eq (a_fiscal_year r') (a_fiscal_year r)
           && notna (metrics r' metric) = false) ->
        shown = metrics r metric).
Proof.
  intros Hr Hm HM HC HY HV p shown.
  destruct (pivot_of_observation D metric_cols r metric Hr Hm HM HC HY HV)
    as (H1 & H2 & H3 & H4).
  repeat split; try assumption.
  intros D1 D2 -> Hfirst. subst shown. unfold first_recorded.
  rewrite List.filter_app.
  rewrite (filter_ext_in _ (fun _ => false) D1 Hfirst).
  replace (List.filter (fun _ : row => false) D1) with (@nil row)
    by (clear; induction D1; simpl; auto).
  simpl. rewrite !cell_eq_refl, HV by assumption. reflexivity.
Qed.

Lemma df_detection_In (df : list row) (r : row) :
  In r (df_detection df) <-> In r df /\ notna (a_service r) = true.
Proof. apply filter_In. Qed.

Lemma df_detection_idem (df : list row) :
  df_detection (df_detection df) = df_detection df.
Proof.
  unfold df_detection. rewrite filter_filter. apply filter_ext.
  intro r. apply andb_diag.
Qed.

(** C7, amended.  The rows without a category are left out of the frame
    that the detection loop and the pivot read, so the run is the run on
    the table without them, and a row whose year is not a number is passed
    over by the loop without a tuple.  The pivot has no test on the year: a
    row of the detection frame whose year is a text, with its jurisdiction
    and a value present, has that text as a year column and its group's
    value in it. *)
Theorem rows_left_out (float_of_str : string -> option Q)
    (str_of_float : Q -> string)
    (df : list row) (metric_cols : list string)
    (metric_names : gmap string string) (threshold target_year : Q) :
  (forall r, In r (df_detection df)
             <-> In r df /\ notna (a_service r) = true)
  /\ run_anomaly_detection float_of_str str_of_float df metric_cols
       metric_names threshold target_year
     = run_anomaly_detection float_of_str str_of_float (df_detection df)
         metric_cols metric_names threshold target_year
  /\ (forall metric r,
        float float_of_str (a_fiscal_year r) = Raise ValueError ->
        classify_cell float_of_str (df_detection df) metric_cols threshold
          target_year metric r = Ok None)
  /\ (forall r metric,
        In r (df_detection df) -> In metric metric_cols ->
        is_text (a_fiscal_year r) = true ->
        notna (a_jurisdiction r) = true ->
        notna (metrics r metric) = true ->
        let p := transform_data (df_detection df) metric_cols in
        length (List.filter (fun c => cell_eq c (a_fiscal_year r))
                            (year_columns p)) = 1%nat
        /\ pivot_at p (a_jurisdiction r) (a_service r) metric
             (a_fiscal_year r)
           = Some (first_recorded (df_detection df) (a_jurisdiction r)
                     (a_service r) metric (a_fiscal_year r))).
Proof.
  split; [apply df_detection_In|].
  split; [unfold run_anomaly_detection; rewrite df_detection_idem;
          reflexivity|].
  split.
  - intros metric r Hy. apply classify_cell_skipped.
    intros cy Hcy. congruence.
  - intros r metric Hr Hm Hy HM HV p.
    assert (HC : notna (a_service r) = true)
      by (apply df_detection_In in Hr; tauto).
    assert (HY : notna (a_fiscal_year r) = true).
    { revert Hy. destruct (a_fiscal_year r); simpl; intro H;
        first [discriminate H | reflexivity]. }
    destruct (pivot_of_observation (df_detection df) metric_cols r metric
                Hr Hm HM HC HY HV) as (_ & H2 & H3 & _).
    split; assumption.
Qed.

Section PivotSamples.

Import Samples.
Local Open Scope string_scope.

(** The second row of [repeated] is shown by the value 5, which is its own. *)
Lemma pivot_first_recorded_wins_witness :
  let r := obs 1 (Num 2020) (Str "A") (Str "X") (Num 5) in
  let p := transform_data repeated ["m1"] in
  length (List.filter (row_is (Str "A") (Str "X") "m1") (pivot_rows p))
  = 1%nat
  /\ length (List.filter (fun c => cell_eq c (Num 2020)) (year_columns p))
     = 1%nat
  /\ pivot_at p (Str "A") (Str "X") "m1" (Num 2020) = Some (Num 5).
Proof.
  intros r p.
  destruct (pivot_first_recorded_wins repeated ["m1"] r "m1")
    as (H1 & H2 & H3 & _ & H5); try reflexivity.
  - right. left. reflexivity.
  - left. reflexivity.
  - split; [exact H1|]. split; [exact H2|].
    refine (eq_trans H3 (f_equal Some _)).
    apply (H5 [obs 0 (Num 2020) (Str "A") (Str "X") NaN]
              [obs 2 (Num 2020) (Str "A") (Str "X") (Num 6)] eq_refl).
    intros r' [<-|[]]. reflexivity.
Defined.

(** C5 as stated fails twice.  The entity A of [silent] is observed in the
    detection set and has no row in the pivot, nor has its year 2020 a
    column; and for the entity and year of [repeated] the first observation
    in input order has no value, while the pivot shows the value of the
    second. *)
Lemma pivot_skips_missing_values :
  (In (obs 0 (Num 2020) (Str "A") (Str "X") NaN) silent
   /\ pivot_rows (transform_data silent ["m1"])
      = [ (Str "B", Str "X", "m1", [Num 3]) ]
   /\ year_columns (transform_data silent ["m1"]) = [Num 2021])
  /\ (nth_error repeated 0 = Some (obs 0 (Num 2020) (Str "A") (Str "X") NaN)
      /\ metrics (obs 0 (Num 2020) (Str "A") (Str "X") NaN) "m1" = NaN
      /\ pivot_at (transform_data repeated ["m1"]) (Str "A") (Str "X") "m1"
           (Num 2020) = Some (Num 5)).
Proof.
  split.
  - split; [left; reflexivity|]. split; reflexivity.
  - repeat split; vm_compute; reflexivity.
Qed.

(** C7 as stated fails: the second row of [undated] has a category and a
    year that is not a number, and the pivot of the detection frame has a
    column for that year with the row's value in it. *)
Lemma undated_row_in_pivot :
  let r := obs 1 (Str "n.d.") (Str "A") (Str "X") (Num 7) in
  In r (df_detection undated)
  /\ float Lit.float_of_str (a_fiscal_year r) = Raise ValueError
  /\ year_columns (transform_data (df_detection undated) ["m1"])
     = [Str "2023"; Str "n.d."]
  /\ pivot_at (transform_data (df_detection undated) ["m1"])
       (Str "A") (Str "X") "m1" (Str "n.d.") = Some (Num 7).
Proof.
  cbv zeta. split; [right; left; reflexivity|].
  repeat split; vm_compute; reflexivity.
Qed.

(** The row of [undated] without a category is in neither. *)
Lemma uncategorised_row_left_out :
  df_detection undated
  = [ obs 0 (Str "2023") (Str "A") (Str "X") (Num 5);
      obs 1 (Str "n.d.") (Str "A") (Str "X") (Num 7) ]
  /\ pivot_rows (transform_data (df_detection undated) ["m1"])
     = [ (Str "A", Str "X", "m1", [Num 5; Num 7]) ].
Proof. split; reflexivity. Qed.

End PivotSamples.

(* ================================================================== *)
(** * The input check *)
(* ================================================================== *)

(** C8, amended.  The button refuses to start a run exactly when no file
    or no output location was chosen, the threshold is not the text of a
    float, or the target year is not the text of an integer.  In every
    other case the run is started with the threshold as it was read,
    whatever its sign. *)
Theorem run_refused_iff_unreadable (float_of_str : string -> option Q)
    (int_of_str : string -> option Z) (str_of_float : Q -> string)
    (csv_path : string) (output_path : option string)
    (threshold target_year : string)
    (df : list row) (metric_cols : list string)
    (metric_names : gmap string string) :
  let pressed :=
    press_run float_of_str int_of_str str_of_float csv_path output_path
      threshold target_year df metric_cols metric_names in
  ((exists message, pressed = inl (ShowError message))
   <-> csv_path = EmptyString
       \/ output_path = None \/ output_path = Some EmptyString
       \/ float_of_str threshold = None
       \/ int_of_str target_year = None)
  /\ (forall out t y,
        csv_path <> EmptyString ->
        output_path = Some out -> out <> EmptyString ->
        float_of_str threshold = Some t ->
        int_of_str target_year = Some y ->
        pressed
        = inr (handle_anomaly_detection float_of_str str_of_float df
                 metric_cols metric_names t (inject_Z y))).
Proof.
  intro pressed. subst pressed. unfold press_run, run_detection.
  destruct (String.eqb csv_path "") eqn:Hcsv.
  - apply String.eqb_eq in Hcsv. split.
    + split; [auto|]. intros _. eexists. reflexivity.
    + intros out t y Hne. contradiction.
  - apply String.eqb_neq in Hcsv.
    destruct output_path as [[|c out]|].
    + split; [split; [auto|intros _; eexists; reflexivity]|].
      intros out t y _ [= <-] Hne. contradiction.
    + destruct (float_of_str threshold) as [t|] eqn:Ht.
      * destruct (int_of_str target_year) as [y|] eqn:Hy.
        -- split.
           ++ split; [intros [m Hm]; discriminate|].
              intros [H|[H|[H|[H|H]]]]; try discriminate; contradiction.
           ++ intros out' t' y' _ _ _ [= <-] [= <-]. reflexivity.
        -- split; [split; [auto 6|intros _; eexists; reflexivity]|].
           intros out' t' y' _ _ _ _ H. discriminate.
      * split; [split; [auto 6|intros _; eexists; reflexivity]|].
        intros out' t' y' _ _ _ H. discriminate.
    + split; [split; [auto|intros _; eexists; reflexivity]|].
      intros out t y _ H. discriminate.
Qed.

Section InputSamples.

Import Samples.
Local Open Scope string_scope.

(** C8 as stated fails: with the thresholds 0 and -1 the run is performed
    and reports the anomaly of [trend]. *)
Lemma nonpositive_threshold_runs :
  (Lit.float_of_str "0" = Some 0%Q
   /\ exists r,
        press_run Lit.float_of_str Lit.int_of_str Lit.str_of_float
          "data.csv" (Some "out.xlsx") "0" "2024"
          (trend (Num 40)) ["m1"] ∅ = inr (Complete r)
        /\ length (anomalies (rep_events r)) = 1%nat)
  /\ (Lit.float_of_str "-1" = Some (-1)%Q
      /\ exists r,
           press_run Lit.float_of_str Lit.int_of_str Lit.str_of_float
             "data.csv" (Some "out.xlsx") "-1" "2024"
             (trend (Num 22)) ["m1"] ∅ = inr (Complete r)
           /\ length (anomalies (rep_events r)) = 1%nat).
Proof.
  split; (split; [reflexivity|]); eexists; split;
    try (vm_compute; reflexivity).
Qed.

(** A year that is not an integer is refused. *)
Lemma fractional_year_refused :
  press_run Lit.float_of_str Lit.int_of_str Lit.str_of_float
    "data.csv" (Some "out.xlsx") "5.0" "2024.5" (trend (Num 40)) ["m1"] ∅
  = inl (ShowError
           "Please enter valid numbers for threshold and target year.").
Proof. reflexivity. Qed.

End InputSamples.

(* ================================================================== *)
(** * Further properties of the detection loop *)
(* ================================================================== *)

Lemma map_res_ok_inv {A B} (f : A -> res B) (l : list A) (ys : list B) :
  map_res f l = Ok ys -> Forall2 (fun x y => f x = Ok y) l ys.
Proof.
  revert ys. induction l as [|x l IH]; intros ys H; simpl in H.
  - injection H as <-. constructor.
  - destruct (f x) as [y|e] eqn:Hx; simpl in H; [|discriminate].
    destruct (map_res f l) as [ys'|e]; simpl in H; [|discriminate].
    injection H as <-. constructor; [exact Hx | apply IH; reflexivity].
Qed.



Lemma Forall2_In_r {A B} (R : A -> B -> Prop) (l : list A) (l' : list B)
    (y : B) :
  Forall2 R l l' -> In y l' -> exists x, In x l /\ R x y.
Proof.
  induction 1 as [|x y' l l' HR _ IH]; intros Hin; [destruct Hin|].
  destruct Hin as [<-|Hin]; [exists x; simpl; auto|].
  destruct (IH Hin) as (x' & Hx' & HR'). exists x'. simpl. auto.
Qed.

Lemma Forall2_In_l {A B} (R : A -> B -> Prop) (l : list A) (l' : list B)
    (x : A) :
  Forall2 R l l' -> In x l -> exists y, In y l' /\ R x y.
Proof.
  induction 1 as [|x' y l l' HR _ IH]; intros Hin; [destruct Hin|].
  destruct Hin as [<-|Hin]; [exists y; simpl; auto|].
  destruct (IH Hin) as (y' & Hy' & HR'). exists y'. simpl. auto.
Qed.

Lemma the_anomalies_In (os : list (option event)) (a : anomaly) :
  In a (the_anomalies os) <-> In (Some (Anomaly a)) os.
Proof.
  unfold the_anomalies. rewrite in_flat_map. split.
  - intros (o & Ho & Ha). destruct o as [[a'|m|n]|]; simpl in Ha;
      try destruct Ha as [<-|[]]; try destruct Ha. exact Ho.
  - intro H. exists (Some (Anomaly a)). simpl. auto.
Qed.

Lemma the_missing_In (os : list (option event)) (m : missing) :
  In m (the_missing os) <-> In (Some (Missing m)) os.
Proof.
  unfold the_missing. rewrite in_flat_map. split.
  - intros (o & Ho & Ha). destruct o as [[a'|m'|n]|]; simpl in Ha;
      try destruct Ha as [<-|[]]; try destruct Ha. exact Ho.
  - intro H. exists (Some (Missing m)). simpl. auto.
Qed.

Lemma the_non_numeric_In (os : list (option event)) (n : nonnum) :
  In n (the_non_numeric os) <-> In (Some (NonNumeric n)) os.
Proof.
  unfold the_non_numeric. rewrite in_flat_map. split.
  - intros (o & Ho & Ha). destruct o as [[a'|m'|n']|]; simpl in Ha;
      try destruct Ha as [<-|[]]; try destruct Ha. exact Ho.
  - intro H. exists (Some (NonNumeric n)). simpl. auto.
Qed.

Section LoopFacts.

Variable float_of_str : string -> option Q.

Local Abbreviation float := (float float_of_str).
Local Abbreviation classify_cell := (classify_cell float_of_str).
Local Abbreviation historical_data := (historical_data float_of_str).
Local Abbreviation numeric_value := (numeric_value float_of_str).
Local Abbreviation unparseable := (unparseable float_of_str).
Local Abbreviation detection_loop := (detection_loop float_of_str).
Local Abbreviation target_row := (target_row float_of_str).

Lemma target_row_dec (target_year : Q) (r : row) :
  {target_row target_year r} + {~ target_row target_year r}.
Proof.
  unfold target_row.
  destruct (float (a_fiscal_year r)) as [[cy|]|e] eqn:Hy.
  - destruct (Qeq_bool cy target_year) eqn:E.
    + left. exists cy. split; [reflexivity|]. apply Qeq_bool_iff, E.
    + right. intros (cy' & [= <-] & E').
      apply Qeq_bool_iff in E'. congruence.
  - right. intros (cy' & H & _). discriminate.
  - right. intros (cy' & H & _). discriminate.
Qed.

Lemma classify_cell_not_target (D : list row) (metric_cols : list string)
    (threshold target_year : Q) (metric : string) (r : row) :
  ~ target_row target_year r ->
  classify_cell D metric_cols threshold target_year metric r = Ok None.
Proof.
  intro H. apply classify_cell_skipped. intros cy Hy E. apply H.
  exists cy. auto.
Qed.

(** A text that is not a number is reported before any history is looked
    up. *)
Lemma classify_cell_text (D : list row) (metric_cols : list string)
    (threshold target_year : Q) (metric : string) (r : row) :
  target_row target_year r ->
  unparseable (metrics r metric) = true ->
  classify_cell D metric_cols threshold target_year metric r
  = Ok (Some (NonNumeric
      {| nn_row := (idx r + 2)%Z;
         nn_col := (get_loc metric_cols metric + 1)%Z;
         nn_val := metrics r metric;
         nn_year := a_fiscal_year r; nn_muni := a_jurisdiction r;
         nn_category := a_service r; nn_metric := metric |})).
Proof.
  intros (cy & Hy & E) Hu. unfold classify_cell. rewrite Hy.
  apply Qeq_bool_iff in E. rewrite E. cbn [negb].
  unfold unparseable, numeric_value in Hu.
  destruct (metrics r metric) as [|x|s]; try discriminate. simpl.
  destruct (float_of_str s); [discriminate | reflexivity].
Qed.

(** A cell of the target year that needs a history stops the run when a
    year of the frame is a text. *)
Lemma classify_cell_text_year (D : list row) (metric_cols : list string)
    (threshold target_year : Q) (metric : string) (r : row) :
  target_row target_year r ->
  unparseable (metrics r metric) = false ->
  ~ numeric_years D ->
  classify_cell D metric_cols threshold target_year metric r
  = Raise TypeError.
Proof.
  intros (cy & Hy & E) Hu HD. unfold classify_cell. rewrite Hy.
  apply Qeq_bool_iff in E. rewrite E. cbn [negb].
  rewrite (hist_rows_text D cy _ _ metric HD).
  unfold unparseable, numeric_value in Hu.
  destruct (metrics r metric) as [|x|s]; simpl; try reflexivity.
  destruct (float_of_str s); [reflexivity | discriminate].
Qed.


(** What is known of a cell from the tuple it produced. *)
Lemma classify_cell_inv (D : list row) (metric_cols : list string)
    (threshold target_year : Q) (metric : string) (r : row) (e : event) :
  classify_cell D metric_cols threshold target_year metric r = Ok (Some e) ->
  target_row target_year r
  /\ match e with
     | NonNumeric n =>
         unparseable (metrics r metric) = true
         /\ n = {| nn_row := (idx r + 2)%Z;
                   nn_col := (get_loc metric_cols metric + 1)%Z;
                   nn_val := metrics r metric;
                   nn_year := a_fiscal_year r; nn_muni := a_jurisdiction r;
                   nn_category := a_service r; nn_metric := metric |}
     | Missing m =>
         let hist := List.filter (in_history target_year (a_jurisdiction r)
                                    (a_service r) metric) D in
         numeric_years D /\ metrics r metric = NaN
         /\ historical_data hist metric <> []
         /\ m = {| mi_row := (idx r + 2)%Z;
                   mi_col := (get_loc metric_cols metric + 1)%Z;
                   mi_year := a_fiscal_year r; mi_muni := a_jurisdiction r;
                   mi_category := a_service r; mi_metric := metric;
                   mi_comment := make_comment hist metric |}
     | Anomaly a =>
         let hist := List.filter (in_history target_year (a_jurisdiction r)
                                    (a_service r) metric) D in
         let hd := historical_data hist metric in
         numeric_years D
         /\ numeric_value (metrics r metric) = Some (an_val a)
         /\ (2 <= length hd)%nat
         /\ Stats.abs_z_exceeds (an_val a) hd threshold = true
         /\ a = {| an_row := (idx r + 2)%Z;
                   an_col := (get_loc metric_cols metric + 1)%Z;
                   an_val := an_val a; an_mean := Stats.mean hd;
                   an_std_dev := Stats.std_dev hd;
                   an_z_score := Stats.z_score (an_val a) hd;
                   an_year := a_fiscal_year r; an_muni := a_jurisdiction r;
                   an_category := a_service r; an_metric := metric;
                   an_comment := make_comment hist metric |}
     end.
Proof.
  intro H.
  destruct (target_row_dec target_year r) as [Ht|Hn].
  2:{ rewrite classify_cell_not_target in H by exact Hn. discriminate. }
  split; [exact Ht|].
  destruct (unparseable (metrics r metric)) eqn:Hu.
  { rewrite (classify_cell_text D metric_cols threshold target_year
               metric r Ht Hu) in H.
    injection H as <-. auto. }
  destruct (numeric_years_dec D) as [HD|HD].
  2:{ rewrite (classify_cell_text_year D metric_cols threshold target_year
                 metric r Ht Hu HD) in H. discriminate. }
  destruct Ht as (cy & Hy & E).
  rewrite (classify_cell_target float_of_str D metric_cols threshold
             target_year metric r cy HD Hy E) in H.
  cbv zeta in H.
  set (hist := List.filter (in_history target_year (a_jurisdiction r)
                              (a_service r) metric) D) in *.
  set (hd := historical_data hist metric) in *.
  unfold unparseable in Hu.
  destruct (metrics r metric) as [|x|s] eqn:Hm.
  - destruct (0 <? length hd)%nat eqn:Hl; [|discriminate].
    injection H as <-. cbv zeta. repeat split; try assumption.
    intro Hnil. fold hist in Hnil. fold hd in Hnil. rewrite Hnil in Hl.
    discriminate.
  - change (numeric_value (Num x)) with (Some x) in *.
    destruct (length hd <? 2)%nat eqn:Hl; [discriminate|].
    destruct (Stats.abs_z_exceeds x hd threshold) eqn:Hx; [|discriminate].
    injection H as <-. cbv zeta. fold hist. fold hd. simpl.
    repeat split; try assumption. apply Nat.ltb_ge, Hl.
  - destruct (numeric_value (Str s)) as [v|] eqn:Hv; [|discriminate].
    destruct (length hd <? 2)%nat eqn:Hl; [discriminate|].
    destruct (Stats.abs_z_exceeds v hd threshold) eqn:Hx; [|discriminate].
    injection H as <-. cbv zeta. fold hist. fold hd. simpl.
    repeat split; try assumption. apply Nat.ltb_ge, Hl.
Qed.

(** The outcomes of the loop, cell by cell. *)
Lemma outcomes_cells (D : list row) (metric_cols : list string)
    (threshold target_year : Q) (os : list (option event)) :
  outcomes float_of_str D metric_cols threshold target_year = Ok os ->
  (forall o, In o os ->
     exists metric r, In metric metric_cols /\ In r D
       /\ classify_cell D metric_cols threshold target_year metric r = Ok o)
  /\ (forall metric r, In metric metric_cols -> In r D ->
        exists o, In o os
          /\ classify_cell D metric_cols threshold target_year metric r
             = Ok o).
Proof.
  intro H. apply map_res_ok_inv in H. split.
  - intros o Ho. destruct (Forall2_In_r _ _ _ o H Ho) as ([m r] & Hin & Hc).
    apply in_prod_iff in Hin as [Hm Hr]. exists m, r. auto.
  - intros m r Hm Hr.
    destruct (Forall2_In_l _ _ _ (m, r) H) as (o & Ho & Hc);
      [apply in_prod; assumption|].
    exists o. auto.
Qed.

End LoopFacts.


Lemma detection_loop_alt (float_of_str : string -> option Q)
    (D : list row) (metric_cols : list string) (threshold target_year : Q) :
  detection_loop float_of_str D metric_cols threshold target_year
  = do os <- outcomes float_of_str D metric_cols threshold target_year;
    Ok (fold_left emit os no_events).
Proof. unfold detection_loop, outcomes. apply nested_loops. Qed.

Section LoopProperties.

Variable float_of_str : string -> option Q.

Local Abbreviation float := (float float_of_str).
Local Abbreviation classify_cell := (classify_cell float_of_str).
Local Abbreviation historical_data := (historical_data float_of_str).
Local Abbreviation numeric_value := (numeric_value float_of_str).
Local Abbreviation unparseable := (unparseable float_of_str).
Local Abbreviation detection_loop := (detection_loop float_of_str).
Local Abbreviation outcomes := (outcomes float_of_str).
Local Abbreviation target_row := (target_row float_of_str).

(** X1.  A cell of the target year whose value is a text that is not a
    number is reported as non-numeric whatever the rest of the frame holds,
    a frame with text years included, and its tuple is in [non_numeric]
    whenever the loop completes. *)
Theorem text_value_always_reported
    (D : list row) (metric_cols : list string) (threshold target_year : Q)
    (metric : string) (r : row) :
  In r D -> In metric metric_cols ->
  target_row target_year r ->
  unparseable (metrics r metric) = true ->
  let n := {| nn_row := (idx r + 2)%Z;
              nn_col := (get_loc metric_cols metric + 1)%Z;
              nn_val := metrics r metric;
              nn_year := a_fiscal_year r; nn_muni := a_jurisdiction r;
              nn_category := a_service r; nn_metric := metric |} in
  (forall D', classify_cell D' metric_cols threshold target_year metric r
              = Ok (Some (NonNumeric n)))
  /\ (forall ev,
        detection_loop D metric_cols threshold target_year = Ok ev ->
        In n (non_numeric ev)).
Proof.
  intros Hr Hm Ht Hu n. split.
  - intro D'. apply classify_cell_text; assumption.
  - intros ev Hev.
    destruct (detection_loop_outcomes _ _ _ _ _ _ Hev)
      as (os & Hos & _ & _ & ->).
    apply the_non_numeric_In.
    destruct (proj2 (outcomes_cells float_of_str _ _ _ _ _ Hos) metric r Hm Hr)
      as (o & Ho & Hc).
    rewrite (classify_cell_text float_of_str D metric_cols threshold target_year metric r
               Ht Hu) in Hc.
    injection Hc as <-. exact Ho.
Qed.

(** The baseline of a cell, once it is not empty, has one number per row
    of the history. *)
Lemma baseline_full (D : list row) (target_year : Q) (muni category : cell)
    (metric : string) :
  let hist := List.filter (in_history target_year muni category metric) D in
  historical_data hist metric <> [] ->
  length (historical_data hist metric) = length hist
  /\ forall h, In h hist -> exists x, numeric_value (metrics h metric) = Some x.
Proof.
  intros hist Hne. rewrite historical_data_spec in *.
  destruct (existsb (fun h => unparseable (metrics h metric)) hist) eqn:Hex;
    [contradiction|].
  assert (Hall : forall h, In h hist ->
                   exists x, numeric_value (metrics h metric) = Some x).
  { intros h Hin.
    assert (Hu : unparseable (metrics h metric) = false).
    { apply not_true_iff_false. intro Hu.
      assert (existsb (fun h => unparseable (metrics h metric)) hist = true)
        by (apply existsb_exists; exists h; auto).
      congruence. }
    apply filter_In in Hin as [_ Hin]. unfold in_history in Hin.
    apply andb_true_iff in Hin as [_ Hna].
    unfold unparseable in Hu.
    destruct (metrics h metric) as [|x|s]; simpl in *; try discriminate.
    - eexists; reflexivity.
    - destruct (float_of_str s); [eexists; reflexivity | discriminate]. }
  split; [|exact Hall].
  clear Hex Hne. induction hist as [|h hist' IH]; [reflexivity|].
  cbn [map numbers_of flat_map].
  destruct (Hall h (or_introl eq_refl)) as [x ->].
  cbn [app length]. f_equal. apply IH.
  intros h' Hin. apply Hall. right. exact Hin.
Qed.

(** X2.  Every tuple of the three lists describes a cell of the frame: a
    row of the target year and a metric column, with the row's sheet
    position, year, jurisdiction and category.  An anomaly carries the
    number of its cell and a trace of at least two earlier values, a
    missing value comes from an empty cell and carries at least one, all of
    them numbers; a non-numeric tuple carries the text of its cell. *)
Theorem tuples_describe_target_cells
    (D : list row) (metric_cols : list string) (threshold target_year : Q)
    (ev : lists) :
  detection_loop D metric_cols threshold target_year = Ok ev ->
  (forall a, In a (anomalies ev) ->
     exists r, In r D /\ In (an_metric a) metric_cols
       /\ target_row target_year r
       /\ an_row a = (idx r + 2)%Z
       /\ an_col a = (get_loc metric_cols (an_metric a) + 1)%Z
       /\ an_year a = a_fiscal_year r /\ an_muni a = a_jurisdiction r
       /\ an_category a = a_service r
       /\ numeric_value (metrics r (an_metric a)) = Some (an_val a)
       /\ (2 <= length (an_comment a))%nat
       /\ (forall y c, In (y, c) (an_comment a) ->
             exists x, numeric_value c = Some x))
  /\ (forall m, In m (missing_data ev) ->
        exists r, In r D /\ In (mi_metric m) metric_cols
          /\ target_row target_year r
          /\ mi_row m = (idx r + 2)%Z
          /\ mi_col m = (get_loc metric_cols (mi_metric m) + 1)%Z
          /\ mi_year m = a_fiscal_year r /\ mi_muni m = a_jurisdiction r
          /\ mi_category m = a_service r
          /\ metrics r (mi_metric m) = NaN
          /\ (1 <= length (mi_comment m))%nat
          /\ (forall y c, In (y, c) (mi_comment m) ->
                exists x, numeric_value c = Some x))
  /\ (forall n, In n (non_numeric ev) ->
        exists r, In r D /\ In (nn_metric n) metric_cols
          /\ target_row target_year r
          /\ nn_row n = (idx r + 2)%Z
          /\ nn_col n = (get_loc metric_cols (nn_metric n) + 1)%Z
          /\ nn_year n = a_fiscal_year r /\ nn_muni n = a_jurisdiction r
          /\ nn_category n = a_service r
          /\ nn_val n = metrics r (nn_metric n)
          /\ unparseable (nn_val n) = true).
Proof.
  intro Hev.
  destruct (detection_loop_outcomes _ _ _ _ _ _ Hev)
    as (os & Hos & -> & -> & ->).
  destruct (outcomes_cells float_of_str _ _ _ _ _ Hos) as [Hcells _].
  split; [|split].
  - intros a Ha. apply the_anomalies_In in Ha.
    destruct (Hcells _ Ha) as (metric & r & Hm & Hr & Hc).
    apply classify_cell_inv in Hc as (Ht & HD & Hv & Hl & Hx & Ea).
    cbv zeta in *. exists r. rewrite Ea. cbn.
    destruct (baseline_full D target_year (a_jurisdiction r) (a_service r)
                metric) as [Hlen Hnum].
    { intro Hnil. rewrite Hnil in Hl. simpl in Hl. lia. }
    repeat split; try assumption.
    + unfold make_comment. rewrite length_map, <- Hlen. exact Hl.
    + intros y c Hyc. unfold make_comment in Hyc.
      apply in_map_iff in Hyc as (h & [= _ <-] & Hh). apply Hnum, Hh.
  - intros m Ha. apply the_missing_In in Ha.
    destruct (Hcells _ Ha) as (metric & r & Hm & Hr & Hc).
    apply classify_cell_inv in Hc as (Ht & HD & Hv & Hne & Ea).
    cbv zeta in *. exists r. rewrite Ea. cbn.
    destruct (baseline_full D target_year (a_jurisdiction r) (a_service r)
                metric Hne) as [Hlen Hnum].
    repeat split; try assumption.
    + unfold make_comment. rewrite length_map, <- Hlen.
      destruct (historical_data _ metric); [contradiction | simpl; lia].
    + intros y c Hyc. unfold make_comment in Hyc.
      apply in_map_iff in Hyc as (h & [= _ <-] & Hh). apply Hnum, Hh.
  - intros n Ha. apply the_non_numeric_In in Ha.
    destruct (Hcells _ Ha) as (metric & r & Hm & Hr & Hc).
    apply classify_cell_inv in Hc as (Ht & Hu & Ea).
    exists r. rewrite Ea. cbn. repeat split; assumption.
Qed.


End LoopProperties.

Lemma abs_z_exceeds_mono (v : Q) (l : list Q) (t t' : Q) :
  (t <= t')%Q ->
  Stats.abs_z_exceeds v l t' = true -> Stats.abs_z_exceeds v l t = true.
Proof. unfold Stats.abs_z_exceeds. apply StatsFacts.gt_Q_mono. Qed.

Section ThresholdAndLocality.

Variable float_of_str : string -> option Q.

Local Abbreviation classify_cell := (classify_cell float_of_str).
Local Abbreviation detection_loop := (detection_loop float_of_str).
Local Abbreviation outcomes := (outcomes float_of_str).
Local Abbreviation target_row := (target_row float_of_str).
Local Abbreviation unparseable := (unparseable float_of_str).

Lemma classify_cell_threshold (D : list row) (metric_cols : list string)
    (t t' target_year : Q) (metric : string) (r : row) (o : option event) :
  (t <= t')%Q ->
  classify_cell D metric_cols t target_year metric r = Ok o ->
  exists o', classify_cell D metric_cols t' target_year metric r = Ok o'
             /\ weaker o' o.
Proof.
  intros Hle H.
  destruct (target_row_dec float_of_str target_year r) as [Ht|Hn].
  2:{ rewrite classify_cell_not_target in * by exact Hn.
      exists o. split; [exact H | left; reflexivity]. }
  destruct (unparseable (metrics r metric)) eqn:Hu.
  { rewrite (classify_cell_text float_of_str D metric_cols t target_year
               metric r Ht Hu) in H.
    rewrite (classify_cell_text float_of_str D metric_cols t' target_year
               metric r Ht Hu).
    exists o. split; [exact H | left; reflexivity]. }
  destruct (numeric_years_dec D) as [HD|HD].
  2:{ rewrite (classify_cell_text_year float_of_str D metric_cols t
                 target_year metric r Ht Hu HD) in H. discriminate. }
  destruct Ht as (cy & Hy & E).
  rewrite (classify_cell_target float_of_str D metric_cols t target_year
             metric r cy HD Hy E) in H.
  rewrite (classify_cell_target float_of_str D metric_cols t' target_year
             metric r cy HD Hy E).
  cbv zeta in *.
  set (hd := historical_data float_of_str _ metric) in *.
  destruct (metrics r metric) as [|x|s]; cbn [numeric_value] in *.
  - exists o. split; [exact H | left; reflexivity].
  - destruct (length hd <? 2)%nat;
      [exists o; split; [exact H | left; reflexivity]|].
    destruct (Stats.abs_z_exceeds x hd t') eqn:Hx'.
    + rewrite (abs_z_exceeds_mono x hd t t' Hle Hx') in H.
      exists o. split; [exact H | left; reflexivity].
    + exists None. split; [reflexivity|].
      destruct (Stats.abs_z_exceeds x hd t); injection H as <-.
      * right. split; [reflexivity | eexists; reflexivity].
      * left. reflexivity.
  - destruct (float_of_str s) as [v|];
      [|exists o; split; [exact H | left; reflexivity]].
    destruct (length hd <? 2)%nat;
      [exists o; split; [exact H | left; reflexivity]|].
    destruct (Stats.abs_z_exceeds v hd t') eqn:Hx'.
    + rewrite (abs_z_exceeds_mono v hd t t' Hle Hx') in H.
      exists o. split; [exact H | left; reflexivity].
    + exists None. split; [reflexivity|].
      destruct (Stats.abs_z_exceeds v hd t); injection H as <-.
      * right. split; [reflexivity | eexists; reflexivity].
      * left. reflexivity.
Qed.

Lemma weaker_lists (os' os : list (option event)) :
  Forall2 weaker os' os ->
  sublist (the_anomalies os') (the_anomalies os)
  /\ the_missing os' = the_missing os
  /\ the_non_numeric os' = the_non_numeric os.
Proof.
  induction 1 as [|o' o os' os Hw _ (IHa & IHm & IHn)].
  - repeat split. constructor.
  - destruct Hw as [->|(-> & a & ->)].
    + unfold the_anomalies, the_missing, the_non_numeric in *.
      cbn [flat_map]. rewrite IHm, IHn. repeat split.
      apply sublist_app; [reflexivity | exact IHa].
    + unfold the_anomalies, the_missing, the_non_numeric in *.
      cbn [flat_map app]. repeat split; try assumption.
      apply sublist_cons. exact IHa.
Qed.

(** X4.  Raising the threshold never adds a tuple: over the same frame the
    anomalies under a higher threshold are a sublist of the anomalies under
    a lower one, and the missing and non-numeric tuples are the same. *)
Theorem higher_threshold_fewer_anomalies
    (D : list row) (metric_cols : list string) (t t' target_year : Q)
    (ev : lists) :
  (t <= t')%Q ->
  detection_loop D metric_cols t target_year = Ok ev ->
  exists ev',
    detection_loop D metric_cols t' target_year = Ok ev'
    /\ sublist (anomalies ev') (anomalies ev)
    /\ missing_data ev' = missing_data ev
    /\ non_numeric ev' = non_numeric ev.
Proof.
  intros Hle Hev.
  destruct (detection_loop_outcomes _ _ _ _ _ _ Hev)
    as (os & Hos & -> & -> & ->).
  assert (Hos' : exists os',
             outcomes D metric_cols t' target_year = Ok os'
             /\ Forall2 weaker os' os).
  { unfold outcomes in *. revert os Hos.
    induction (list_prod metric_cols D) as [|[m r] l IH]; intros os Hos.
    - simpl in *. injection Hos as <-. exists []. split; [reflexivity|].
      constructor.
    - simpl in Hos |- *.
      destruct (classify_cell D metric_cols t target_year m r) as [o|e]
        eqn:Hc; simpl in Hos; [|discriminate].
      destruct (map_res _ l) as [os0|e] eqn:Hl; simpl in Hos; [|discriminate].
      injection Hos as <-.
      destruct (classify_cell_threshold D metric_cols t t' target_year m r o
                  Hle Hc) as (o' & -> & Hw).
      destruct (IH os0 eq_refl) as (os0' & -> & HF).
      simpl. eexists. split; [reflexivity|]. constructor; assumption. }
  destruct Hos' as (os' & Hos' & HF).
  exists (fold_left emit os' no_events).
  split; [rewrite detection_loop_alt; unfold outcomes in *; rewrite Hos';
          reflexivity|].
  destruct (emitted_lists os' no_events) as (-> & -> & ->). simpl.
  apply weaker_lists, HF.
Qed.

(** X5.  The outcome of a cell depends on the frame only through the rows
    of the cell's own jurisdiction and category: two frames with numeric
    years that agree on these rows give the cell the same outcome. *)
Theorem other_entities_do_not_matter
    (D D' : list row) (metric_cols : list string)
    (threshold target_year : Q) (metric : string) (r : row) :
  numeric_years D -> numeric_years D' ->
  entity_rows r D = entity_rows r D' ->
  classify_cell D metric_cols threshold target_year metric r
  = classify_cell D' metric_cols threshold target_year metric r.
Proof.
  intros HD HD' He.
  destruct (target_row_dec float_of_str target_year r) as [(cy & Hy & E)|Hn].
  2:{ rewrite !classify_cell_not_target by exact Hn. reflexivity. }
  rewrite (classify_cell_target float_of_str D metric_cols threshold
             target_year metric r cy HD Hy E).
  rewrite (classify_cell_target float_of_str D' metric_cols threshold
             target_year metric r cy HD' Hy E).
  assert (Hh : forall F,
             List.filter (in_history target_year (a_jurisdiction r)
                            (a_service r) metric) F
             = List.filter
                 (fun h => match a_fiscal_year h with
                           | Num y => Qltb y target_year | _ => false end
                           && notna (metrics h metric))
                 (entity_rows r F)).
  { intro F. unfold entity_rows. rewrite filter_filter. apply filter_ext.
    intro h. unfold in_history.
    destruct (match a_fiscal_year h with
              | Num y => Qltb y target_year | _ => false end);
      destruct (cell_eq (a_jurisdiction h) (a_jurisdiction r));
      destruct (cell_eq (a_service h) (a_service r));
      destruct (notna (metrics h metric)); reflexivity. }
  cbv zeta. rewrite (Hh D), (Hh D'), He. reflexivity.
Qed.

End ThresholdAndLocality.

Section LoopSamples.

Import Samples.
Local Open Scope string_scope.

Lemma texts_target : target_row Lit.float_of_str 2024
                       (obs 2 (Str "2024") (Str "A") (Str "X") (Str "abc")).
Proof. exists 2024%Q. split; reflexivity. Qed.

(** In [texts] the years are texts, and the text under the target year is
    reported all the same. *)
Lemma text_value_always_reported_witness :
  let n := {| nn_row := 4; nn_col := 4; nn_val := Str "abc";
              nn_year := Str "2024"; nn_muni := Str "A";
              nn_category := Str "X"; nn_metric := "m1" |} in
  ~ numeric_years texts
  /\ (forall D', classify_cell Lit.float_of_str D' ["m1"] 1 2024 "m1"
                   (obs 2 (Str "2024") (Str "A") (Str "X") (Str "abc"))
                 = Ok (Some (NonNumeric n)))
  /\ detection_loop Lit.float_of_str texts ["m1"] 1 2024
     = Ok {| anomalies := []; missing_data := []; non_numeric := [n] |}
  /\ In n [n].
Proof.
  intro n.
  destruct (text_value_always_reported Lit.float_of_str texts ["m1"] 1 2024
              "m1" (obs 2 (Str "2024") (Str "A") (Str "X") (Str "abc")))
    as [H1 H2].
  - right. right. left. reflexivity.
  - left. reflexivity.
  - exact texts_target.
  - reflexivity.
  - split.
    { intro H. specialize (H _ (or_introl eq_refl)). discriminate. }
    split; [exact H1|]. split; [reflexivity|].
    exact (H2 {| anomalies := []; missing_data := [];
                 non_numeric := [n] |} eq_refl).
Defined.

Lemma trend_detected :
  exists a, detection_loop Lit.float_of_str (trend (Num 40)) ["m1"] 1 2024
            = Ok {| anomalies := [a]; missing_data := [];
                    non_numeric := [] |}
            /\ an_val a = 40%Q /\ an_row a = 5%Z /\ an_col a = 4%Z.
Proof. eexists. split; [vm_compute; reflexivity|]. repeat split. Qed.

(** The one tuple of [trend] describes its row of 2024. *)
Lemma tuples_describe_target_cells_witness :
  exists ev,
    detection_loop Lit.float_of_str (trend (Num 40)) ["m1"] 1 2024 = Ok ev
    /\ length (anomalies ev) = 1%nat
    /\ forall a, In a (anomalies ev) ->
         exists r, In r (trend (Num 40)) /\ In (an_metric a) ["m1"]
           /\ target_row Lit.float_of_str 2024 r
           /\ an_row a = (idx r + 2)%Z
           /\ an_col a = (get_loc ["m1"] (an_metric a) + 1)%Z
           /\ an_year a = a_fiscal_year r /\ an_muni a = a_jurisdiction r
           /\ an_category a = a_service r
           /\ numeric_value Lit.float_of_str (metrics r (an_metric a))
              = Some (an_val a)
           /\ (2 <= length (an_comment a))%nat
           /\ (forall y c, In (y, c) (an_comment a) ->
                 exists x, numeric_value Lit.float_of_str c = Some x).
Proof.
  destruct trend_detected as (a & Hev & _).
  eexists. split; [exact Hev|]. split; [reflexivity|].
  exact (proj1 (tuples_describe_target_cells Lit.float_of_str
                  (trend (Num 40)) ["m1"] 1 2024 _ Hev)).
Defined.

(** Under the threshold 3 the anomaly of [trend] is gone. *)
Lemma higher_threshold_fewer_anomalies_witness :
  exists ev ev',
    detection_loop Lit.float_of_str (trend (Num 40)) ["m1"] 1 2024 = Ok ev
    /\ detection_loop Lit.float_of_str (trend (Num 40)) ["m1"] 3 2024
       = Ok ev'
    /\ length (anomalies ev) = 1%nat
    /\ sublist (anomalies ev') (anomalies ev)
    /\ missing_data ev' = missing_data ev
    /\ non_numeric ev' = non_numeric ev.
Proof.
  destruct trend_detected as (a & Hev & _).
  destruct (higher_threshold_fewer_anomalies Lit.float_of_str
              (trend (Num 40)) ["m1"] 1 3 2024 _ ltac:(discriminate) Hev)
    as (ev' & Hev' & H).
  eexists. exists ev'. split; [exact Hev|]. split; [exact Hev'|].
  split; [reflexivity | exact H].
Defined.

(** The rows of B and of category Y of [mixed] do not count for the cell
    of A and X. *)
Lemma other_entities_do_not_matter_witness :
  entity_rows (target (Num 5)) mixed = only_a_x
  /\ classify_cell Lit.float_of_str mixed ["m1"] 1 2024 "m1" (target (Num 5))
     = classify_cell Lit.float_of_str only_a_x ["m1"] 1 2024 "m1"
         (target (Num 5)).
Proof.
  split; [reflexivity|].
  apply other_entities_do_not_matter.
  - exact mixed_numeric.
  - intros h Hin. simpl in Hin.
    repeat (destruct Hin as [<-|Hin]; [reflexivity|]). destruct Hin.
  - reflexivity.
Defined.



End LoopSamples.

(* ================================================================== *)
(** * Further properties of the dictionaries and of the summary *)
(* ================================================================== *)

Lemma filter_unique_key {A} (key : A -> entity_key) (xs : list A) (x : A) :
  NoDup (map key xs) -> In x xs ->
  List.filter (fun y => bool_decide (key y = key x)) xs = [x].
Proof.
  induction xs as [|z xs IH]; intros Hnd Hin; [destruct Hin|].
  simpl in Hnd. apply NoDup_cons in Hnd as [Hz Hnd].
  assert (Hnone : forall y, In y xs -> key y = key z -> False).
  { intros y Hy Hk. apply Hz. rewrite <- Hk.
    apply list_elem_of_In, in_map, Hy. }
  simpl. destruct Hin as [->|Hin].
  - rewrite bool_decide_eq_true_2 by reflexivity. f_equal.
    clear IH Hz Hnd. induction xs as [|y xs IH]; [reflexivity|]. simpl.
    rewrite bool_decide_eq_false_2.
    + apply IH. intros y' Hy'. apply Hnone. right. exact Hy'.
    + intro Hk. apply (Hnone y); [left; reflexivity | exact Hk].
  - rewrite bool_decide_eq_false_2; [apply IH; assumption|].
    intro Hk. apply (Hnone x Hin). symmetry. exact Hk.
Qed.

Lemma fold_insert_size {A} (key : A -> entity_key) (xs : list A)
    (d : gmap entity_key A) :
  (size (fold_left (fun d x => <[key x := x]> d) xs d) <= size d + length xs)%nat.
Proof.
  revert d. induction xs as [|x xs IH]; intro d; simpl; [lia|].
  etransitivity; [apply IH|].
  rewrite map_size_insert. destruct (d !! key x); unfold Datatypes.id; lia.
Qed.

(** X6.  A lookup dictionary holds, under each key, a tuple of its list
    with that key; every tuple of the list finds an entry under its own
    key; the dictionary has at most as many entries as the list; and when
    the keys of the list are pairwise different every tuple is found
    itself. *)
Theorem dictionary_covers_list {A} (key : A -> entity_key) (xs : list A) :
  (forall k y, build_dict key xs !! k = Some y -> In y xs /\ key y = k)
  /\ (forall x, In x xs ->
        exists y, build_dict key xs !! key x = Some y /\ key y = key x)
  /\ (size (build_dict key xs) <= length xs)%nat
  /\ (NoDup (map key xs) ->
      forall x, In x xs -> build_dict key xs !! key x = Some x).
Proof.
  assert (Hsome : forall k y, build_dict key xs !! k = Some y ->
                              In y xs /\ key y = k).
  { intros k y H. rewrite build_dict_lookup in H.
    apply last_Some in H as [l' Hl].
    assert (Hin : In y (List.filter (fun x => bool_decide (key x = k)) xs))
      by (rewrite Hl; apply in_or_app; right; left; reflexivity).
    apply filter_In in Hin as [Hin Hk].
    apply bool_decide_eq_true in Hk. auto. }
  split; [exact Hsome|]. split; [|split].
  - intros x Hin.
    destruct (build_dict key xs !! key x) as [y|] eqn:Hd.
    + exists y. split; [reflexivity|]. apply (Hsome _ _ Hd).
    + exfalso. rewrite build_dict_lookup in Hd. apply last_None in Hd.
      assert (In x (List.filter (fun y => bool_decide (key y = key x)) xs))
        by (apply filter_In; split;
            [exact Hin | apply bool_decide_eq_true_2; reflexivity]).
      rewrite Hd in H. destruct H.
  - unfold build_dict.
    etransitivity; [apply fold_insert_size|]. rewrite map_size_empty. lia.
  - intros Hnd x Hin. rewrite build_dict_lookup.
    rewrite (filter_unique_key key xs x Hnd Hin). reflexivity.
Qed.

Lemma named_app {A} (key : A -> cell) (s : string) (l1 l2 : list A) :
  named key s (l1 ++ l2) = named key s l1 ++ named key s l2.
Proof. apply List.filter_app. Qed.

(** X7.  When the jurisdictions of the tuples are texts, the sorted
    summary has one line per tuple, and under each jurisdiction it lists
    the anomalies first, then the missing values, then the non-numeric
    values, each group in the order of its list. *)
Theorem summary_lists_kinds_in_order (metric_names : gmap string string)
    (ev : lists) :
  text_keys su_muni (summary_data metric_names ev) ->
  exists out,
    sort_summary (summary_data metric_names ev) = Ok out
    /\ length out
       = (length (anomalies ev) + length (missing_data ev)
          + length (non_numeric ev))%nat
    /\ forall s,
         map su_note (named su_muni s out)
         = map Anomaly
             (List.filter (fun a => cell_eq (an_muni a) (Str s))
                          (anomalies ev))
           ++ map Missing
                (List.filter (fun m => cell_eq (mi_muni m) (Str s))
                             (missing_data ev))
           ++ map NonNumeric
                (List.filter (fun n => cell_eq (nn_muni n) (Str s))
                             (non_numeric ev)).
Proof.
  intro Hx. exists (sort_text su_muni (summary_data metric_names ev)).
  split; [apply sort_by_text, Hx|]. split.
  - unfold sort_text.
    rewrite <- (Permutation_length
                  (fold_insert_perm su_muni (summary_data metric_names ev) [])).
    unfold summary_data. simpl. rewrite !length_app, !length_map. lia.
  - intro s. unfold sort_text.
    rewrite fold_insert_named by constructor.
    unfold summary_data. cbn [named List.filter app].
    rewrite !named_app, !map_app. unfold named.
    rewrite !filter_map_swap, !map_map. cbn [su_muni su_note].
    reflexivity.
Qed.

Section MixedKeys.

Context {A : Type} (key : A -> cell).

Lemma insert_by_other_kind (x : A) (acc : list A) (b : bool) :
  acc <> [] ->
  (forall y, In y acc -> is_text (key y) = b) ->
  is_text (key x) = negb b ->
  insert_by key x acc = Raise TypeError.
Proof.
  intros Hne Hacc Hx. destruct acc as [|y ys]; [contradiction|].
  specialize (Hacc y (or_introl eq_refl)). simpl.
  destruct (key x), (key y), b; simpl in *; try discriminate; reflexivity.
Qed.

Lemma insert_by_same_kind (x : A) (acc : list A) (b : bool) :
  (forall y, In y acc -> is_text (key y) = b) ->
  is_text (key x) = b ->
  exists acc', insert_by key x acc = Ok acc'
               /\ acc' <> []
               /\ forall y, In y acc' -> is_text (key y) = b.
Proof.
  intros Hacc Hx. induction acc as [|y ys IH]; simpl.
  - exists [x]. split; [reflexivity|]. split; [discriminate|].
    intros y [<-|[]]. exact Hx.
  - assert (Hy : is_text (key y) = b) by (apply Hacc; left; reflexivity).
    destruct IH as (acc' & Hi & _ & Hall);
      [intros z Hz; apply Hacc; right; exact Hz|].
    assert (Hlt : exists lt, py_lt (key x) (key y) = Ok lt).
    { destruct (key x), (key y), b; simpl in *; try discriminate;
        eexists; reflexivity. }
    destruct Hlt as [lt ->]. simpl. destruct lt.
    + eexists. split; [reflexivity|]. split; [discriminate|].
      intros z [<-|Hz]; [exact Hx | apply Hacc, Hz].
    + rewrite Hi. simpl. eexists. split; [reflexivity|].
      split; [discriminate|].
      intros z [<-|Hz]; [exact Hy | apply Hall, Hz].
Qed.

Lemma for_each_other_kind (xs acc : list A) (b : bool) :
  acc <> [] ->
  (forall y, In y acc -> is_text (key y) = b) ->
  (exists x, In x xs /\ is_text (key x) = negb b) ->
  for_each (fun sorted x => insert_by key x sorted) xs acc = Raise TypeError.
Proof.
  revert acc. induction xs as [|x xs IH]; intros acc Hne Hacc (z & Hz & Hzb);
    [destruct Hz|].
  simpl. destruct (Bool.bool_dec (is_text (key x)) b) as [Hx|Hx].
  - destruct (insert_by_same_kind x acc b Hacc Hx) as (acc' & -> & Hne' & Hall).
    simpl. apply IH; try assumption.
    destruct Hz as [->|Hz]; [|exists z; auto].
    rewrite Hx in Hzb. destruct b; discriminate.
  - rewrite (insert_by_other_kind x acc b Hne Hacc); [reflexivity|].
    destruct (is_text (key x)), b; simpl; congruence.
Qed.

(** A list with a text key and a key that is not a text cannot be sorted. *)
Lemma sort_by_mixed (xs : list A) :
  (exists x, In x xs /\ is_text (key x) = true) ->
  (exists y, In y xs /\ is_text (key y) = false) ->
  sort_by key xs = Raise TypeError.
Proof.
  intros (x & Hx & Hxt) (y & Hy & Hyt).
  destruct xs as [|x0 xs]; [destruct Hx|].
  unfold sort_by. cbn [for_each insert_by res_bind].
  apply (for_each_other_kind xs [x0] (is_text (key x0))).
  - discriminate.
  - intros z [<-|[]]. reflexivity.
  - destruct (is_text (key x0)) eqn:H0.
    + exists y. split; [|exact Hyt].
      destruct Hy as [<-|Hy]; [congruence | exact Hy].
    + exists x. split; [|exact Hxt].
      destruct Hx as [<-|Hx]; [congruence | exact Hx].
Qed.

End MixedKeys.

(** X8.  When one reported tuple has a text for jurisdiction and another
    has none or a number, the sort of the summary compares a text with a
    float: the run ends with a TypeError instead of a report. *)
Theorem mixed_jurisdictions_stop_the_run (float_of_str : string -> option Q)
    (str_of_float : Q -> string)
    (df : list row) (metric_cols : list string)
    (metric_names : gmap string string) (threshold target_year : Q)
    (ev : lists) :
  detection_loop float_of_str (df_detection df) metric_cols threshold
    target_year = Ok ev ->
  (exists x, In x (summary_data metric_names ev)
             /\ is_text (su_muni x) = true) ->
  (exists y, In y (summary_data metric_names ev)
             /\ is_text (su_muni y) = false) ->
  sort_summary (summary_data metric_names ev) = Raise TypeError
  /\ run_anomaly_detection float_of_str str_of_float df metric_cols
       metric_names threshold target_year = Raise TypeError.
Proof.
  intros Hev Hx Hy.
  assert (Hs : sort_summary (summary_data metric_names ev) = Raise TypeError)
    by (apply sort_by_mixed; assumption).
  split; [exact Hs|].
  unfold run_anomaly_detection. rewrite Hev. simpl. rewrite Hs. reflexivity.
Qed.

Section SummarySamples2.

Import Samples.
Local Open Scope string_scope.

Lemma several_detected :
  exists a m n1 n2,
    detection_loop Lit.float_of_str several ["m1"] 1 2024
    = Ok {| anomalies := [a]; missing_data := [m];
            non_numeric := [n1; n2] |}
    /\ an_muni a = Str "B" /\ mi_muni m = Str "B"
    /\ nn_muni n1 = Str "A" /\ nn_muni n2 = Str "B".
Proof.
  do 4 eexists. split; [vm_compute; reflexivity|]. repeat split.
Qed.

(** Under B the summary of [several] lists the anomaly, the missing value
    and the text, in this order. *)
Lemma summary_lists_kinds_in_order_witness :
  exists a m n1 n2 out,
    detection_loop Lit.float_of_str several ["m1"] 1 2024
    = Ok {| anomalies := [a]; missing_data := [m];
            non_numeric := [n1; n2] |}
    /\ sort_summary
         (summary_data ∅ {| anomalies := [a]; missing_data := [m];
                             non_numeric := [n1; n2] |}) = Ok out
    /\ length out = 4%nat
    /\ map su_note (named su_muni "B" out)
       = [Anomaly a; Missing m; NonNumeric n2]
    /\ map su_note (named su_muni "A" out) = [NonNumeric n1].
Proof.
  destruct several_detected as (a & m & n1 & n2 & Hev & Ha & Hm & Hn1 & Hn2).
  exists a, m, n1, n2.
  destruct (summary_lists_kinds_in_order ∅
              {| anomalies := [a]; missing_data := [m];
                 non_numeric := [n1; n2] |}) as (out & Hout & Hlen & Hs).
  - intros x Hin. unfold summary_data in Hin. simpl in Hin.
    destruct Hin as [<-|[<-|[<-|[<-|[]]]]]; simpl;
      rewrite ?Ha, ?Hm, ?Hn1, ?Hn2; reflexivity.
  - exists out. split; [exact Hev|]. split; [exact Hout|].
    split; [exact Hlen|]. split.
    + rewrite (Hs "B"). simpl. rewrite Ha, Hm, Hn1, Hn2. reflexivity.
    + rewrite (Hs "A"). simpl. rewrite Ha, Hm, Hn1, Hn2. reflexivity.
Defined.

(** The two texts of [nameless] are reported, one without jurisdiction,
    and the run ends in a TypeError. *)
Lemma mixed_jurisdictions_stop_the_run_witness :
  exists n1 n2,
    detection_loop Lit.float_of_str (df_detection nameless) ["m1"] 1 2024
    = Ok {| anomalies := []; missing_data := []; non_numeric := [n1; n2] |}
    /\ nn_muni n1 = Str "A" /\ nn_muni n2 = NaN
    /\ run_anomaly_detection Lit.float_of_str Lit.str_of_float nameless
         ["m1"] ∅ 1 2024 = Raise TypeError.
Proof.
  do 2 eexists. split; [vm_compute; reflexivity|].
  split; [reflexivity|]. split; [reflexivity|].
  refine (proj2 (mixed_jurisdictions_stop_the_run Lit.float_of_str
                   Lit.str_of_float nameless ["m1"] ∅ 1 2024 _ eq_refl _ _)).
  - eexists. split; [left; reflexivity | reflexivity].
  - eexists. split; [right; left; reflexivity | reflexivity].
Defined.

End SummarySamples2.

(* ================================================================== *)
(** * Further properties of the pivot *)
(* ================================================================== *)

Lemma first_valid_inv (l : list long_row) :
  notna (first_valid l) = true ->
  exists x, In x l /\ notna (Value x) = true /\ Value x = first_valid l.
Proof.
  unfold first_valid.
  destruct (List.filter (fun x => notna (Value x)) l) as [|x r] eqn:Hf;
    [discriminate|].
  intros _. exists x.
  assert (H : In x (List.filter (fun x => notna (Value x)) l))
    by (rewrite Hf; left; reflexivity).
  apply filter_In in H as [H1 H2]. auto.
Qed.

Section PivotShape.

Variable t : list long_row.

Let keyed : list long_row :=
  List.filter (fun x => notna (Municipality x) && notna (Category x)
                        && notna (Year x)) t.

Let kept : list (long_row * cell) :=
  List.filter (fun gv : long_row * cell => notna (snd gv))
    (map (fun g => (g, first_valid (List.filter (same_group g) keyed)))
         (distinct same_group keyed)).

Lemma pivot_rows_unfold :
  pivot_rows (pivot_table t)
  = map (fun e =>
           (Municipality e, Category e, Metric e,
            map (fun y =>
                   match List.filter
                           (fun gv : long_row * cell =>
                              same_entity (fst gv) e
                              && cell_eq (Year (fst gv)) y) kept with
                   | [] => NaN
                   | gv :: _ => snd gv
                   end)
                (year_columns (pivot_table t))))
        (distinct same_entity (map fst kept)).
Proof. reflexivity. Qed.

Lemma year_columns_unfold :
  year_columns (pivot_table t)
  = distinct cell_eq (map (fun gv => Year (fst gv)) kept).
Proof. reflexivity. Qed.

(** Every group that is kept has its keys present and a line of [t] with
    a value. *)
Lemma kept_backed (g : long_row) (v : cell) :
  In (g, v) kept ->
  notna (Municipality g) = true /\ notna (Category g) = true
  /\ notna (Year g) = true
  /\ exists x, In x t /\ same_group g x = true /\ notna (Value x) = true.
Proof.
  intro H. apply filter_In in H as [H Hv]. simpl in Hv.
  apply in_map_iff in H as (g' & [= -> <-] & Hg).
  apply distinct_In, filter_In in Hg as [Hgt Hk].
  apply andb_true_iff in Hk as [Hk HY].
  apply andb_true_iff in Hk as [HM HC].
  repeat split; try assumption.
  apply first_valid_inv in Hv as (x & Hx & Hxv & _).
  apply filter_In in Hx as [Hx Hgx]. apply filter_In in Hx as [Hx _].
  exists x. auto.
Qed.

Lemma same_entity_refl (e : long_row) :
  notna (Municipality e) = true -> notna (Category e) = true ->
  same_entity e e = true.
Proof.
  intros HM HC. unfold same_entity.
  rewrite !cell_eq_refl, String.eqb_refl by assumption. reflexivity.
Qed.

(** The rows of the pivot have pairwise different keys and as many cells
    as there are year columns; the year columns are pairwise different. *)
Lemma pivot_table_tidy :
  (forall m c k cells, In (m, c, k, cells) (pivot_rows (pivot_table t)) ->
     length cells = length (year_columns (pivot_table t))
     /\ length (List.filter (row_is m c k) (pivot_rows (pivot_table t)))
        = 1%nat)
  /\ (forall y, In y (year_columns (pivot_table t)) ->
        length (List.filter (fun c => cell_eq c y)
                            (year_columns (pivot_table t))) = 1%nat).
Proof.
  split.
  - intros m c k cells Hin. rewrite pivot_rows_unfold in Hin.
    apply in_map_iff in Hin as (e & [= <- <- <- <-] & He).
    split; [apply length_map|].
    rewrite pivot_rows_unfold, filter_map_swap, length_map.
    apply (distinct_one same_entity same_entity_sym same_entity_trans).
    apply distinct_In in He as He'.
    exists e. split; [exact He'|].
    apply in_map_iff in He' as ([g v] & <- & Hgv).
    apply kept_backed in Hgv as (HM & HC & _). simpl.
    apply same_entity_refl; assumption.
  - intros y Hin. rewrite year_columns_unfold in *.
    apply (distinct_one cell_eq cell_eq_sym cell_eq_trans).
    apply distinct_In in Hin as Hin'.
    exists y. split; [exact Hin'|].
    apply in_map_iff in Hin' as ([g v] & <- & Hgv).
    apply kept_backed in Hgv as (_ & _ & HY & _). simpl.
    apply cell_eq_refl, HY.
Qed.

(** Every row and every year column of the pivot comes from a line of [t]
    with its keys present and a value. *)
Lemma pivot_table_backed :
  (forall m c k cells, In (m, c, k, cells) (pivot_rows (pivot_table t)) ->
     exists x, In x t /\ notna (Value x) = true
       /\ notna (Municipality x) = true /\ notna (Category x) = true
       /\ notna (Year x) = true
       /\ row_is (Municipality x) (Category x) (Metric x) (m, c, k, cells)
          = true)
  /\ (forall y, In y (year_columns (pivot_table t)) ->
        exists x, In x t /\ notna (Value x) = true
          /\ notna (Municipality x) = true /\ notna (Category x) = true
          /\ notna (Year x) = true
          /\ cell_eq y (Year x) = true).
Proof.
  split.
  - intros m c k cells Hin. rewrite pivot_rows_unfold in Hin.
    apply in_map_iff in Hin as (e & [= <- <- <- <-] & He).
    apply distinct_In, in_map_iff in He as ([g v] & <- & Hgv).
    apply kept_backed in Hgv as (HM & HC & HY & x & Hx & Hgx & Hv).
    exists x. simpl in *.
    apply andb_true_iff in Hgx as [He Hy].
    pose proof He as He'. unfold same_entity in He'.
    apply andb_true_iff in He' as [He' _].
    apply andb_true_iff in He' as [H1 H2].
    apply cell_eq_true_notna in H1 as [_ H1].
    apply cell_eq_true_notna in H2 as [_ H2].
    apply cell_eq_true_notna in Hy as [_ Hy].
    repeat split; assumption.
  - intros y Hin. rewrite year_columns_unfold in Hin.
    apply distinct_In, in_map_iff in Hin as ([g v] & <- & Hgv).
    apply kept_backed in Hgv as (HM & HC & HY & x & Hx & Hgx & Hv).
    exists x. simpl in *.
    apply andb_true_iff in Hgx as [He Hy].
    pose proof He as He'. unfold same_entity in He'.
    apply andb_true_iff in He' as [He' _].
    apply andb_true_iff in He' as [H1 H2].
    apply cell_eq_true_notna in H1 as [_ H1].
    apply cell_eq_true_notna in H2 as [_ H2].
    pose proof (cell_eq_true_notna _ _ Hy) as [_ Hy'].
    repeat split; assumption.
Qed.

End PivotShape.

Lemma transformed_In (D : list row) (metric_cols : list string)
    (x : long_row) :
  In x (transformed D metric_cols) ->
  exists r, In r D /\ In (Metric x) metric_cols
    /\ Municipality x = a_jurisdiction r /\ Category x = a_service r
    /\ Year x = a_fiscal_year r /\ Value x = metrics r (Metric x).
Proof.
  unfold transformed. rewrite in_flat_map. intros (r & Hr & Hx).
  apply in_map_iff in Hx as (k & <- & Hk). exists r. simpl.
  repeat split; assumption.
Qed.

(** X9.  The frame [transform_data] returns is a table without
    duplicates: no two rows have the same (municipality, category, metric)
    key, no two year columns are the same year, and every row has exactly
    one cell per year column. *)
Theorem pivot_has_no_duplicates (D : list row) (metric_cols : list string) :
  let p := transform_data D metric_cols in
  (forall m c k cells, In (m, c, k, cells) (pivot_rows p) ->
     length cells = length (year_columns p)
     /\ length (List.filter (row_is m c k) (pivot_rows p)) = 1%nat)
  /\ (forall y, In y (year_columns p) ->
        length (List.filter (fun c => cell_eq c y) (year_columns p))
        = 1%nat).
Proof. apply pivot_table_tidy. Qed.

(** X10.  The pivot invents nothing and shows no empty line: every row
    stands for a row of the frame and a metric column with a recorded
    value, a jurisdiction and a year, and so does every year column; the
    cell of the pivot row under that observation's year holds a value. *)
Theorem pivot_rows_and_columns_are_recorded
    (D : list row) (metric_cols : list string) :
  let p := transform_data D metric_cols in
  (forall m c k cells, In (m, c, k, cells) (pivot_rows p) ->
     exists r, In r D /\ In k metric_cols
       /\ cell_eq (a_jurisdiction r) m = true
       /\ cell_eq (a_service r) c = true
       /\ notna (a_fiscal_year r) = true
       /\ notna (metrics r k) = true
       /\ exists v, at_year (a_fiscal_year r) (year_columns p) cells = Some v
                    /\ notna v = true)
  /\ (forall y, In y (year_columns p) ->
        exists r k, In r D /\ In k metric_cols
          /\ cell_eq (a_fiscal_year r) y = true
          /\ notna (a_jurisdiction r) = true
          /\ notna (a_service r) = true
          /\ notna (metrics r k) = true).
Proof.
  intro p. split.
  - intros m c k cells Hin.
    destruct (proj1 (pivot_table_backed (transformed D metric_cols))
                m c k cells Hin) as (x & Hx & Hv & HM & HC & HY & Hrow).
    apply transformed_In in Hx as (r & Hr & Hk & EM & EC & EY & EV).
    rewrite EM, EC, EY, EV in *.
    unfold row_is in Hrow.
    apply andb_true_iff in Hrow as [Hrow Hkk].
    apply andb_true_iff in Hrow as [Hm Hc].
    apply String.eqb_eq in Hkk. subst k.
    rewrite cell_eq_sym in Hm. rewrite cell_eq_sym in Hc.
    exists r. repeat split; try assumption.
    destruct (pivot_of_observation D metric_cols r (Metric x) Hr Hk HM HC HY Hv)
      as (Hone & _ & Hat & Hna).
    fold p in Hone, Hat.
    unfold pivot_at in Hat.
    destruct (List.filter (row_is (a_jurisdiction r) (a_service r) (Metric x))
                          (pivot_rows p)) as [|pr [|pr' rest]] eqn:Hf;
      try discriminate.
    assert (Hpr : In (m, c, Metric x, cells)
                     (List.filter (row_is (a_jurisdiction r) (a_service r)
                                     (Metric x)) (pivot_rows p))).
    { apply filter_In. split; [exact Hin|]. unfold row_is.
      rewrite (cell_eq_sym m), (cell_eq_sym c), Hm, Hc, String.eqb_refl.
      reflexivity. }
    rewrite Hf in Hpr. destruct Hpr as [->|[]].
    eexists. split; [exact Hat | exact Hna].
  - intros y Hin.
    destruct (proj2 (pivot_table_backed (transformed D metric_cols)) y Hin)
      as (x & Hx & Hv & HM & HC & HY & Hy).
    apply transformed_In in Hx as (r & Hr & Hk & EM & EC & EY & EV).
    rewrite EM, EC, EY, EV in *.
    exists r, (Metric x). rewrite cell_eq_sym in Hy.
    repeat split; assumption.
Qed.

(* ================================================================== *)
(** * The fills of the "Data" sheet *)
(* ================================================================== *)

Lemma paint_lookup_in {A} (at_ : A -> coordinate) (colour : fill)
    (xs : list A) (ws : gmap coordinate fill) (k : coordinate) :
  In k (map at_ xs) \/ ws !! k = Some colour ->
  paint at_ colour xs ws !! k = Some colour.
Proof.
  unfold paint. revert ws. induction xs as [|x xs IH]; intros ws H; simpl.
  - destruct H as [[]|H]; exact H.
  - apply IH. destruct (decide (at_ x = k)) as [E|E].
    + right. rewrite E. apply lookup_insert_eq.
    + destruct H as [[H|H]|H].
      * contradiction.
      * left. exact H.
      * right. rewrite lookup_insert_ne by exact E. exact H.
Qed.

Lemma paint_lookup_out {A} (at_ : A -> coordinate) (colour : fill)
    (xs : list A) (ws : gmap coordinate fill) (k : coordinate) :
  ~ In k (map at_ xs) ->
  paint at_ colour xs ws !! k = ws !! k.
Proof.
  unfold paint. revert ws. induction xs as [|x xs IH]; intros ws H; simpl.
  - reflexivity.
  - rewrite IH by (intro Hin; apply H; right; exact Hin).
    apply lookup_insert_ne. intro E. apply H. left. exact E.
Qed.

Lemma paint_app {A} (at_ : A -> coordinate) (colour : fill)
    (xs ys : list A) (ws : gmap coordinate fill) :
  paint at_ colour (xs ++ ys) ws = paint at_ colour ys (paint at_ colour xs ws).
Proof. apply fold_left_app. Qed.

Lemma index_of_nonneg (m : string) (cols : list string) :
  (0 <= index_of m cols)%Z.
Proof.
  induction cols as [|c cols IH]; simpl; [lia|].
  destruct (String.eqb c m); lia.
Qed.

(** Two metric columns at the same position are the same column. *)
Lemma index_of_inj (cols : list string) (m m' : string) :
  In m cols -> In m' cols -> index_of m cols = index_of m' cols -> m = m'.
Proof.
  induction cols as [|c cols IH]; intros Hm Hm' E; [destruct Hm|].
  simpl in E.
  destruct (String.eqb c m) eqn:E1, (String.eqb c m') eqn:E2.
  - apply String.eqb_eq in E1, E2. congruence.
  - pose proof (index_of_nonneg m' cols). lia.
  - pose proof (index_of_nonneg m cols). lia.
  - apply String.eqb_neq in E1, E2.
    destruct Hm as [Hm|Hm]; [contradiction|].
    destruct Hm' as [Hm'|Hm']; [contradiction|].
    apply IH; [assumption..|lia].
Qed.

(** Two rows of a frame with the same label are the same row. *)
Lemma idx_inj (df : list row) (r r' : row) :
  List.NoDup (map idx df) -> In r df -> In r' df -> idx r = idx r' -> r = r'.
Proof.
  induction df as [|x df IH]; intros Hnd Hr Hr' E; [destruct Hr|].
  simpl in Hnd. apply NoDup_cons_iff in Hnd as [Hx Hnd].
  destruct Hr as [->|Hr], Hr' as [->|Hr'].
  - reflexivity.
  - exfalso. apply Hx. rewrite E. apply in_map, Hr'.
  - exfalso. apply Hx. rewrite <- E. apply in_map, Hr.
  - apply IH; assumption.
Qed.

Lemma sheet_cell_inj (df : list row) (metric_cols : list string)
    (r r' : row) (m m' : string) :
  List.NoDup (map idx df) -> In r df -> In r' df ->
  In m metric_cols -> In m' metric_cols ->
  sheet_cell metric_cols r m = sheet_cell metric_cols r' m' ->
  r = r' /\ m = m'.
Proof.
  intros Hnd Hr Hr' Hm Hm' E. unfold sheet_cell, get_loc in E.
  injection E as E1 E2. split.
  - apply (idx_inj df); [assumption..|lia].
  - apply (index_of_inj metric_cols); [assumption..|lia].
Qed.

Section DataSheet.

Variable float_of_str : string -> option Q.

Local Abbreviation float := (float float_of_str).
Local Abbreviation classify_cell := (classify_cell float_of_str).
Local Abbreviation numeric_value := (numeric_value float_of_str).
Local Abbreviation unparseable := (unparseable float_of_str).
Local Abbreviation detection_loop := (detection_loop float_of_str).
Local Abbreviation target_row := (target_row float_of_str).
Local Abbreviation in_target_year := (in_target_year float_of_str).
Local Abbreviation valid_cell := (valid_cell float_of_str).
Local Abbreviation mark_valid := (mark_valid float_of_str).
Local Abbreviation highlight_data := (highlight_data float_of_str).
Local Abbreviation expected_fill := (expected_fill float_of_str).

Lemma in_target_year_spec (target_year : Q) (r : row) :
  in_target_year target_year r = true <-> target_row target_year r.
Proof.
  unfold in_target_year, target_row. split.
  - destruct (float (a_fiscal_year r)) as [[cy|]|e]; try discriminate.
    intro H. exists cy. split; [reflexivity|]. apply Qeq_bool_iff, H.
  - intros (cy & -> & E). apply Qeq_bool_iff, E.
Qed.

(** The inner loop of lines 232-244 on a row that passes the tests of
    lines 223-231. *)
Lemma mark_valid_row (metric_cols : list string) (target_year : Q)
    (flags : gset coordinate) (r : row) (ms : list string)
    (ws : gmap coordinate fill) :
  in_target_year target_year r = true ->
  isna (a_service r) = false ->
  fold_left
    (fun ws metric =>
       let excel_row := (idx r + 3)%Z in
       let excel_col := (get_loc metric_cols metric + 1)%Z in
       if bool_decide ((excel_row, excel_col) ∈ flags) then ws
       else
         let val := metrics r metric in
         if isna val then ws
         else
           match float val with
           | Ok _ => <[(excel_row, excel_col) := green]> ws
           | Raise _ => ws
           end)
    ms ws
  = paint (fun rm => sheet_cell metric_cols (fst rm) (snd rm)) green
      (List.filter (valid_cell metric_cols target_year flags)
                   (map (pair r) ms)) ws.
Proof.
  intros Ht Hc. revert ws.
  induction ms as [|m ms IH]; intro ws; [reflexivity|].
  cbn [fold_left map List.filter]. rewrite IH. clear IH.
  unfold valid_cell at 2. cbn [fst snd]. unfold notna. rewrite Ht, Hc.
  cbn [negb andb]. cbv zeta.
  change (sheet_cell metric_cols r m)
    with ((idx r + 3)%Z, (get_loc metric_cols m + 1)%Z).
  destruct (decide (((idx r + 3)%Z, (get_loc metric_cols m + 1)%Z) ∈ flags))
    as [Hin|Hin].
  { rewrite !bool_decide_eq_true_2 by exact Hin. reflexivity. }
  rewrite !bool_decide_eq_false_2 by exact Hin. cbn [negb andb].
  destruct (metrics r m) as [|x|s]; cbn; try reflexivity.
  destruct (float_of_str s); reflexivity.
Qed.

Lemma valid_cell_skipped (metric_cols : list string) (target_year : Q)
    (flags : gset coordinate) (r : row) (ms : list string) :
  in_target_year target_year r && notna (a_service r) = false ->
  List.filter (valid_cell metric_cols target_year flags) (map (pair r) ms)
  = [].
Proof.
  intro H. induction ms as [|m ms IH]; [reflexivity|].
  cbn [map List.filter]. unfold valid_cell at 1. cbn [fst snd].
  rewrite H. exact IH.
Qed.

(** Lines 222-244 fill green the valid cells, row after row. *)
Lemma mark_valid_paint (df : list row) (metric_cols : list string)
    (target_year : Q) (flags : gset coordinate) (ws : gmap coordinate fill) :
  mark_valid df metric_cols target_year flags ws
  = paint (fun rm => sheet_cell metric_cols (fst rm) (snd rm)) green
      (List.filter (valid_cell metric_cols target_year flags)
                   (list_prod df metric_cols)) ws.
Proof.
  unfold mark_valid. revert ws.
  induction df as [|r df IH]; intro ws; [reflexivity|].
  cbn [fold_left list_prod]. rewrite IH. clear IH.
  rewrite List.filter_app, paint_app. f_equal.
  destruct (in_target_year target_year r && notna (a_service r)) eqn:Hv.
  - apply andb_true_iff in Hv as [Ht Hc].
    apply negb_true_iff in Hc.
    pose proof Ht as Ht'. unfold in_target_year in Ht'.
    destruct (float (a_fiscal_year r)) as [[cy|]|e]; try discriminate.
    rewrite Ht', Hc. cbn [negb].
    apply mark_valid_row; assumption.
  - rewrite valid_cell_skipped by exact Hv. cbn [paint fold_left].
    unfold in_target_year in Hv.
    destruct (float (a_fiscal_year r)) as [[cy|]|e]; try reflexivity.
    destruct (Qeq_bool cy target_year); cbn [negb]; [|reflexivity].
    cbn [andb] in Hv. apply negb_false_iff in Hv. rewrite Hv. reflexivity.
Qed.

Lemma paint_lookup_inv {A} (at_ : A -> coordinate) (colour : fill)
    (xs : list A) (ws : gmap coordinate fill) (k : coordinate) (c : fill) :
  paint at_ colour xs ws !! k = Some c ->
  In k (map at_ xs) \/ ws !! k = Some c.
Proof.
  intro H.
  destruct (in_dec (fun a b : coordinate => decide (a = b)) k (map at_ xs))
    as [Hin|Hout]; [left; exact Hin|].
  right. rewrite paint_lookup_out in H by exact Hout. exact H.
Qed.

Lemma flagged_spec (ev : lists) (k : coordinate) :
  k ∈ flagged ev
  <-> In k (map anomaly_at (anomalies ev))
      \/ In k (map missing_at (missing_data ev))
      \/ In k (map nonnum_at (non_numeric ev)).
Proof.
  unfold flagged. rewrite elem_of_list_to_set, list_elem_of_In, !in_app_iff.
  reflexivity.
Qed.

(** The tuple a cell produces points to the cell. *)
Lemma event_at_own (D : list row) (metric_cols : list string)
    (threshold target_year : Q) (metric : string) (r : row) (e : event) :
  classify_cell D metric_cols threshold target_year metric r = Ok (Some e) ->
  event_at e = sheet_cell metric_cols r metric.
Proof.
  intro H. apply classify_cell_inv in H as [_ H].
  unfold sheet_cell.
  destruct e as [a|m|n]; cbv zeta in H.
  - destruct H as (_ & _ & _ & _ & E).
    pose proof (f_equal an_row E) as E1. pose proof (f_equal an_col E) as E2.
    cbn in E1, E2. unfold event_at, anomaly_at. rewrite E1, E2.
    f_equal. lia.
  - destruct H as (_ & _ & _ & E).
    pose proof (f_equal mi_row E) as E1. pose proof (f_equal mi_col E) as E2.
    cbn in E1, E2. unfold event_at, missing_at. rewrite E1, E2.
    f_equal. lia.
  - destruct H as (_ & E).
    pose proof (f_equal nn_row E) as E1. pose proof (f_equal nn_col E) as E2.
    cbn in E1, E2. unfold event_at, nonnum_at. rewrite E1, E2.
    f_equal. lia.
Qed.

Section OneFrame.

Variable df : list row.
Variable metric_cols : list string.
Variables threshold target_year : Q.
Variable os : list (option event).

Hypothesis labels : List.NoDup (map idx df).
Hypothesis run :
  outcomes float_of_str (df_detection df) metric_cols threshold target_year
  = Ok os.

(** A tuple that points to a cell of the frame was produced by that
    cell. *)
Lemma event_at_cell (r : row) (metric : string) (e : event) :
  In r df -> In metric metric_cols ->
  In (Some e) os -> event_at e = sheet_cell metric_cols r metric ->
  notna (a_service r) = true
  /\ classify_cell (df_detection df) metric_cols threshold target_year
       metric r = Ok (Some e).
Proof.
  intros Hr Hm He Hat.
  destruct (proj1 (outcomes_cells float_of_str _ _ _ _ _ run) _ He)
    as (m' & r' & Hm' & Hr' & Hc).
  pose proof (event_at_own _ _ _ _ _ _ _ Hc) as Hown.
  rewrite Hat in Hown.
  apply df_detection_In in Hr' as [Hr' Hcat].
  destruct (sheet_cell_inj df metric_cols r r' metric m' labels Hr Hr' Hm Hm'
              Hown) as [-> ->].
  split; assumption.
Qed.

Lemma cell_outcome (r : row) (metric : string) :
  In r df -> In metric metric_cols -> notna (a_service r) = true ->
  exists o, In o os
    /\ classify_cell (df_detection df) metric_cols threshold target_year
         metric r = Ok o.
Proof.
  intros Hr Hm Hc.
  apply (proj2 (outcomes_cells float_of_str _ _ _ _ _ run) metric r Hm).
  apply df_detection_In. auto.
Qed.

End OneFrame.

End DataSheet.

Lemma valid_cell_true (float_of_str : string -> option Q)
    (metric_cols : list string) (target_year : Q) (flags : gset coordinate)
    (r : row) (m : string) :
  valid_cell float_of_str metric_cols target_year flags (r, m) = true
  <-> in_target_year float_of_str target_year r = true
      /\ notna (a_service r) = true
      /\ (sheet_cell metric_cols r m ∉ flags)
      /\ exists x, numeric_value float_of_str (metrics r m) = Some x.
Proof.
  unfold valid_cell. cbn [fst snd].
  rewrite !andb_true_iff, negb_true_iff, bool_decide_eq_false.
  destruct (numeric_value float_of_str (metrics r m)) as [x|].
  - split; [intros [[[? ?] ?] _]; eauto 6 | intros (? & ? & ? & _); auto].
  - split; [intros [_ ?]; discriminate | intros (_ & _ & _ & x & ?)];
      discriminate.
Qed.

(** X11.  The fills of the "Data" sheet follow the verdicts of the loop,
    cell by cell: on a frame with distinct row labels, the cell of a row
    and a metric column is red, blue or yellow when the loop produced an
    anomaly, a missing value or a non-numeric tuple for it, green when it
    holds a number in a row of the target year and produced no tuple, and
    has no fill otherwise; a row without a category gets no fill at all.
    No cell outside the metric columns of the rows of the target year is
    filled. *)
Theorem data_sheet_fills_follow_detection
    (float_of_str : string -> option Q) (df : list row)
    (metric_cols : list string) (threshold target_year : Q) (ev : lists) :
  detection_loop float_of_str (df_detection df) metric_cols threshold
    target_year = Ok ev ->
  List.NoDup (map idx df) ->
  let ws := highlight_data float_of_str df metric_cols target_year ev in
  (forall r metric, In r df -> In metric metric_cols ->
     ws !! sheet_cell metric_cols r metric
     = if isna (a_service r) then None
       else expected_fill float_of_str (df_detection df) metric_cols
              threshold target_year metric r)
  /\ (forall k, is_Some (ws !! k) ->
        exists r metric, In r df /\ In metric metric_cols
          /\ notna (a_service r) = true
          /\ target_row float_of_str target_year r
          /\ k = sheet_cell metric_cols r metric).
Proof.
  intros Hev Hnd ws.
  destruct (detection_loop_outcomes _ _ _ _ _ _ Hev)
    as (os & Hos & EA & EM & EN).
  assert (HA : forall k, In k (map anomaly_at (anomalies ev)) <->
                 exists a, In (Some (Anomaly a)) os
                           /\ event_at (Anomaly a) = k).
  { intro k. rewrite EA, in_map_iff. split.
    - intros (a & E & Ha). exists a. split; [apply the_anomalies_In, Ha|].
      exact E.
    - intros (a & Ha & E). exists a. split; [exact E|].
      apply the_anomalies_In, Ha. }
  assert (HM : forall k, In k (map missing_at (missing_data ev)) <->
                 exists m, In (Some (Missing m)) os
                           /\ event_at (Missing m) = k).
  { intro k. rewrite EM, in_map_iff. split.
    - intros (a & E & Ha). exists a. split; [apply the_missing_In, Ha|].
      exact E.
    - intros (a & Ha & E). exists a. split; [exact E|].
      apply the_missing_In, Ha. }
  assert (HN : forall k, In k (map nonnum_at (non_numeric ev)) <->
                 exists n, In (Some (NonNumeric n)) os
                           /\ event_at (NonNumeric n) = k).
  { intro k. rewrite EN, in_map_iff. split.
    - intros (a & E & Ha). exists a. split; [apply the_non_numeric_In, Ha|].
      exact E.
    - intros (a & Ha & E). exists a. split; [exact E|].
      apply the_non_numeric_In, Ha. }
  assert (Hflag : forall k, k ∈ flagged ev <->
                    exists e, In (Some e) os /\ event_at e = k).
  { intro k. rewrite flagged_spec, HA, HM, HN. split.
    - intros [(a & ? & ?)|[(m & ? & ?)|(n & ? & ?)]]; eauto.
    - intros ([a|m|n] & ? & ?); eauto 6. }
  assert (Hgreen : forall k,
            In k (map (fun rm : row * string =>
                         sheet_cell metric_cols (fst rm) (snd rm))
                      (List.filter (valid_cell float_of_str metric_cols
                                      target_year (flagged ev))
                                   (list_prod df metric_cols))) <->
            exists r m, In r df /\ In m metric_cols
              /\ valid_cell float_of_str metric_cols target_year
                   (flagged ev) (r, m) = true
              /\ k = sheet_cell metric_cols r m).
  { intro k. rewrite in_map_iff. split.
    - intros ([r m] & E & Hin). apply filter_In in Hin as [Hin Hv].
      apply in_prod_iff in Hin as [Hr Hm]. exists r, m. cbn in E. auto.
    - intros (r & m & Hr & Hm & Hv & ->). exists (r, m).
      split; [reflexivity|]. apply filter_In. split; [|exact Hv].
      apply in_prod; assumption. }
  unfold ws, highlight_data. rewrite mark_valid_paint. split.
  - intros r metric Hr Hm.
    set (k := sheet_cell metric_cols r metric).
    destruct (isna (a_service r)) eqn:Hc.
    + assert (Hno : forall e, In (Some e) os -> event_at e = k -> False).
      { intros e He Hat.
        destruct (event_at_cell float_of_str df metric_cols threshold
                    target_year os Hnd Hos r metric e Hr Hm He Hat)
          as [Hcat _].
        unfold notna in Hcat. rewrite Hc in Hcat. discriminate. }
      rewrite paint_lookup_out.
      2:{ rewrite Hgreen. intros (r' & m' & Hr' & Hm' & Hv & E).
          destruct (sheet_cell_inj df metric_cols r r' metric m' Hnd Hr Hr'
                      Hm Hm' E) as [<- <-].
          apply valid_cell_true in Hv as (_ & Hcat & _).
          unfold notna in Hcat. rewrite Hc in Hcat. discriminate. }
      unfold paint_flags.
      rewrite !paint_lookup_out; [apply lookup_empty| | |].
      * rewrite HA. intros (a & Ha & E). exact (Hno _ Ha E).
      * rewrite HM. intros (a & Ha & E). exact (Hno _ Ha E).
      * rewrite HN. intros (a & Ha & E). exact (Hno _ Ha E).
    + assert (Hcat : notna (a_service r) = true)
        by (unfold notna; rewrite Hc; reflexivity).
      destruct (cell_outcome float_of_str df metric_cols threshold
                  target_year os Hos r metric Hr Hm Hcat) as (o & Ho & Hcl).
      assert (Huniq : forall e, In (Some e) os -> event_at e = k ->
                        o = Some e).
      { intros e He Hat.
        destruct (event_at_cell float_of_str df metric_cols threshold
                    target_year os Hnd Hos r metric e Hr Hm He Hat)
          as [_ Hcl'].
        congruence. }
      unfold expected_fill. rewrite Hcl.
      destruct o as [e|].
      * pose proof (event_at_own _ _ _ _ _ _ _ _ Hcl) as Hown.
        fold k in Hown.
        rewrite paint_lookup_out.
        2:{ rewrite Hgreen. intros (r' & m' & Hr' & Hm' & Hv & E).
            apply valid_cell_true in Hv as (_ & _ & Hnf & _).
            apply Hnf. rewrite <- E. apply Hflag. eauto. }
        unfold paint_flags.
        destruct e as [a|m|n].
        -- rewrite (paint_lookup_out nonnum_at).
           2:{ rewrite HN. intros (x & Hx & E).
               specialize (Huniq _ Hx E). discriminate. }
           rewrite (paint_lookup_out missing_at).
           2:{ rewrite HM. intros (x & Hx & E).
               specialize (Huniq _ Hx E). discriminate. }
           apply paint_lookup_in. left. apply HA. eauto.
        -- rewrite paint_lookup_out.
           ++ apply paint_lookup_in. left. apply HM. eauto.
           ++ rewrite HN. intros (x & Hx & E).
              specialize (Huniq _ Hx E). discriminate.
        -- apply paint_lookup_in. left. apply HN. eauto.
      * assert (Hnf : k ∉ flagged ev).
        { rewrite Hflag. intros (e & He & E).
          specialize (Huniq _ He E). discriminate. }
        destruct (valid_cell float_of_str metric_cols target_year
                    (flagged ev) (r, metric)) eqn:Hv.
        -- rewrite paint_lookup_in.
           2:{ left. apply Hgreen. exists r, metric. auto. }
           apply valid_cell_true in Hv as (Ht & _ & _ & x & Hx).
           rewrite Ht, Hx. reflexivity.
        -- rewrite paint_lookup_out.
           2:{ rewrite Hgreen. intros (r' & m' & Hr' & Hm' & Hv' & E).
               destruct (sheet_cell_inj df metric_cols r r' metric m' Hnd Hr
                           Hr' Hm Hm' E) as [<- <-].
               congruence. }
           unfold paint_flags.
           rewrite !paint_lookup_out.
           ++ rewrite lookup_empty.
              destruct (in_target_year float_of_str target_year r) eqn:Ht;
                [|reflexivity].
              destruct (numeric_value float_of_str (metrics r metric))
                as [x|] eqn:Hx; [|reflexivity].
              exfalso. apply not_true_iff_false in Hv. apply Hv.
              apply valid_cell_true. eauto 6.
           ++ rewrite HA. intros (x & Hx & E).
              specialize (Huniq _ Hx E). discriminate.
           ++ rewrite HM. intros (x & Hx & E).
              specialize (Huniq _ Hx E). discriminate.
           ++ rewrite HN. intros (x & Hx & E).
              specialize (Huniq _ Hx E). discriminate.
  - intros k [c Hk].
    assert (Hev' : forall e, In (Some e) os -> event_at e = k ->
              exists r metric, In r df /\ In metric metric_cols
                /\ notna (a_service r) = true
                /\ target_row float_of_str target_year r
                /\ k = sheet_cell metric_cols r metric).
    { intros e He E.
      destruct (proj1 (outcomes_cells float_of_str _ _ _ _ _ Hos) _ He)
        as (m' & r' & Hm' & Hr' & Hcl).
      pose proof (event_at_own _ _ _ _ _ _ _ _ Hcl) as Hown.
      apply classify_cell_inv in Hcl as [Ht _].
      apply df_detection_In in Hr' as [Hr' Hcat].
      exists r', m'. rewrite <- E, Hown. auto 6. }
    apply paint_lookup_inv in Hk as [Hk|Hk].
    + apply Hgreen in Hk as (r & m & Hr & Hm & Hv & E).
      apply valid_cell_true in Hv as (Ht & Hcat & _).
      apply in_target_year_spec in Ht. exists r, m. auto 6.
    + unfold paint_flags in Hk.
      apply paint_lookup_inv in Hk as [Hk|Hk].
      { apply HN in Hk as (x & Hx & E). exact (Hev' _ Hx E). }
      apply paint_lookup_inv in Hk as [Hk|Hk].
      { apply HM in Hk as (x & Hx & E). exact (Hev' _ Hx E). }
      apply paint_lookup_inv in Hk as [Hk|Hk].
      { apply HA in Hk as (x & Hx & E). exact (Hev' _ Hx E). }
      rewrite lookup_empty in Hk. discriminate.
Qed.

Section DataSheetSamples.

Import Samples.
Local Open Scope string_scope.

Lemma coloured_labels : List.NoDup (map idx coloured).
Proof.
  cbn. repeat (constructor; [cbn; intuition discriminate|]). constructor.
Qed.

Lemma coloured_detected :
  exists ev, detection_loop Lit.float_of_str (df_detection coloured) ["m1"]
               1 2024 = Ok ev
             /\ length (anomalies ev) = 1%nat
             /\ length (missing_data ev) = 1%nat
             /\ length (non_numeric ev) = 2%nat.
Proof. eexists. split; [vm_compute; reflexivity|]. repeat split. Qed.

(** In [coloured] the rows of the earlier years and the row without a
    category stay without fill; the two texts are yellow, the empty cell
    with a history blue, the outlier red and the plain number green. *)
Lemma data_sheet_fills_follow_detection_witness :
  exists ev,
    detection_loop Lit.float_of_str (df_detection coloured) ["m1"] 1 2024
    = Ok ev
    /\ map (fun r => expected_fill Lit.float_of_str (df_detection coloured)
                       ["m1"] 1 2024 "m1" r) coloured
       = [None; None; None; Some yellow; Some yellow; None; Some blue;
          Some red; Some green; Some green]
    /\ map (fun r => isna (a_service r)) coloured
       = [false; false; false; false; false; false; false; false; false; true]
    /\ forall r metric, In r coloured -> In metric ["m1"] ->
         highlight_data Lit.float_of_str coloured ["m1"] 2024 ev
           !! sheet_cell ["m1"] r metric
         = if isna (a_service r) then None
           else expected_fill Lit.float_of_str (df_detection coloured)
                  ["m1"] 1 2024 metric r.
Proof.
  destruct coloured_detected as (ev & Hev & _).
  exists ev. split; [exact Hev|].
  split; [vm_compute; reflexivity|]. split; [reflexivity|].
  exact (proj1 (data_sheet_fills_follow_detection Lit.float_of_str coloured
                  ["m1"] 1 2024 ev Hev coloured_labels)).
Defined.

End DataSheetSamples.

(* ================================================================== *)
(** * The names of the metrics *)
(* ================================================================== *)

Section HeaderFacts.

Context {V : Type}.
Variable value : string * option string -> V.

Local Abbreviation assign :=
  (fun (d : gmap string V) (col : string * option string) =>
     <[fst col := value col]> d).

Lemma assign_other (cols : list (string * option string))
    (d : gmap string V) (k : string) :
  ~ In k (map fst cols) -> fold_left assign cols d !! k = d !! k.
Proof.
  revert d. induction cols as [|col cols IH]; intros d H; [reflexivity|].
  cbn [fold_left]. rewrite IH by (intro Hin; apply H; right; exact Hin).
  apply lookup_insert_ne. intro E. apply H. left. exact E.
Qed.

Lemma assign_some (cols : list (string * option string))
    (d : gmap string V) (k : string) (v : V) :
  fold_left assign cols d !! k = Some v ->
  (exists col, In col cols /\ fst col = k /\ value col = v)
  \/ d !! k = Some v.
Proof.
  revert d. induction cols as [|col cols IH]; intros d H; [right; exact H|].
  cbn [fold_left] in H. apply IH in H as [(c & Hc & E)|H].
  - left. exists c. split; [right; exact Hc | exact E].
  - destruct (decide (fst col = k)) as [E|E].
    + rewrite <- E, lookup_insert_eq in H. injection H as <-.
      left. exists col. split; [left; reflexivity | auto].
    + rewrite lookup_insert_ne in H by exact E. right. exact H.
Qed.

Lemma assign_unique (cols : list (string * option string))
    (d : gmap string V) (col : string * option string) :
  List.NoDup (map fst cols) -> In col cols ->
  fold_left assign cols d !! fst col = Some (value col).
Proof.
  revert d. induction cols as [|c cols IH]; intros d Hnd Hin; [destruct Hin|].
  cbn [map] in Hnd. apply NoDup_cons_iff in Hnd as [Hc Hnd].
  cbn [fold_left]. destruct Hin as [->|Hin].
  - rewrite assign_other by exact Hc. apply lookup_insert_eq.
  - apply IH; assumption.
Qed.

Lemma assign_in (cols : list (string * option string))
    (d : gmap string V) (k : string) :
  In k (map fst cols) -> is_Some (fold_left assign cols d !! k).
Proof.
  revert d. induction cols as [|c cols IH]; intros d Hk; [destruct Hk|].
  cbn [fold_left].
  destruct (in_dec string_dec k (map fst cols)) as [Hkl|Hkl].
  - apply IH, Hkl.
  - rewrite assign_other by exact Hkl.
    destruct Hk as [E|Hk]; [|contradiction].
    rewrite <- E, lookup_insert_eq. eexists. reflexivity.
Qed.

End HeaderFacts.

(** X12.  The dictionary of metric names has an entry for exactly the
    metric columns of the frame, so the lookups with a default, in the
    notes of the events, never fall back on it for a metric column; the
    entry of a code is the name, or the empty text, of a column with this
    code, and the column's own name when the codes are pairwise
    different. *)
Theorem metric_names_cover_metric_columns
    (cols : list (string * option string)) :
  (forall k, In k (metric_cols_of cols)
             <-> is_Some (metric_names_of cols !! k))
  /\ (forall k name, metric_names_of cols !! k = Some name ->
        exists col, In col (skipn 3 cols) /\ fst col = k
                    /\ name = default EmptyString (snd col))
  /\ (forall k, In k (metric_cols_of cols) ->
        exists col, In col (skipn 3 cols) /\ fst col = k
          /\ metric_note (metric_names_of cols) k
             = (k ++ " - " ++ default EmptyString (snd col))%string)
  /\ (List.NoDup (metric_cols_of cols) ->
      forall col, In col (skipn 3 cols) ->
        metric_names_of cols !! fst col
        = Some (default EmptyString (snd col))).
Proof.
  unfold metric_names_of, metric_cols_of.
  set (value := fun col : string * option string =>
                  default EmptyString (snd col)).
  assert (Hsome : forall k name,
            fold_left (fun d col => <[fst col := value col]> d)
                      (skipn 3 cols) (∅ : gmap string string) !! k
            = Some name ->
            exists col, In col (skipn 3 cols) /\ fst col = k
                        /\ name = value col).
  { intros k name H. apply assign_some in H as [(col & Hc & E & Ev)|H].
    - exists col. auto.
    - rewrite lookup_empty in H. discriminate. }
  assert (Hin : forall k, In k (map fst (skipn 3 cols)) ->
            is_Some (fold_left (fun d col => <[fst col := value col]> d)
                               (skipn 3 cols) (∅ : gmap string string)
                     !! k)).
  { intros k Hk. apply (assign_in value), Hk. }
  split; [|split; [|split]].
  - intro k. split; [apply Hin|].
    intros [name H]. apply Hsome in H as (col & Hc & <- & _).
    apply in_map, Hc.
  - exact Hsome.
  - intros k Hk. destruct (Hin k Hk) as [name H].
    destruct (Hsome _ _ H) as (col & Hc & E & ->).
    exists col. split; [exact Hc|]. split; [exact E|].
    unfold metric_note. unfold value in H. cbv beta in H. rewrite H.
    reflexivity.
  - intros Hnd col Hc. apply (assign_unique value); assumption.
Qed.

(* ================================================================== *)
(** * The transformed sheets *)
(* ================================================================== *)

Lemma substring_length (n : nat) (s : string) :
  (String.length (substring 0 n s) <= n)%nat.
Proof.
  revert s. induction n as [|n IH]; intros [|c s]; simpl; try lia.
  specialize (IH s). lia.
Qed.

Lemma concat_filter_cons {A G} (P : G -> A -> bool) (x : A) (l : list A)
    (gs : list G) :
  Permutation
    (concat (map (fun g => List.filter (P g) (x :: l)) gs))
    (repeat x (length (List.filter (fun g => P g x) gs))
     ++ concat (map (fun g => List.filter (P g) l) gs)).
Proof.
  induction gs as [|g gs IH]; [constructor|].
  cbn [map concat List.filter]. destruct (P g x); cbn [length repeat app].
  - apply perm_skip.
    etransitivity; [apply Permutation_app_head, IH|].
    apply Permutation_app_swap_app.
  - etransitivity; [apply Permutation_app_head, IH|].
    apply Permutation_app_swap_app.
Qed.

(** Groups that each element matches exactly once share out the list. *)
Lemma partition_by_groups {A G} (P : G -> A -> bool) (l : list A)
    (gs : list G) :
  (forall x, In x l -> length (List.filter (fun g => P g x) gs) = 1%nat) ->
  Permutation (concat (map (fun g => List.filter (P g) l) gs)) l.
Proof.
  induction l as [|x l IH]; intro H.
  - assert (E : concat (map (fun g => List.filter (P g) []) gs) = []).
    { clear. induction gs as [|g gs IH]; [reflexivity|]. exact IH. }
    rewrite E. constructor.
  - etransitivity; [apply concat_filter_cons|].
    rewrite (H x (or_introl eq_refl)). cbn [repeat app].
    apply perm_skip, IH. intros y Hy. apply H. right. exact Hy.
Qed.

(** The rows of the pivot have a jurisdiction and a category. *)
Lemma pivot_rows_keyed (D : list row) (metric_cols : list string)
    (m c : cell) (k : string) (cells : list cell) :
  In (m, c, k, cells) (pivot_rows (transform_data D metric_cols)) ->
  notna m = true /\ notna c = true.
Proof.
  intro Hin.
  destruct (proj1 (pivot_table_backed (transformed D metric_cols))
              m c k cells Hin) as (x & _ & _ & _ & _ & _ & Hrow).
  unfold row_is in Hrow.
  apply andb_true_iff in Hrow as [Hrow _].
  apply andb_true_iff in Hrow as [Hm Hc].
  apply cell_eq_true_notna in Hm as [Hm _].
  apply cell_eq_true_notna in Hc as [Hc _]. auto.
Qed.

(** The groups of the split. *)
Lemma split_groups (str_of_float : Q -> string)
    (split_by : option string) (D : list row) (metric_cols : list string) :
  let p := transform_data D metric_cols in
  let sheets := split_sheets str_of_float split_by p in
  Permutation (concat (map snd sheets)) (pivot_rows p)
  /\ (forall name rows, In (name, rows) sheets ->
        (String.length name <= 31)%nat)
  /\ (forall by_, split_by = Some by_ ->
        lower by_ = "municipality"%string \/ lower by_ = "category"%string ->
        forall name rows, In (name, rows) sheets ->
          rows <> []
          /\ forall m c k cells m' c' k' cells',
               In (m, c, k, cells) rows -> In (m', c', k', cells') rows ->
               if String.eqb (lower by_) "municipality"
               then cell_eq m m' = true else cell_eq c c' = true).
Proof.
  intros p sheets.
  assert (Hkeys : forall m c k cells, In (m, c, k, cells) (pivot_rows p) ->
                    notna m = true /\ notna c = true)
    by apply pivot_rows_keyed.
  unfold sheets, split_sheets. clear sheets. clearbody p.
  destruct split_by as [by_|].
  2:{ cbn [map snd concat]. rewrite app_nil_r.
      split; [reflexivity|]. split.
      - intros name rows [[= <- _]|[]]. cbn. lia.
      - intros by_ [=]. }
  cbv zeta.
  set (choice := lower by_).
  set (group_col := fun pr : cell * cell * string * list cell =>
                      let '(m, c, _, _) := pr in
                      if String.eqb choice "municipality" then m else c).
  assert (Hkeyed : forall pr, In pr (pivot_rows p) ->
                     notna (group_col pr) = true).
  { intros [[[m c] k] cells] Hin.
    destruct (Hkeys m c k cells Hin) as [Hm Hc].
    unfold group_col. destruct (String.eqb choice "municipality"); assumption. }
  destruct (negb (String.eqb choice "municipality")
            && negb (String.eqb choice "category")) eqn:Hsplit.
  { cbn [map snd concat]. rewrite app_nil_r.
    split; [reflexivity|]. split.
    - intros name rows [[= <- _]|[]]. cbn. lia.
    - intros by' [= <-] Hby. exfalso. fold choice in Hby.
      destruct Hby as [E|E]; rewrite E in Hsplit; cbn in Hsplit;
        discriminate. }
  rewrite map_map. cbn [snd].
  split; [|split].
  - apply (partition_by_groups
             (fun g pr => cell_eq (group_col pr) g) (pivot_rows p)).
    intros pr Hin.
    rewrite (filter_ext _ (fun g => cell_eq g (group_col pr)))
      by (intro g; apply cell_eq_sym).
    apply (distinct_one cell_eq cell_eq_sym cell_eq_trans).
    exists (group_col pr). split.
    + apply filter_In. split; [apply in_map, Hin | apply Hkeyed, Hin].
    + apply cell_eq_refl, Hkeyed, Hin.
  - intros name rows Hin. apply in_map_iff in Hin as (g & [= <- _] & _).
    apply substring_length.
  - intros by' [= <-] _ name rows Hin.
    apply in_map_iff in Hin as (g & [= _ <-] & Hg).
    apply distinct_In, filter_In in Hg as [Hg Hna].
    apply in_map_iff in Hg as (pr & <- & Hpr).
    split.
    + intro Hnil. apply (in_nil (a := pr)). rewrite <- Hnil.
      apply filter_In. split; [exact Hpr|]. apply cell_eq_refl, Hna.
    + intros m c k cells m' c' k' cells' H1 H2.
      apply filter_In in H1 as [_ H1]. apply filter_In in H2 as [_ H2].
      unfold group_col at 1 in H1. unfold group_col at 1 in H2.
      fold choice.
      destruct (String.eqb choice "municipality").
      * apply (cell_eq_trans _ (group_col pr)); [exact H1|].
        rewrite cell_eq_sym. exact H2.
      * apply (cell_eq_trans _ (group_col pr)); [exact H1|].
        rewrite cell_eq_sym. exact H2.
Qed.

Section WorkbookFacts.

Variable avoid_duplicate_name : list string -> string -> string.

Local Abbreviation to_excel := (to_excel avoid_duplicate_name).
Local Abbreviation accepted := (accepted avoid_duplicate_name).

Lemma to_excel_new (name : string)
    (frame : list (cell * cell * string * list cell))
    (wb : list (string * list (cell * cell * string * list cell))) :
  ~ In name (map fst wb) -> invalid_title name = false ->
  to_excel name frame wb
  = Ok (wb ++ [(avoid_duplicate_name (map fst wb) name, frame)]).
Proof.
  intros Hnew Hok. unfold to_excel.
  assert (E : existsb (fun sheet : string * _ => String.eqb (fst sheet) name)
                      wb = false).
  { apply not_true_iff_false. intro H. apply existsb_exists in H.
    destruct H as (sheet & Hin & Heq). apply String.eqb_eq in Heq.
    apply Hnew. rewrite <- Heq. apply in_map, Hin. }
  rewrite E, Hok. reflexivity.
Qed.

(** When every name is accepted as it is, each call makes its own
    sheet. *)
Lemma accepted_calls
    (calls wb : list (string * list (cell * cell * string * list cell))) :
  accepted (map fst wb) (map fst calls) ->
  for_each (fun wb call => to_excel (fst call) (snd call) wb) calls wb
  = Ok (wb ++ calls).
Proof.
  revert wb. induction calls as [|[name frame] calls IH]; intros wb H.
  - rewrite app_nil_r. reflexivity.
  - cbn [map fst accepted] in H. destruct H as (Hnew & Hok & Hkeep & H).
    cbn [for_each fst snd]. rewrite (to_excel_new name frame wb Hnew Hok).
    cbn [res_bind]. rewrite Hkeep. rewrite IH.
    + rewrite <- app_assoc. reflexivity.
    + rewrite map_app. exact H.
Qed.

Lemma accepted_distinct (titles names : list string) :
  accepted titles names ->
  List.NoDup names /\ forall name, In name names -> ~ In name titles.
Proof.
  revert titles. induction names as [|name names IH]; intros titles H.
  - split; [constructor | intros name []].
  - cbn [accepted] in H. destruct H as (Hnew & _ & _ & H).
    destruct (IH _ H) as [Hnd Hout]. split.
    + constructor; [|exact Hnd]. intro Hin.
      apply (Hout name Hin). apply in_or_app. right. left. reflexivity.
    + intros n [<-|Hin]; [exact Hnew|]. intro Ht.
      apply (Hout n Hin). apply in_or_app. left. exact Ht.
Qed.

End WorkbookFacts.

(** X13.  Splitting shares out the pivot among the calls that write it:
    whatever the option, the frames written are a rearrangement of the rows
    of the pivot; a sheet name has at most 31 characters; and when the
    pivot is split by municipality or category no frame is empty and the
    rows of a frame share the value they are grouped by.  When openpyxl
    takes every name as the title of a new sheet (no title twice, no
    refused character, no title changed), the sheets of the workbook are
    these frames under these names, so that every row of the pivot is in
    exactly one sheet. *)
Theorem split_shares_out_the_pivot (str_of_float : Q -> string)
    (avoid_duplicate_name : list string -> string -> string)
    (split_by : option string) (D : list row) (metric_cols : list string) :
  let p := transform_data D metric_cols in
  let calls := split_sheets str_of_float split_by p in
  Permutation (concat (map snd calls)) (pivot_rows p)
  /\ (forall name rows, In (name, rows) calls ->
        (String.length name <= 31)%nat)
  /\ (forall by_, split_by = Some by_ ->
        lower by_ = "municipality"%string \/ lower by_ = "category"%string ->
        forall name rows, In (name, rows) calls ->
          rows <> []
          /\ forall m c k cells m' c' k' cells',
               In (m, c, k, cells) rows -> In (m', c', k', cells') rows ->
               if String.eqb (lower by_) "municipality"
               then cell_eq m m' = true else cell_eq c c' = true)
  /\ (accepted avoid_duplicate_name [] (map fst calls) ->
      write_transformed str_of_float avoid_duplicate_name split_by p
      = Ok (calls, map fst calls)
      /\ List.NoDup (map fst calls)).
Proof.
  intros p calls.
  destruct (split_groups str_of_float split_by D metric_cols)
    as (Hperm & Hlen & Hgroups).
  split; [exact Hperm|]. split; [exact Hlen|]. split; [exact Hgroups|].
  intro Hacc. split.
  - unfold write_transformed. cbv zeta. fold p. fold calls.
    rewrite (accepted_calls avoid_duplicate_name calls [] Hacc).
    reflexivity.
  - apply (accepted_distinct avoid_duplicate_name [] _ Hacc).
Qed.

Section WorkbookSamples.

Import Samples.
Local Open Scope string_scope.

(** A workbook in which no title is asked twice up to case. *)
Let keep (names : list string) (value : string) : string := value.

(** [several] split by category: three sheets, X, Z and Y. *)
Lemma split_shares_out_the_pivot_witness :
  let p := transform_data (df_detection several) ["m1"] in
  accepted keep [] (map fst (split_sheets Lit.str_of_float (Some "category") p))
  /\ exists x z y,
       write_transformed Lit.str_of_float keep (Some "category") p
       = Ok ([("X", x); ("Z", z); ("Y", y)], ["X"; "Z"; "Y"])
       /\ Permutation (x ++ z ++ y) (pivot_rows p).
Proof.
  intro p.
  assert (Hacc : accepted keep []
                   (map fst (split_sheets Lit.str_of_float (Some "category") p))).
  { vm_compute. repeat split; try reflexivity; intro H;
      repeat (destruct H as [H|H]; [discriminate H|]); exact H. }
  split; [exact Hacc|].
  destruct (split_shares_out_the_pivot Lit.str_of_float keep
              (Some "category") (df_detection several) ["m1"])
    as (Hperm & _ & _ & Hwb).
  destruct (Hwb Hacc) as [Hw _]. fold p in Hw, Hperm.
  destruct (split_sheets Lit.str_of_float (Some "category") p)
    as [|[n1 x] [|[n2 z] [|[n3 y] [|? ?]]]] eqn:Hcalls;
    try (vm_compute in Hcalls; discriminate Hcalls).
  assert (Hn : map fst [(n1, x); (n2, z); (n3, y)] = ["X"; "Z"; "Y"]).
  { rewrite <- Hcalls. vm_compute. reflexivity. }
  injection Hn as -> -> ->.
  exists x, z, y. split; [exact Hw|].
  cbn [map snd concat] in Hperm. rewrite app_nil_r in Hperm. exact Hperm.
Defined.

(** Two groups that agree on the first 31 characters of their names are
    written to one sheet, the second over the first: the row of the first
    jurisdiction is in no sheet of the workbook. *)
Lemma same_title_overwrites :
  let p := transform_data twins ["m1"] in
  let first := (Str "Regional Municipal District No. 12", Str "X", "m1",
                [Num 1]) in
  let second := (Str "Regional Municipal District No. 17", Str "X", "m1",
                 [Num 2]) in
  pivot_rows p = [first; second]
  /\ write_transformed Lit.str_of_float keep (Some "municipality") p
     = Ok ([("Regional Municipal District No.", [second])],
           ["Regional Municipal District No.";
            "Regional Municipal District No."]).
Proof. split; vm_compute; reflexivity. Qed.

(** A name with a character that openpyxl refuses stops the writing. *)
Lemma refused_title_stops_the_writing :
  write_transformed Lit.str_of_float keep (Some "category")
    (transform_data
       [obs 0 (Num 2024) (Str "A") (Str "Roads/Bridges") (Num 1)] ["m1"])
  = Raise ValueError.
Proof. vm_compute. reflexivity. Qed.

End WorkbookSamples.

Lemma lstrip_app (l t : list ascii) (c : ascii) :
  is_space c = false -> lstrip (l ++ c :: t) = lstrip l ++ c :: t.
Proof.
  intro Hc. induction l as [|a l IH]; cbn [app lstrip].
  - rewrite Hc. reflexivity.
  - destruct (is_space a); [exact IH | reflexivity].
Qed.

Lemma lstrip_head (l : list ascii) :
  match lstrip l with [] => True | c :: _ => is_space c = false end.
Proof.
  induction l as [|a l IH]; cbn [lstrip]; [exact I|].
  destruct (is_space a) eqn:Ha; [exact IH | exact Ha].
Qed.

Lemma lstrip_fixed (l : list ascii) :
  match l with [] => True | c :: _ => is_space c = false end ->
  lstrip l = l.
Proof. destruct l as [|c l]; cbn [lstrip]; [reflexivity|]. intros ->. reflexivity. Qed.

Lemma lstrip_idem (l : list ascii) : lstrip (lstrip l) = lstrip l.
Proof. apply lstrip_fixed, lstrip_head. Qed.

(** Stripping a stripped text changes nothing. *)
Lemma strip_idem (s : string) : strip (strip s) = strip s.
Proof.
  unfold strip. rewrite list_ascii_of_string_of_list_ascii. f_equal.
  pose proof (lstrip_head (list_ascii_of_string s)) as Hhead.
  destruct (lstrip (list_ascii_of_string s)) as [|c l].
  - reflexivity.
  - cbn [rev]. rewrite (lstrip_app _ [] c Hhead).
    rewrite rev_app_distr. cbn [rev app lstrip]. rewrite Hhead.
    cbn [rev]. rewrite (lstrip_app _ [] c Hhead).
    rewrite !rev_app_distr. cbn [rev app]. f_equal.
    rewrite rev_involutive, lstrip_idem. reflexivity.
Qed.

Lemma build_dict_member {A} (key : A -> entity_key) (xs : list A)
    (k : entity_key) :
  is_Some (build_dict key xs !! k) <-> exists x, In x xs /\ key x = k.
Proof.
  rewrite build_dict_lookup. split.
  - intros [y Hy]. apply last_Some in Hy as [l' Hl].
    assert (Hin : In y (List.filter (fun x => bool_decide (key x = k)) xs))
      by (rewrite Hl; apply in_or_app; right; left; reflexivity).
    apply filter_In in Hin as [Hin Hk].
    apply bool_decide_eq_true in Hk. eauto.
  - intros (x & Hx & E).
    destruct (last (List.filter (fun x => bool_decide (key x = k)) xs))
      as [y|] eqn:Hl; [eexists; reflexivity|].
    apply last_None in Hl.
    assert (Hin : In x (List.filter (fun x => bool_decide (key x = k)) xs))
      by (apply filter_In; split;
          [exact Hx | apply bool_decide_eq_true; exact E]).
    rewrite Hl in Hin. destruct Hin.
Qed.

(** X14.  On a transformed sheet the fill of the cell under the target year
    goes by the key of its row alone, for a row whose municipality and
    category are texts: red when an anomaly has this key, else blue when a
    missing value has it, else yellow when a non-numeric tuple has it, else
    green when the cell holds a number.  The key of the row has its metric
    code stripped and the keys of the tuples have not, so anomalies on
    metric codes with blanks around never turn a cell red. *)
Theorem transformed_fill_follows_keys
    (float_of_str : string -> option Q) (str_of_float : Q -> string)
    (ev : lists) (m c k : string) (cells : list cell) (value : cell) :
  let key := (strip m, strip c, strip k) in
  let fill_ := transformed_fill float_of_str str_of_float ev
                 (Str m, Str c, k, cells) value in
  let hit_a := exists a, In a (anomalies ev)
                         /\ anomaly_key str_of_float a = key in
  let hit_m := exists x, In x (missing_data ev)
                         /\ missing_key str_of_float x = key in
  let hit_n := exists n, In n (non_numeric ev)
                         /\ nonnum_key str_of_float n = key in
  (fill_ = Some red <-> hit_a)
  /\ (fill_ = Some blue <-> ~ hit_a /\ hit_m)
  /\ (fill_ = Some yellow <-> ~ hit_a /\ ~ hit_m /\ hit_n)
  /\ (fill_ = Some green <->
      ~ hit_a /\ ~ hit_m /\ ~ hit_n
      /\ exists x, numeric_value float_of_str value = Some x)
  /\ ((forall a, In a (anomalies ev) -> strip (an_metric a) <> an_metric a)
      -> fill_ <> Some red).
Proof.
  intros key fill_ hit_a hit_m hit_n.
  assert (HA : is_Some (anomaly_dict str_of_float ev !! key) <-> hit_a)
    by apply build_dict_member.
  assert (HM : is_Some (missing_dict str_of_float ev !! key) <-> hit_m)
    by apply build_dict_member.
  assert (HN : is_Some (non_numeric_dict str_of_float ev !! key) <-> hit_n)
    by apply build_dict_member.
  set (plain := match value with
                | NaN => None
                | _ => match float float_of_str value with
                       | Ok _ => Some green
                       | Raise _ => None
                       end
                end).
  assert (Hnum : (exists x, numeric_value float_of_str value = Some x)
                 <-> plain = Some green).
  { unfold plain. destruct value as [|x|s]; cbn.
    - split; [intros [x H]|intro H]; discriminate H.
    - split; [reflexivity | eauto].
    - destruct (float_of_str s) as [x|]; cbn.
      + split; [reflexivity | eauto].
      + split; [intros [x H]|intro H]; discriminate H. }
  assert (Hplain : plain = Some green \/ plain = None).
  { unfold plain. destruct value as [|x|s]; cbn; auto.
    destruct (float_of_str s); cbn; auto. }
  assert (Hall :
    (fill_ = Some red <-> hit_a)
    /\ (fill_ = Some blue <-> ~ hit_a /\ hit_m)
    /\ (fill_ = Some yellow <-> ~ hit_a /\ ~ hit_m /\ hit_n)
    /\ (fill_ = Some green <->
        ~ hit_a /\ ~ hit_m /\ ~ hit_n
        /\ exists x, numeric_value float_of_str value = Some x)).
  { unfold fill_, transformed_fill. cbn [sheet_key cell_text str].
    fold key. fold plain.
    destruct (decide (is_Some (anomaly_dict str_of_float ev !! key)))
      as [Ha|Ha];
      [rewrite bool_decide_eq_true_2 by exact Ha
      |rewrite bool_decide_eq_false_2 by exact Ha].
    { intuition congruence. }
    destruct (decide (is_Some (missing_dict str_of_float ev !! key)))
      as [Hm|Hm];
      [rewrite bool_decide_eq_true_2 by exact Hm
      |rewrite bool_decide_eq_false_2 by exact Hm].
    { intuition congruence. }
    destruct (decide (is_Some (non_numeric_dict str_of_float ev !! key)))
      as [Hn|Hn];
      [rewrite bool_decide_eq_true_2 by exact Hn
      |rewrite bool_decide_eq_false_2 by exact Hn].
    { intuition congruence. }
    destruct Hplain as [E|E]; rewrite E in *; intuition congruence. }
  destruct Hall as (Hred & Hblue & Hyellow & Hgreen).
  repeat (split; [assumption|]).
  intros Hblank Hfill. apply Hred in Hfill as (a & Ha & Hkey).
  apply (Hblank a Ha).
  unfold anomaly_key, make_key, key in Hkey.
  injection Hkey as _ _ ->. apply strip_idem.
Qed.

Lemma col_target_spec (header : list string) (label : string) :
  match col_target header label with
  | Some j =>
      (exists h, nth_error header j = Some h /\ strip h = label)
      /\ (forall i h, (i < j)%nat -> nth_error header i = Some h ->
            strip h <> label)
  | None => forall h, In h header -> strip h <> label
  end.
Proof.
  induction header as [|h0 header IH]; cbn [col_target].
  - intros h [].
  - destruct (String.eqb (strip h0) label) eqn:E0.
    + apply String.eqb_eq in E0. split.
      * exists h0. split; [reflexivity | exact E0].
      * intros i h Hi. lia.
    + apply String.eqb_neq in E0.
      destruct (col_target header label) as [j|]; cbn [option_map].
      * destruct IH as [(h & Hh & Eh) Hbefore]. split.
        -- exists h. split; [exact Hh | exact Eh].
        -- intros [|i] h' Hi Hnth; cbn in Hnth.
           ++ injection Hnth as <-. exact E0.
           ++ apply (Hbefore i h'); [lia | exact Hnth].
      * intros h [<-|Hin]; [exact E0 | apply IH, Hin].
Qed.

(** X15.  The column of the target year on a transformed sheet is the
    first header cell whose text, stripped, is the target year as a text;
    when no header cell reads so, no cell of the sheet is filled, whatever
    the events are. *)
Theorem target_column_is_the_first_match
    (float_of_str : string -> option Q) (str_of_float : Q -> string)
    (p : pivot_df) (label : string) :
  let header := pivot_header str_of_float p in
  match col_target header label with
  | Some j =>
      (exists h, nth_error header j = Some h /\ strip h = label)
      /\ (forall i h, (i < j)%nat -> nth_error header i = Some h ->
            strip h <> label)
  | None =>
      (forall h, In h header -> strip h <> label)
      /\ forall ev pr,
           highlight_row float_of_str str_of_float ev p label pr = None
  end.
Proof.
  intro header. pose proof (col_target_spec header label) as H.
  destruct (col_target header label) as [j|] eqn:E; [exact H|].
  split; [exact H|]. intros ev pr. unfold highlight_row.
  fold header. rewrite E. reflexivity.
Qed.

(* ================================================================== *)
(** * The window *)
(* ================================================================== *)

(** X16.  The theme button alternates between the two themes: after any
    number of presses from the theme the window starts with, the theme is
    "darkly" after an even number and "flatly" after an odd number; from any
    other theme one press leads to "darkly". *)
Theorem theme_alternates (n : nat) :
  Nat.iter n toggle_theme "darkly"%string
  = (if Nat.even n then "darkly" else "flatly")%string
  /\ forall theme, theme <> "darkly"%string ->
       toggle_theme theme = "darkly"%string.
Proof.
  split.
  - induction n as [|n IH]; [reflexivity|].
    rewrite Nat.even_succ, <- Nat.negb_even.
    change (Nat.iter (S n) toggle_theme "darkly"%string)
      with (toggle_theme (Nat.iter n toggle_theme "darkly"%string)).
    rewrite IH.
    destruct (Nat.even n); reflexivity.
  - intros theme H. unfold toggle_theme.
    apply String.eqb_neq in H. rewrite H. reflexivity.
Qed.

(** X17.  The window is centred: the margins on the two sides of the
    window differ by at most one pixel, in each direction, also when the
    window is larger than the screen. *)
Theorem window_is_centred (screen_width screen_height width height : Z) :
  let '(x, y) := center_window screen_width screen_height width height in
  (0 <= (screen_width - width - x) - x <= 1)%Z
  /\ (0 <= (screen_height - height - y) - y <= 1)%Z.
Proof.
  unfold center_window.
  pose proof (Z.div_mod (screen_width - width) 2 ltac:(lia)) as Hx.
  pose proof (Z.mod_pos_bound (screen_width - width) 2 ltac:(lia)) as Bx.
  pose proof (Z.div_mod (screen_height - height) 2 ltac:(lia)) as Hy.
  pose proof (Z.mod_pos_bound (screen_height - height) 2 ltac:(lia)) as By.
  lia.
Qed.

(* ================================================================== *)
(** * The run as a whole *)
(* ================================================================== *)










Lemma header_names_spec (d : gmap string string)
    (l : list (string * option string)) (col : nat) :
  (forall c, In c (skipn (4 - col) l) ->
             d !! fst c = Some (default EmptyString (snd c))) ->
  header_names d col (map fst l)
  = map (fun _ => EmptyString) (firstn (4 - col) l)
    ++ map (fun c => default EmptyString (snd c)) (skipn (4 - col) l).
Proof.
  revert col. induction l as [|c l IH]; intros col H.
  - rewrite firstn_nil, skipn_nil. reflexivity.
  - cbn [map header_names]. destruct (3 <? col)%nat eqn:Hcol.
    + apply Nat.ltb_lt in Hcol.
      replace (4 - col)%nat with 0%nat in * by lia.
      cbn [firstn skipn map app] in *.
      rewrite (H c (or_introl eq_refl)). cbn [andb].
      rewrite bool_decide_eq_true_2 by (eexists; reflexivity).
      cbn [default]. f_equal.
      rewrite (IH (S col)).
      * replace (4 - S col)%nat with 0%nat by lia. reflexivity.
      * replace (4 - S col)%nat with 0%nat by lia.
        intros c' Hc'. apply H. right. exact Hc'.
    + apply Nat.ltb_ge in Hcol.
      replace (4 - col)%nat with (S (4 - S col)) in * by lia.
      cbn [firstn skipn map app andb] in *. f_equal.
      apply IH. exact H.
Qed.

(** X19.  Flattening the header and putting its second row back is a round
    trip: when the codes of the metric columns are pairwise different, the
    second header row written to the "Data" sheet is empty over the first
    three columns and holds, over every metric column, the name the column
    was read with, or the empty text when it had none. *)
Theorem second_header_row_restored (cols : list (string * option string)) :
  List.NoDup (metric_cols_of cols) ->
  second_header_row cols
  = map (fun _ => EmptyString) (firstn 3 cols)
    ++ map (fun c => default EmptyString (snd c)) (skipn 3 cols).
Proof.
  intro Hnd. unfold second_header_row.
  apply (header_names_spec (metric_names_of cols) cols 1).
  intros c Hc. unfold metric_names_of.
  apply (assign_unique (fun col => default EmptyString (snd col)));
    assumption.
Qed.

Lemma second_header_row_restored_witness :
  List.NoDup (metric_cols_of Samples.two_rows)
  /\ second_header_row Samples.two_rows
     = [""; ""; ""; "Population"; ""; "Budget"]%string.
Proof.
  assert (H : List.NoDup (metric_cols_of Samples.two_rows)).
  { cbn. repeat (constructor; [cbn; intuition discriminate|]). constructor. }
  split; [exact H|].
  exact (second_header_row_restored Samples.two_rows H).
Defined.

(* ================================================================== *)
(** * The lines of the summary sheet *)
(* ================================================================== *)

Lemma insert_by_perm {A} (key : A -> cell) (x : A) (l out : list A) :
  insert_by key x l = Ok out -> Permutation (x :: l) out.
Proof.
  revert out. induction l as [|y l IH]; intros out; cbn [insert_by].
  - intros [= <-]. reflexivity.
  - destruct (py_lt (key x) (key y)) as [[|]|e]; cbn.
    + intros [= <-]. reflexivity.
    + destruct (insert_by key x l) as [rest|e]; cbn; [|discriminate].
      intros [= <-]. rewrite perm_swap. apply perm_skip, IH. reflexivity.
    + discriminate.
Qed.

Lemma sort_by_perm {A} (key : A -> cell) (xs out : list A) :
  sort_by key xs = Ok out -> Permutation xs out.
Proof.
  unfold sort_by. change xs with ([] ++ xs) at 2. generalize (@nil A).
  induction xs as [|x xs IH]; intros acc; cbn [for_each].
  - intros [= <-]. rewrite app_nil_r. reflexivity.
  - destruct (insert_by key x acc) as [acc'|e] eqn:Hi; cbn; [|discriminate].
    intro H. apply IH in H. etransitivity; [|exact H].
    etransitivity; [symmetry; apply Permutation_middle|].
    change (x :: acc ++ xs) with ((x :: acc) ++ xs).
    apply Permutation_app_tail. exact (insert_by_perm key x acc acc' Hi).
Qed.

Lemma summary_fill_of_kind (metric_names : gmap string string) (ev : lists)
    (s : summary_row) :
  In s (summary_data metric_names ev) ->
  summary_fill s = Some (colour_of (su_note s)).
Proof.
  unfold summary_data. intro H.
  apply in_app_or in H as [H|H]; [|apply in_app_or in H as [H|H]];
    apply in_map_iff in H as (x & <- & _); reflexivity.
Qed.

(** X20.  Whenever the run completes, whatever the jurisdictions are, the
    "Events Summary" sheet has exactly one line for each tuple of the
    three lists, and the value cell of every line is filled with the
    colour of its kind: red for an anomaly, blue for a missing value,
    yellow for a non-numeric value. *)
Theorem summary_lines_match_events
    (float_of_str : string -> option Q) (str_of_float : Q -> string)
    (df : list row) (metric_cols : list string)
    (metric_names : gmap string string) (threshold target_year : Q)
    (rep : report) :
  run_anomaly_detection float_of_str str_of_float df metric_cols
    metric_names threshold target_year = Ok rep ->
  detection_loop float_of_str (df_detection df) metric_cols threshold
    target_year = Ok (rep_events rep)
  /\ Permutation (summary_data metric_names (rep_events rep))
                 (rep_summary rep)
  /\ length (rep_summary rep)
     = (length (anomalies (rep_events rep))
        + length (missing_data (rep_events rep))
        + length (non_numeric (rep_events rep)))%nat
  /\ forall s, In s (rep_summary rep) ->
       summary_fill s = Some (colour_of (su_note s)).
Proof.
  unfold run_anomaly_detection. cbv zeta.
  destruct (detection_loop float_of_str (df_detection df) metric_cols
              threshold target_year) as [ev|e]; cbn [res_bind];
    [|discriminate].
  destruct (sort_summary (summary_data metric_names ev)) as [out|e] eqn:Hs;
    cbn [res_bind]; [|discriminate].
  intros [= <-]. cbn [rep_events rep_summary].
  apply sort_by_perm in Hs.
  split; [reflexivity|]. split; [exact Hs|]. split.
  - rewrite <- (Permutation_length Hs).
    unfold summary_data. rewrite !length_app, !length_map. lia.
  - intros s Hin. apply (summary_fill_of_kind metric_names ev).
    apply (Permutation_in s (Permutation_sym Hs) Hin).
Qed.

Section SummarySheetSamples.

Import Samples.
Local Open Scope string_scope.

Lemma coloured_run :
  exists rep,
    run_anomaly_detection Lit.float_of_str Lit.str_of_float coloured ["m1"]
      ∅ 1 2024 = Ok rep
    /\ map su_type (rep_summary rep)
       = ["Non-Numeric"; "Anomaly"; "Missing"; "Non-Numeric"].
Proof. eexists. split; vm_compute; reflexivity. Qed.

(** The summary of [coloured]: the text of A, then the three lines of B. *)
Lemma summary_lines_match_events_witness :
  exists rep,
    run_anomaly_detection Lit.float_of_str Lit.str_of_float coloured ["m1"]
      ∅ 1 2024 = Ok rep
    /\ map su_type (rep_summary rep)
       = ["Non-Numeric"; "Anomaly"; "Missing"; "Non-Numeric"]
    /\ length (rep_summary rep)
       = (length (anomalies (rep_events rep))
          + length (missing_data (rep_events rep))
          + length (non_numeric (rep_events rep)))%nat
    /\ forall s, In s (rep_summary rep) ->
         summary_fill s = Some (colour_of (su_note s)).
Proof.
  destruct coloured_run as (rep & Hrun & Htypes).
  exists rep. split; [exact Hrun|]. split; [exact Htypes|].
  exact (proj2 (proj2 (summary_lines_match_events Lit.float_of_str
                         Lit.str_of_float coloured ["m1"] ∅ 1 2024 rep
                         Hrun))).
Defined.

End SummarySheetSamples.
